(** * ThreatVault plugins: scanner reports normalised to the VAPT row format

    A shallow embedding of the plugins' [process] functions and of the
    YesWeHack exporter's mapping functions, with the properties the
    specification states about them.

    Modelling conventions.
    - A Python [str] is a [string]; case conversion and the white space
      classes act on the ASCII range.
    - A decoded JSON document is a [json] value; a Python [dict] is an
      association list, so that the insertion order of its keys (which
      becomes the column order of a frame) is kept.  Numbers are integers.
    - A polars frame is its list of column names and its list of rows; a row
      is an association list from column name to cell, a cell is a [json]
      value ([JNull] is polars' null).  A frame carries no column types: an
      expression of the [str] namespace acts cell by cell, keeps null and
      refuses a cell that is not a text, where polars refuses the whole
      column when its type is not String (the type of a column of a frame
      built from Python values is Null when all its cells are None).  The
      properties that state that a plugin returns a result are therefore
      stated for uploads with texts in the columns of such expressions, for
      severities of the ASCII range, and for line numbers that fit the
      64-bit integers of polars.
    - The decoders of the libraries ([json.loads], [ET.parse],
      [pl.read_csv]) are not part of the plugins: an uploaded file is given
      by what its decoder makes of it, [None] when the decoder raises.
    - A raised exception is the [Err] case of [result]. *)

From Stdlib Require Import String Ascii List ZArith Bool Arith Lia DecimalString.
Import ListNotations.
Set Warnings "-register-all".
Open Scope list_scope.
Open Scope string_scope.

(** ** Python strings *)

Module Str.

Definition nl : string := String (ascii_of_nat 10) EmptyString.

Definition code (c : ascii) : nat := nat_of_ascii c.

Definition between (lo hi : nat) (c : ascii) : bool :=
  ((lo <=? code c)%nat && (code c <=? hi)%nat)%bool.

Definition is_lower (c : ascii) : bool := between 97 122 c.
Definition is_upper (c : ascii) : bool := between 65 90 c.
Definition is_digit (c : ascii) : bool := between 48 57 c.

Definition upper_char (c : ascii) : ascii :=
  if is_lower c then ascii_of_nat (code c - 32) else c.

Definition lower_char (c : ascii) : ascii :=
  if is_upper c then ascii_of_nat (code c + 32) else c.

Fixpoint map_chars (f : ascii -> ascii) (s : string) : string :=
  match s with
  | EmptyString => EmptyString
  | String c s' => String (f c) (map_chars f s')
  end.

(** [str.upper()], [str.lower()], polars' [str.to_uppercase()]. *)
Definition upper : string -> string := map_chars upper_char.
Definition lower : string -> string := map_chars lower_char.

(** [s.isascii()]: on such a text the case conversions of Python and of
    polars are the ones above. *)
Fixpoint is_ascii (s : string) : bool :=
  match s with
  | EmptyString => true
  | String c s' => (code c <? 128)%nat && is_ascii s'
  end.

(** White space of Python's [str.strip()] and of [\s] in [re]. *)
Definition py_space (c : ascii) : bool :=
  between 9 13 c || between 28 32 c.

(** White space of Rust's [trim] (polars' [strip_chars()]) and of [\s] in
    the regex crate. *)
Definition rs_space (c : ascii) : bool :=
  between 9 13 c || (code c =? 32)%nat.

Fixpoint lstrip (sp : ascii -> bool) (s : string) : string :=
  match s with
  | EmptyString => EmptyString
  | String c s' => if sp c then lstrip sp s' else s
  end.

Fixpoint rstrip (sp : ascii -> bool) (s : string) : string :=
  match s with
  | EmptyString => EmptyString
  | String c s' =>
      match rstrip sp s' with
      | EmptyString => if sp c then EmptyString else String c EmptyString
      | t => String c t
      end
  end.

Definition strip (sp : ascii -> bool) (s : string) : string :=
  rstrip sp (lstrip sp s).

(** [s.replace(old, new)]: the occurrences of [old] are found from the left
    and do not overlap.  [skip] counts the characters of a matched
    occurrence that are still to be passed over. *)
Fixpoint replace_from (old new : string) (skip : nat) (s : string) : string :=
  match s with
  | EmptyString => EmptyString
  | String c s' =>
      match skip with
      | S k => replace_from old new k s'
      | O =>
          if prefix old s
          then new ++ replace_from old new (String.length old - 1) s'
          else String c (replace_from old new 0 s')
      end
  end.

Fixpoint intersperse (new s : string) : string :=
  match s with
  | EmptyString => new
  | String c s' => new ++ String c (intersperse new s')
  end.

Definition replace (old new s : string) : string :=
  match old with
  | EmptyString => intersperse new s
  | _ => replace_from old new 0 s
  end.

(** [c in s] for a one-character [c]. *)
Fixpoint has_char (c : ascii) (s : string) : bool :=
  match s with
  | EmptyString => false
  | String d s' => Ascii.eqb c d || has_char c s'
  end.

(** [s.split(c)[0]]: the text before the first [c]. *)
Fixpoint before (c : ascii) (s : string) : string :=
  match s with
  | EmptyString => EmptyString
  | String d s' => if Ascii.eqb c d then EmptyString else String d (before c s')
  end.

Fixpoint filter_chars (keep : ascii -> bool) (s : string) : string :=
  match s with
  | EmptyString => EmptyString
  | String c s' =>
      if keep c then String c (filter_chars keep s') else filter_chars keep s'
  end.

(** [s[:n]]. *)
Fixpoint take (n : nat) (s : string) : string :=
  match n, s with
  | S k, String c s' => String c (take k s')
  | _, _ => EmptyString
  end.

(** [s[:n]]: the first [n] characters, and for a negative [n] all but the
    last [-n]. *)
Definition slice_to (n : Z) (s : string) : string :=
  if (n <? 0)%Z then take (String.length s - Z.to_nat (- n)) s
  else take (Z.to_nat n) s.

Fixpoint drop (n : nat) (s : string) : string :=
  match n, s with
  | S k, String _ s' => drop k s'
  | _, _ => s
  end.

(** [sub in s]. *)
Fixpoint contains (sub s : string) : bool :=
  prefix sub s ||
  match s with
  | EmptyString => false
  | String _ s' => contains sub s'
  end.

Definition mem (s : string) (l : list string) : bool :=
  existsb (String.eqb s) l.

(** [s.split(c)] and [sep.join(parts)]. *)
Fixpoint split (c : ascii) (s : string) : list string :=
  match s with
  | EmptyString => [EmptyString]
  | String d s' =>
      if Ascii.eqb c d then EmptyString :: split c s'
      else
        match split c s' with
        | p :: ps => String d p :: ps
        | [] => [String d EmptyString]
        end
  end.

Fixpoint join (sep : string) (parts : list string) : string :=
  match parts with
  | [] => EmptyString
  | [p] => p
  | p :: ps => p ++ sep ++ join sep ps
  end.

End Str.

(** ** Decoded JSON values and Python dictionaries *)

Inductive json : Type :=
| JNull
| JBool (b : bool)
| JNum (z : Z)
| JStr (s : string)
| JArr (items : list json)
| JObj (fields : list (string * json)).

Definition dict := list (string * json).

(** Python's truth value of an object. *)
Definition truthy (v : json) : bool :=
  match v with
  | JNull => false
  | JBool b => b
  | JNum z => negb (Z.eqb z 0)
  | JStr s => negb (String.eqb s EmptyString)
  | JArr l => match l with [] => false | _ => true end
  | JObj d => match d with [] => false | _ => true end
  end.

(** [a or b]. *)
Definition py_or (a b : json) : json := if truthy a then a else b.

Fixpoint lookup (k : string) (d : dict) : option json :=
  match d with
  | [] => None
  | (k', v) :: d' => if String.eqb k k' then Some v else lookup k d'
  end.

(** [d.get(k, default)] and [k in d]. *)
Definition dict_get (d : dict) (k : string) (default : json) : json :=
  match lookup k d with Some v => v | None => default end.

Definition has_key (d : dict) (k : string) : bool :=
  match lookup k d with Some _ => true | None => false end.

(** ** Exceptions *)

Inductive error : Type :=
| ValueError (msg : string)
| ParseError
| TypeError
| AttributeError
| KeyError (key : string)
| ColumnNotFoundError
| SchemaError
| DuplicateError.

Inductive result (A : Type) : Type :=
| Ok (a : A)
| Err (e : error).

Arguments Ok {A} a.
Arguments Err {A} e.

Definition bind {A B : Type} (m : result A) (k : A -> result B) : result B :=
  match m with
  | Ok a => k a
  | Err e => Err e
  end.

Notation "x <- m ;; k" := (bind m (fun x => k))
  (at level 61, m at next level, right associativity).

Fixpoint mapM {A B : Type} (f : A -> result B) (l : list A) : result (list B) :=
  match l with
  | [] => Ok []
  | a :: l' => b <- f a ;; bs <- mapM f l' ;; Ok (b :: bs)
  end.

(** [v.get(k, default)] on a value that need not be a dictionary. *)
Definition get (v : json) (k : string) (default : json) : result json :=
  match v with
  | JObj d => Ok (dict_get d k default)
  | _ => Err AttributeError
  end.

(** [v[k]] for a string [k]. *)
Definition getitem (v : json) (k : string) : result json :=
  match v with
  | JObj d => match lookup k d with Some x => Ok x | None => Err (KeyError k) end
  | _ => Err TypeError
  end.

Definition is_str (k : string) (v : json) : bool :=
  match v with JStr s => String.eqb k s | _ => false end.

(** [k in v] for a string [k]: a key of a dictionary, an element of a list,
    a part of a string. *)
Definition py_in (k : string) (v : json) : result bool :=
  match v with
  | JObj d => Ok (has_key d k)
  | JArr l => Ok (existsb (is_str k) l)
  | JStr s => Ok (Str.contains k s)
  | _ => Err TypeError
  end.

Fixpoint chars_of (s : string) : list json :=
  match s with
  | EmptyString => []
  | String c s' => JStr (String c EmptyString) :: chars_of s'
  end.

(** The items a [for] loop over [v] visits. *)
Definition py_iter (v : json) : result (list json) :=
  match v with
  | JArr l => Ok l
  | JObj d => Ok (map (fun kv => JStr (fst kv)) d)
  | JStr s => Ok (chars_of s)
  | _ => Err TypeError
  end.

(** [str(v)] and [repr(v)]. *)
Module Repr.

Definition decimal (z : Z) : string := NilZero.string_of_int (Z.to_int z).

Definition hex_digit (n : nat) : ascii :=
  if (n <? 10)%nat then ascii_of_nat (48 + n) else ascii_of_nat (87 + n).

Definition quote : ascii := ascii_of_nat 39.
Definition dquote : ascii := ascii_of_nat 34.
Definition backslash : ascii := ascii_of_nat 92.

Definition escape (q c : ascii) : string :=
  let one (d : ascii) := String backslash (String d EmptyString) in
  if Ascii.eqb c q || Ascii.eqb c backslash then one c
  else if (Str.code c =? 9)%nat then one "t"%char
  else if (Str.code c =? 10)%nat then one "n"%char
  else if (Str.code c =? 13)%nat then one "r"%char
  else if (Str.code c <? 32)%nat || (Str.code c =? 127)%nat
  then String backslash
         (String "x"%char
            (String (hex_digit (Str.code c / 16))
               (String (hex_digit (Str.code c mod 16)) EmptyString)))
  else String c EmptyString.

Fixpoint escape_all (q : ascii) (s : string) : string :=
  match s with
  | EmptyString => EmptyString
  | String c s' => escape q c ++ escape_all q s'
  end.

Definition of_str (s : string) : string :=
  let q := if Str.has_char quote s && negb (Str.has_char dquote s)
           then dquote else quote in
  String q (escape_all q s ++ String q EmptyString).

Fixpoint repr (v : json) : string :=
  match v with
  | JNull => "None"
  | JBool true => "True"
  | JBool false => "False"
  | JNum z => decimal z
  | JStr s => of_str s
  | JArr l => "[" ++ Str.join ", " (map repr l) ++ "]"
  | JObj d =>
      "{" ++ Str.join ", " (map (fun kv => of_str (fst kv) ++ ": " ++ repr (snd kv)) d)
          ++ "}"
  end.

End Repr.

Definition py_str (v : json) : string :=
  match v with
  | JStr s => s
  | _ => Repr.repr v
  end.

(** ** Regular expressions

    The patterns of the plugins, matched the way the regex crate and
    Python's [re] report a match: the leftmost start, and at that start the
    first alternative that lets the rest of the pattern match.  The anchors
    are those of a pattern without the [m] flag. *)

Module Regex.

Inductive regex : Type :=
| Eps
| Lit (c : ascii)
| Dot (dotall : bool)
| Class (p : ascii -> bool)
| Bol
| Eol
| Seq (r1 r2 : regex)
| Alt (r1 r2 : regex)
| Star (greedy : bool) (r : regex)
| Group (index : nat) (r : regex).

Record state : Type := mkState {
  pos : nat;
  rest : string;
  groups : list (nat * string)
}.

Definition step (ok : ascii -> bool) (st : state) (k : state -> option state)
  : option state :=
  match rest st with
  | EmptyString => None
  | String c s' => if ok c then k (mkState (S (pos st)) s' (groups st)) else None
  end.

Definition orelse (a b : option state) : option state :=
  match a with Some x => Some x | None => b end.

Definition is_nl (c : ascii) : bool := (Str.code c =? 10)%nat.

Fixpoint run (r : regex) (st : state) (k : state -> option state) : option state :=
  match r with
  | Eps => k st
  | Lit c => step (Ascii.eqb c) st k
  | Dot dotall => step (fun c => dotall || negb (is_nl c)) st k
  | Class p => step p st k
  | Bol => if (pos st =? 0)%nat then k st else None
  | Eol => match rest st with EmptyString => k st | _ => None end
  | Seq r1 r2 => run r1 st (fun st' => run r2 st' k)
  | Alt r1 r2 => orelse (run r1 st k) (run r2 st k)
  | Group i r1 =>
      run r1 st
        (fun st' =>
           k (mkState (pos st') (rest st')
                ((i, Str.take (pos st' - pos st) (rest st)) :: groups st')))
  | Star greedy r1 =>
      (fix loop (fuel : nat) (st : state) : option state :=
         match fuel with
         | O => k st
         | S fuel' =>
             let again :=
               run r1 st
                 (fun st' => if (pos st <? pos st')%nat then loop fuel' st' else None) in
             if greedy then orelse again (k st) else orelse (k st) again
         end) (S (String.length (rest st))) st
  end.

(** A pattern: the text the source writes, and what it denotes. *)
Record pattern : Type := mkPattern {
  text : string;
  ast : regex
}.

(** A match: where it starts, where it ends, the text of its groups. *)
Record found : Type := mkFound {
  start : nat;
  stop : nat;
  captured : list (nat * string)
}.

Fixpoint search_from (r : regex) (fuel at_ : nat) (s : string) : option found :=
  match run r (mkState at_ s []) Some with
  | Some st => Some (mkFound at_ (pos st) (groups st))
  | None =>
      match fuel, s with
      | S fuel', String _ s' => search_from r fuel' (S at_) s'
      | _, _ => None
      end
  end.

Definition search (r : regex) (s : string) : option found :=
  search_from r (String.length s) 0 s.

Fixpoint group_text (i : nat) (gs : list (nat * string)) : option string :=
  match gs with
  | [] => None
  | (j, t) :: gs' => if (i =? j)%nat then Some t else group_text i gs'
  end.

(** The text of group [i] in the first match. *)
Definition extract (r : regex) (i : nat) (s : string) : option string :=
  match search r s with
  | Some m => group_text i (captured m)
  | None => None
  end.

(** The first match replaced by [by_]. *)
Definition replace_first (r : regex) (by_ : string) (s : string) : string :=
  match search r s with
  | Some m => Str.take (start m) s ++ by_ ++ Str.drop (stop m) s
  | None => s
  end.

Fixpoint lit (s : string) : regex :=
  match s with
  | EmptyString => Eps
  | String c s' => Seq (Lit c) (lit s')
  end.

Fixpoint seq (rs : list regex) : regex :=
  match rs with
  | [] => Eps
  | r :: rs' => Seq r (seq rs')
  end.

End Regex.

(** ** Frames and polars expressions *)

Definition cell := json.
Definition row := list (string * cell).

Record DataFrame : Type := mkDataFrame {
  columns : list string;
  rows : list row
}.

(** The canonical schema of the VAPT format, as every plugin spells it for
    an empty result. *)
Definition canonical : list string :=
  ["cve"; "risk"; "host"; "port"; "name"; "description"; "remediation";
   "evidence"; "vpr_score"].

Definition valid_risks : list string := ["CRITICAL"; "HIGH"; "MEDIUM"; "LOW"].

Module Frame.

(** [pl.DataFrame(schema=...)]. *)
Definition empty (schema : list string) : DataFrame :=
  mkDataFrame schema [].

(** [pl.DataFrame(records)] for a non-empty list of dictionaries that share
    their keys and hold values of one type under each key: the columns are
    the keys in insertion order. *)
Definition of_records (records : list dict) : DataFrame :=
  mkDataFrame (match records with r :: _ => map fst r | [] => [] end) records.

(** Expressions.  [Str f e] is an expression of the [str] namespace on a
    column of texts: it keeps null and refuses a cell that is not a string.
    [Each f e] applies [f] to every cell, null included. *)
Inductive expr : Type :=
| Col (name : string)
| Lit (v : cell)
| Str (f : string -> cell) (e : expr)
| Each (f : cell -> result cell) (e : expr)
| Coalesce (e1 e2 : expr).

Fixpoint refs (e : expr) : list string :=
  match e with
  | Col n => [n]
  | Lit _ => []
  | Str _ e' => refs e'
  | Each _ e' => refs e'
  | Coalesce e1 e2 => (refs e1 ++ refs e2)%list
  end.

Fixpoint eval (e : expr) (r : row) : result cell :=
  match e with
  | Col n =>
      match lookup n r with
      | Some v => Ok v
      | None => Err ColumnNotFoundError
      end
  | Lit v => Ok v
  | Str f e' =>
      c <- eval e' r ;;
      match c with
      | JStr s => Ok (f s)
      | JNull => Ok JNull
      | _ => Err SchemaError
      end
  | Each f e' => c <- eval e' r ;; f c
  | Coalesce e1 e2 =>
      a <- eval e1 r ;;
      b <- eval e2 r ;;
      Ok (match a with JNull => b | _ => a end)
  end.

(** [.str.replace_all(pat, by)] for a pattern without regex operators,
    [.str.to_uppercase()], [.str.strip_chars()]. *)
Definition replace_all (pat by_ : string) : expr -> expr :=
  Str (fun s => JStr (Str.replace pat by_ s)).

Definition to_uppercase : expr -> expr :=
  Str (fun s => JStr (Str.upper s)).

Definition strip_chars : expr -> expr :=
  Str (fun s => JStr (Str.strip Str.rs_space s)).

(** [.str.extract(pattern, i)] and [.str.replace(pattern, by)]. *)
Definition extract (pattern : Regex.pattern) (i : nat) : expr -> expr :=
  Str (fun s =>
         match Regex.extract (Regex.ast pattern) i s with
         | Some t => JStr t
         | None => JNull
         end).

Definition replace (pattern : Regex.pattern) (by_ : string) : expr -> expr :=
  Str (fun s => JStr (Regex.replace_first (Regex.ast pattern) by_ s)).

(** [e != lit] and [e.is_in(values)] on a string column, [e.is_not_null()]. *)
Definition ne (lit : string) : expr -> expr :=
  Str (fun s => JBool (negb (String.eqb s lit))).

Definition is_in (values : list string) : expr -> expr :=
  Str (fun s => JBool (Str.mem s values)).

Definition is_not_null : expr -> expr :=
  Each (fun c => Ok (JBool (match c with JNull => false | _ => true end))).

(** [.fill_null(v)]: with a text for [v] the result is a column of texts,
    in which a number or a boolean stands as its text. *)
Definition fill_null (v : cell) : expr -> expr :=
  Each (fun c =>
          Ok (match c, v with
              | JNull, _ => v
              | JNum z, JStr _ => JStr (Repr.decimal z)
              | JBool b, JStr _ => JStr (if b then "true" else "false")
              | _, _ => c
              end)).

(** [.struct.field(name)]. *)
Definition field (name : string) : expr -> expr :=
  Each (fun c =>
          match c with
          | JObj d => Ok (dict_get d name JNull)
          | JNull => Ok JNull
          | _ => Err SchemaError
          end).

(** [.cast(pl.Utf8)]. *)
Definition cast_utf8 : expr -> expr :=
  Each (fun c =>
          match c with
          | JNull => Ok JNull
          | JStr s => Ok (JStr s)
          | JNum z => Ok (JStr (Repr.decimal z))
          | JBool b => Ok (JStr (if b then "true" else "false"))
          | _ => Err SchemaError
          end).

(** [.map_elements(f)]: [f] is not called on null. *)
Definition map_elements (f : cell -> result cell) : expr -> expr :=
  Each (fun c => match c with JNull => Ok JNull | _ => f c end).

(** A cell of a column of type [pl.Int64]: an integer outside the 64-bit
    range does not fit it. *)
Definition int64 (n : Z) : result cell :=
  if ((- 2 ^ 63 <=? n) && (n <? 2 ^ 63))%Z then Ok (JNum n) else Err SchemaError.

(** A named column set in a row: in place when the row has it, at the end
    otherwise. *)
Fixpoint set (k : string) (v : cell) (r : row) : row :=
  match r with
  | [] => [(k, v)]
  | (k', v') :: r' =>
      if String.eqb k k' then (k', v) :: r' else (k', v') :: set k v r'
  end.

Fixpoint add_name (k : string) (names : list string) : list string :=
  match names with
  | [] => [k]
  | k' :: names' => if String.eqb k k' then names else k' :: add_name k names'
  end.

Definition known (names : list string) (e : expr) : bool :=
  forallb (fun n => Str.mem n names) (refs e).

Definition all_known (names : list string) (es : list expr) : bool :=
  forallb (known names) es.

Definition eval_named (r : row) (a : string * expr) : result (string * cell) :=
  v <- eval (snd a) r ;; Ok (fst a, v).

Definition set_all (vals : list (string * cell)) (r : row) : row :=
  fold_left (fun acc kv => set (fst kv) (snd kv) acc) vals r.

(** [df.with_columns(...)]: every expression reads the frame as it was
    before the call. *)
Definition with_columns_row (assigns : list (string * expr)) (r : row) : result row :=
  vals <- mapM (eval_named r) assigns ;; Ok (set_all vals r).

Definition with_columns (assigns : list (string * expr)) (df : DataFrame)
  : result DataFrame :=
  if all_known (columns df) (map snd assigns)
  then
    rs <- mapM (with_columns_row assigns) (rows df) ;;
    Ok (mkDataFrame
          (fold_left (fun acc a => add_name (fst a) acc) assigns (columns df)) rs)
  else Err ColumnNotFoundError.

Fixpoint nodup_names (names : list string) : bool :=
  match names with
  | [] => true
  | n :: names' => negb (Str.mem n names') && nodup_names names'
  end.

(** [df.select(...)]. *)
Definition select_row (exprs : list (string * expr)) (r : row) : result row :=
  mapM (eval_named r) exprs.

Definition select (exprs : list (string * expr)) (df : DataFrame) : result DataFrame :=
  if all_known (columns df) (map snd exprs)
  then
    if nodup_names (map fst exprs)
    then
      rs <- mapM (select_row exprs) (rows df) ;;
      Ok (mkDataFrame (map fst exprs) rs)
    else Err DuplicateError
  else Err ColumnNotFoundError.

Definition named (names : list string) : list (string * expr) :=
  map (fun n => (n, Col n)) names.

(** [df.filter(p1, p2, ...)]: a row is kept when every predicate is true on
    it; a predicate that is null drops the row. *)
Definition is_true (v : cell) : bool :=
  match v with JBool true => true | _ => false end.

Definition keep (preds : list expr) (r : row) : result bool :=
  vals <- mapM (fun p => eval p r) preds ;; Ok (forallb is_true vals).

Fixpoint filterM (p : row -> result bool) (l : list row) : result (list row) :=
  match l with
  | [] => Ok []
  | r :: l' =>
      b <- p r ;;
      rs <- filterM p l' ;;
      Ok (if b then r :: rs else rs)
  end.

Definition filter (preds : list expr) (df : DataFrame) : result DataFrame :=
  if all_known (columns df) preds
  then rs <- filterM (keep preds) (rows df) ;; Ok (mkDataFrame (columns df) rs)
  else Err ColumnNotFoundError.

(** Columns renamed by a function of their name:
    [df.select(pl.all().name.map(f))]. *)
Definition rename_keys (f : string -> string) (r : row) : row :=
  map (fun kv => (f (fst kv), snd kv)) r.

Definition rename_all (f : string -> string) (df : DataFrame) : result DataFrame :=
  if nodup_names (map f (columns df))
  then Ok (mkDataFrame (map f (columns df)) (map (rename_keys f) (rows df)))
  else Err DuplicateError.

(** [df.rename({old: new, ...})]. *)
Fixpoint renamed (mapping : list (string * string)) (n : string) : string :=
  match mapping with
  | [] => n
  | (old, new) :: mapping' => if String.eqb n old then new else renamed mapping' n
  end.

Definition rename (mapping : list (string * string)) (df : DataFrame)
  : result DataFrame :=
  if forallb (fun m => Str.mem (fst m) (columns df)) mapping
  then rename_all (renamed mapping) df
  else Err ColumnNotFoundError.

(** [df.drop([...])]. *)
Definition drop_keys (names : list string) (r : row) : row :=
  List.filter (fun kv => negb (Str.mem (fst kv) names)) r.

Definition drop (names : list string) (df : DataFrame) : result DataFrame :=
  if forallb (fun n => Str.mem n (columns df)) names
  then
    Ok (mkDataFrame
          (List.filter (fun n => negb (Str.mem n names)) (columns df))
          (map (drop_keys names) (rows df)))
  else Err ColumnNotFoundError.

(** [df.explode(col)]: one row for each item of the list in [col]; a row
    whose list is empty or null stays, with null in [col]. *)
Definition explode_row (col : string) (r : row) : result (list row) :=
  match lookup col r with
  | Some (JArr []) => Ok [set col JNull r]
  | Some JNull => Ok [r]
  | Some (JArr items) => Ok (map (fun item => set col item r) items)
  | Some _ => Err SchemaError
  | None => Err ColumnNotFoundError
  end.

Definition explode (col : string) (df : DataFrame) : result DataFrame :=
  if Str.mem col (columns df)
  then
    rs <- mapM (explode_row col) (rows df) ;;
    Ok (mkDataFrame (columns df) (concat rs))
  else Err ColumnNotFoundError.

(** [df.unnest(col)]: the fields of the struct in [col] become columns at
    the place of [col].  The fields of the struct type are the keys met in
    the column, in the order in which they are met; a struct that lacks one
    has null there, and so has a null struct. *)
Fixpoint struct_fields (cells : list cell) (acc : list string) : result (list string) :=
  match cells with
  | [] => Ok acc
  | JObj d :: cells' =>
      struct_fields cells' (fold_left (fun a kv => add_name (fst kv) a) d acc)
  | JNull :: cells' => struct_fields cells' acc
  | _ :: cells' => Err SchemaError
  end.

Definition is_struct (c : cell) : bool :=
  match c with JObj _ => true | _ => false end.

Fixpoint splice (col : string) (fields : list string) (names : list string) : list string :=
  match names with
  | [] => []
  | n :: names' =>
      if String.eqb n col then (fields ++ names')%list
      else n :: splice col fields names'
  end.

Fixpoint unnest_row (col : string) (fields : list string) (r : row) : row :=
  match r with
  | [] => []
  | (k, v) :: r' =>
      if String.eqb k col
      then
        (map (fun f => (f, match v with JObj d => dict_get d f JNull | _ => JNull end))
             fields ++ r')%list
      else (k, v) :: unnest_row col fields r'
  end.

Definition column_cells (col : string) (df : DataFrame) : list cell :=
  map (fun r => match lookup col r with Some v => v | None => JNull end) (rows df).

Definition unnest (col : string) (df : DataFrame) : result DataFrame :=
  if Str.mem col (columns df)
  then
    let cells := column_cells col df in
    if existsb is_struct cells
    then
      fields <- struct_fields cells [] ;;
      let names := splice col fields (columns df) in
      if nodup_names names
      then Ok (mkDataFrame names (map (unnest_row col fields) (rows df)))
      else Err DuplicateError
    else Err SchemaError
  else Err ColumnNotFoundError.

End Frame.

(** A table from strings to strings: the attributes of an XML element, a
    dictionary of string constants. *)
Fixpoint assoc (k : string) (l : list (string * string)) : option string :=
  match l with
  | [] => None
  | (k', v) :: l' => if String.eqb k k' then Some v else assoc k l'
  end.

(** ** XML elements, as [xml.etree.ElementTree] gives them *)

Inductive element : Type :=
| Element (tag : string) (attrib : list (string * string))
          (text : option string) (children : list element).

Module ET.

Definition tag (e : element) : string :=
  match e with Element t _ _ _ => t end.

Definition attrib (e : element) : list (string * string) :=
  match e with Element _ a _ _ => a end.

Definition text (e : element) : option string :=
  match e with Element _ _ t _ => t end.

Definition children (e : element) : list element :=
  match e with Element _ _ _ c => c end.

(** [e.findall(name)] and [e.find(name)] for a plain tag name: the direct
    children with that tag, and the first of them. *)
Definition findall (e : element) (name : string) : list element :=
  filter (fun c => String.eqb (tag c) name) (children e).

Definition find (e : element) (name : string) : option element :=
  match findall e name with
  | c :: _ => Some c
  | [] => None
  end.

(** [e.findtext(name, default)]: the text of the first such child, the empty
    string when that child has no text, [default] when there is no child. *)
Definition findtext (e : element) (name : string) (default : string) : string :=
  match find e name with
  | Some c => match text c with Some t => t | None => EmptyString end
  | None => default
  end.

(** [e.get(key, default)]. *)
Definition get (e : element) (key : string) (default : string) : string :=
  match assoc key (attrib e) with Some v => v | None => default end.

End ET.

(** [a or b] on strings, and on an optional string on the left. *)
Definition str_or (a b : string) : string :=
  if String.eqb a EmptyString then b else a.

Definition opt_or (a : option string) (b : string) : string :=
  match a with
  | Some s => str_or s b
  | None => b
  end.

(** ** VAPT/DAST/BurpSuite/burpsuite.py *)

Module BurpSuite.

Import Frame.

Definition supported_types : list string :=
  ["xml"; "application/xml"; "text/xml"; "application/x-xml"].

Definition accepts (file_type : string) : bool :=
  Str.mem (Str.lower file_type) (map Str.lower supported_types).

(** The body of the loop over [root.findall('issue')]. *)
Definition record_of (issue : element) : dict :=
  let severity := ET.findtext issue "severity" "" in
  let host :=
    match ET.find issue "host" with
    | Some host_elem =>
        str_or (opt_or (ET.text host_elem) (ET.get host_elem "ip" "")) ""
    | None => ""
    end in
  let name := ET.findtext issue "name" "" in
  let issue_background := ET.findtext issue "issueBackground" "" in
  let issue_detail := ET.findtext issue "issueDetail" "" in
  let description :=
    if negb (String.eqb issue_background "") then issue_background else issue_detail in
  let remediation_background := ET.findtext issue "remediationBackground" "" in
  let remediation_detail := ET.findtext issue "remediationDetail" "" in
  let remediation :=
    if negb (String.eqb remediation_background "")
    then remediation_background else remediation_detail in
  let evidence :=
    match ET.find issue "requestresponse" with
    | Some requestresponse_elem =>
        match ET.find requestresponse_elem "request" with
        | Some request_elem => opt_or (ET.text request_elem) ""
        | None => ""
        end
    | None => ""
    end in
  [("cve", JStr "");
   ("risk", JStr severity);
   ("host", JStr host);
   ("port", JNum 0);
   ("name", JStr name);
   ("description", JStr description);
   ("remediation", JStr remediation);
   ("evidence", JStr evidence);
   ("vpr_score", JStr "")].

Definition records (root : element) : list dict :=
  map record_of (ET.findall root "issue").

Definition process (file : option element) (file_type : string) : result DataFrame :=
  if negb (accepts file_type)
  then Err (ValueError ("Unsupported file type: " ++ file_type ++ ". Expected XML format."))
  else
    match file with
    | None => Err ParseError
    | Some root =>
        match records root with
        | [] => Ok (empty canonical)
        | recs =>
            let df := of_records recs in
            df <- with_columns
                    [("description", replace_all Str.nl "<br/>" (Col "description"));
                     ("remediation", replace_all Str.nl "<br/>" (Col "remediation"));
                     ("evidence", replace_all Str.nl "<br/>" (Col "evidence"))] df ;;
            df <- with_columns [("risk", to_uppercase (Col "risk"))] df ;;
            filter [is_in valid_risks (Col "risk")] df
        end
    end.

End BurpSuite.

(** ** VAPT/DAST/BurpSuite/test_burpsuite.py *)

Module TestBurpSuite.

Import Frame.

Definition expected_columns : list string :=
  ["cve"; "risk"; "host"; "port"; "name"; "description"; "remediation";
   "evidence"; "vpr_score"].

(** [set(expected_columns) - set(df.columns)] and
    [set(df.columns) - set(expected_columns)]. *)
Definition missing_columns (df : DataFrame) : list string :=
  List.filter (fun c => negb (Str.mem c (columns df))) expected_columns.

Definition extra_columns (df : DataFrame) : list string :=
  List.filter (fun c => negb (Str.mem c expected_columns)) (columns df).

(** [~e] on a Boolean column. *)
Definition not_ : expr -> expr :=
  Each (fun c =>
          match c with
          | JBool b => Ok (JBool (negb b))
          | JNull => Ok JNull
          | _ => Err SchemaError
          end).

Definition invalid_risks (df : DataFrame) : result DataFrame :=
  filter [not_ (is_in ["CRITICAL"; "HIGH"; "MEDIUM"; "LOW"] (Col "risk"))] df.

(** [df.filter((pl.col(field) == "") | pl.col(field).is_null()).height] *)
Definition is_empty (c : cell) : result bool :=
  match c with
  | JNull => Ok true
  | JStr s => Ok (String.eqb s "")
  | _ => Err SchemaError
  end.

Definition empty_count (field : string) (df : DataFrame) : result nat :=
  if Str.mem field (columns df)
  then
    marks <- mapM (fun r => c <- eval (Col field) r ;; is_empty c) (rows df) ;;
    Ok (List.length (List.filter (fun b => b) marks))
  else Err ColumnNotFoundError.

(** ['https://' in sample_host or 'http://' in sample_host] for
    [sample_host = df['host'][0]]. *)
Definition uses_hostname (df : DataFrame) : result bool :=
  match rows df with
  | r :: _ =>
      sample_host <- eval (Col "host") r ;;
      match sample_host with
      | JStr s => Ok (Str.contains "https://" s || Str.contains "http://" s)
      | _ => Err TypeError
      end
  | [] => Err (KeyError "0")
  end.

(** The verdicts the test prints: the columns are the expected ones, they
    are in the expected order and, when the frame has rows, no row has a
    risk outside the enumeration, how many rows have an empty risk, host
    and name, and whether the first host holds a URL scheme. *)
Record verdict : Type := mkVerdict {
  schema_matches : bool;
  order_correct : bool;
  risks_valid : option bool;
  empty_counts : list nat;
  hostname : option bool
}.

Definition list_eqb (a b : list string) : bool :=
  if list_eq_dec string_dec a b then true else false.

Definition verify (df : DataFrame) : result verdict :=
  let schema :=
    match missing_columns df, extra_columns df with
    | [], [] => true
    | _, _ => false
    end in
  let order := list_eqb (columns df) expected_columns in
  match rows df with
  | [] => Ok (mkVerdict schema order None [] None)
  | _ =>
      invalid <- invalid_risks df ;;
      counts <- mapM (fun field => empty_count field df) ["risk"; "host"; "name"] ;;
      with_scheme <- uses_hostname df ;;
      Ok (mkVerdict schema order
            (Some (match rows invalid with [] => true | _ => false end))
            counts (Some with_scheme))
  end.

(** [test_burpsuite_plugin] on a file that exists: the verdicts it prints,
    [None] when it ends with [sys.exit(1)]. *)
Definition test_burpsuite_plugin (file : option element) : option verdict :=
  match (df <- BurpSuite.process file "xml" ;; verify df) with
  | Ok v => Some v
  | Err _ => None
  end.

End TestBurpSuite.

(** ** VAPT/SAST/Semgrep/semgrep.py *)

Module Semgrep.

Import Frame.

Definition accepts (file_type : string) : bool :=
  Str.mem file_type ["application/json"; "json"].

(** The body of the loop over [data.get('results', [])]. *)
Definition record_of (result_ : json) : result dict :=
  check_id <- get result_ "check_id" (JStr "") ;;
  path <- get result_ "path" (JStr "") ;;
  start <- get result_ "start" (JObj []) ;;
  end_ <- get result_ "end" (JObj []) ;;
  extra <- get result_ "extra" (JObj []) ;;
  start_line <- get start "line" (JNum 0) ;;
  end_line <- get end_ "line" (JNum 0) ;;
  message <- get extra "message" (JStr "") ;;
  fix_ <- get extra "fix" (JStr "") ;;
  let evidence :=
    "Line " ++ py_str start_line ++ " - " ++ py_str end_line
      ++ " in file : " ++ py_str path in
  Ok [("cve", JStr "");
      ("risk", JStr "Medium");
      ("host", JStr "semgrep");
      ("port", start_line);
      ("name", check_id);
      ("description", message);
      ("remediation", fix_);
      ("evidence", JStr evidence);
      ("vpr_score", JStr "")].

Definition records (data : json) : result (list dict) :=
  results <- get data "results" (JArr []) ;;
  items <- py_iter results ;;
  mapM record_of items.

Definition process (file : option json) (file_type : string) : result DataFrame :=
  if negb (accepts file_type)
  then Err (ValueError ("Unsupported file type: " ++ file_type ++ ". Expected JSON."))
  else
    match file with
    | None => Err ParseError
    | Some data =>
        recs <- records data ;;
        match recs with
        | [] => Ok (empty canonical)
        | _ =>
            with_columns
              [("description", replace_all Str.nl "<br/>" (Col "description"));
               ("remediation", replace_all Str.nl "<br/>" (Col "remediation"));
               ("evidence", replace_all Str.nl "<br/>" (Col "evidence"))]
              (of_records recs)
        end
    end.

End Semgrep.

(** ** VAPT/VA/Trivy/trivy.py *)

Module VATrivy.

Import Frame.

Definition accepts (file_type : string) : bool :=
  Str.mem file_type ["application/json"; "json"].

Definition _parse_legacy_vulnerability (vuln data : json) : result dict :=
  id1 <- get vuln "VulnerabilityID" JNull ;;
  id2 <- get vuln "id" JNull ;;
  id3 <- get vuln "cve" (JStr "") ;;
  let cve_id := py_or id1 (py_or id2 id3) in
  sev1 <- get vuln "Severity" JNull ;;
  sev2 <- get vuln "severity" (JStr "") ;;
  let severity := py_or sev1 sev2 in
  location <- get vuln "location" (JObj []) ;;
  image <- get location "image" (JStr "") ;;
  in_vuln <- py_in "location" vuln ;;
  package_name <-
    (if in_vuln
     then
       loc <- getitem vuln "location" ;;
       in_loc <- py_in "dependency" loc ;;
       if in_loc
       then
         dependency <- getitem loc "dependency" ;;
         package <- get dependency "package" (JObj []) ;;
         get package "name" (JStr "")
       else Ok (JStr "")
     else Ok (JStr "")) ;;
  n1 <- get vuln "PkgName" JNull ;;
  n2 <- get vuln "name" JNull ;;
  n3 <- get vuln "message" (JStr "") ;;
  let name := py_or package_name (py_or n1 (py_or n2 (py_or n3 cve_id))) in
  d1 <- get vuln "Description" JNull ;;
  d2 <- get vuln "description" (JStr "") ;;
  let description := py_or d1 d2 in
  s1 <- get vuln "FixedVersion" JNull ;;
  s2 <- get vuln "solution" (JStr "") ;;
  let solution := py_or s1 s2 in
  let solution :=
    if negb (truthy solution) || is_str "No solution provided" solution
    then JStr "No fix available" else solution in
  Ok [("cve", cve_id);
      ("risk", severity);
      ("host", image);
      ("port", JNum 0);
      ("name", name);
      ("description", description);
      ("remediation", solution);
      ("evidence", JStr "");
      ("vpr_score", JStr "")].

Definition _parse_modern_vulnerability (vuln target : json) : result dict :=
  cve_id <- get vuln "VulnerabilityID" (JStr "") ;;
  severity <- get vuln "Severity" (JStr "") ;;
  package_name <- get vuln "PkgName" (JStr "") ;;
  description <- get vuln "Description" (JStr "") ;;
  description <-
    (if negb (truthy description) then get vuln "Title" (JStr "")
     else Ok description) ;;
  fixed_version <- get vuln "FixedVersion" (JStr "") ;;
  let solution :=
    if truthy fixed_version
    then "Upgrade to version " ++ py_str fixed_version
    else "No fix available" in
  Ok [("cve", cve_id);
      ("risk", severity);
      ("host", target);
      ("port", JNum 0);
      ("name", package_name);
      ("description", description);
      ("remediation", JStr solution);
      ("evidence", JStr "");
      ("vpr_score", JStr "")].

(** The body of the loop over [data["Results"]]. *)
Definition records_of_result (result_ : json) : result (list dict) :=
  target <- get result_ "Target" (JStr "") ;;
  vulnerabilities <- get result_ "Vulnerabilities" (JArr []) ;;
  match vulnerabilities with
  | JNull => Ok []
  | _ =>
      vulns <- py_iter vulnerabilities ;;
      mapM (fun vuln => _parse_modern_vulnerability vuln target) vulns
  end.

Definition records (data : json) : result (list dict) :=
  legacy <- py_in "vulnerabilities" data ;;
  if legacy
  then
    listed <- getitem data "vulnerabilities" ;;
    vulns <- py_iter listed ;;
    mapM (fun vuln => _parse_legacy_vulnerability vuln data) vulns
  else
    modern <- py_in "Results" data ;;
    if modern
    then
      listed <- getitem data "Results" ;;
      results <- py_iter listed ;;
      per_result <- mapM records_of_result results ;;
      Ok (concat per_result)
    else
      Err (ValueError
             "Unsupported Trivy JSON format. Expected 'vulnerabilities' or 'Results' key.").

Definition process (file : option json) (file_type : string) : result DataFrame :=
  if negb (accepts file_type)
  then Err (ValueError ("Unsupported file type: " ++ file_type ++ ". Expected JSON."))
  else
    match file with
    | None => Err ParseError
    | Some data =>
        recs <- records data ;;
        match recs with
        | [] => Ok (empty canonical)
        | _ =>
            let df := of_records recs in
            df <- with_columns
                    [("description", replace_all Str.nl "<br/>" (Col "description"));
                     ("remediation", replace_all Str.nl "<br/>" (Col "remediation"))] df ;;
            df <- with_columns [("risk", to_uppercase (Col "risk"))] df ;;
            filter [is_in valid_risks (Col "risk")] df
        end
    end.

End VATrivy.

(** ** VAPT/SCA/Trivy/trivy.py

    [pl.read_json] is the decoder here: the file is given by the frame it
    yields, whose cells hold the nested lists and structs as [JArr] and
    [JObj]. *)

Module SCATrivy.

Import Frame.

Definition accepts (file_type : string) : bool :=
  String.eqb file_type "json".

(** The frame before the newline substitution. *)
Definition extracted (lf : DataFrame) : result DataFrame :=
  lf <- explode "vulnerabilities" lf ;;
  lf <- unnest "vulnerabilities" lf ;;
  lf <- with_columns
          [("host", field "image" (Col "location"));
           ("pkg_name",
            field "name" (field "package" (field "dependency" (Col "location"))));
           ("pkg_version", field "version" (field "dependency" (Col "location")))]
          lf ;;
  lf <- with_columns
          [("cve", Col "id");
           ("risk", to_uppercase (Col "severity"));
           ("host", Col "host");
           ("port", Lit (JNum 0));
           ("name", Coalesce (Col "pkg_name") (Coalesce (Col "message") (Col "cve")));
           ("description", Col "description");
           ("remediation", Col "solution");
           ("evidence", Lit (JStr ""));
           ("vpr_score", Lit (JStr ""))]
          lf ;;
  filter [is_in valid_risks (Col "risk")] lf.

Definition process (file : option DataFrame) (file_type : string) : result DataFrame :=
  if negb (accepts file_type)
  then Err (ValueError ("Unsupported file type: " ++ file_type))
  else
    match file with
    | None => Err ParseError
    | Some lf =>
        lf <- extracted lf ;;
        lf <- with_columns
                [("description", replace_all Str.nl "<br/>" (Col "description"));
                 ("remediation", replace_all Str.nl "<br/>" (Col "remediation"))] lf ;;
        select (named canonical) lf
    end.

End SCATrivy.
(** ** VAPT/SAST/ThreatCode/threatcode.py

    [pl.read_csv] is the decoder: the file is given by the frame it
    yields. *)

Module ThreatCode.

Import Frame.

Definition accepts (file_type : string) : bool :=
  Str.mem file_type ["text/csv"; "csv"].

Definition line_pattern : Regex.pattern :=
  Regex.mkPattern
    "Line:\s*(\d+)"
    (Regex.seq
       [Regex.lit "Line:";
        Regex.Star true (Regex.Class Str.py_space);
        Regex.Group 1
          (Regex.Seq (Regex.Class Str.is_digit)
                     (Regex.Star true (Regex.Class Str.is_digit)))]).

(** [int(digits)]. *)
Definition int_of (digits : string) : Z :=
  fold_left (fun acc c => (acc * 10 + Z.of_nat (Str.code c - 48))%Z)
            (list_ascii_of_string digits) 0%Z.

Definition extract_first_line_number (plugin_output : json) : result Z :=
  if negb (truthy plugin_output) then Ok 0%Z
  else
    match plugin_output with
    | JStr s =>
        if String.eqb (Str.strip Str.py_space s) "" then Ok 0%Z
        else
          match Regex.extract (Regex.ast line_pattern) 1 s with
          | Some digits => Ok (int_of digits)
          | None => Ok 0%Z
          end
    | _ => Err AttributeError
    end.

Definition normalize (x : string) : string :=
  Str.replace " " "_" (Str.lower (Str.strip Str.py_space x)).

(** The frame before the newline substitution. *)
Definition extracted (df : DataFrame) : result DataFrame :=
  df <- rename_all normalize df ;;
  df <- with_columns
          [("line_number",
            map_elements
              (fun c => n <- extract_first_line_number c ;; int64 n)
              (Col "plugin_output"))] df ;;
  select
    [("cve", fill_null (JStr "") (Col "cve"));
     ("risk", to_uppercase (Col "risk"));
     ("host", Col "host");
     ("port", Col "line_number");
     ("name", Col "name");
     ("description", Col "description");
     ("remediation", Col "solution");
     ("evidence", Col "plugin_output");
     ("vpr_score", fill_null (JStr "0") (cast_utf8 (Col "vpr_score")))] df.

Definition process (file : option DataFrame) (file_type : string) : result DataFrame :=
  if negb (accepts file_type)
  then Err (ValueError ("Unsupported file type: " ++ file_type ++ ". Expected CSV."))
  else
    match file with
    | None => Err ParseError
    | Some df =>
        df <- extracted df ;;
        df <- with_columns
                [("description", replace_all Str.nl "<br/>" (Col "description"));
                 ("remediation", replace_all Str.nl "<br/>" (Col "remediation"));
                 ("evidence", replace_all Str.nl "<br/>" (Col "evidence"))] df ;;
        df <- filter [is_in valid_risks (Col "risk")] df ;;
        match rows df with
        | [] => Ok (empty canonical)
        | _ => Ok df
        end
    end.

End ThreatCode.

(** ** VAPT/VA/Nessus/nessus.py

    The lazy frame [process] returns is given by the frame its collection
    yields. *)

Module VANessus.

Import Frame.

Definition accepts (file_type : string) : bool :=
  String.eqb file_type "text/csv".

(** ["_".join(x.lower().split(" "))] *)
Definition normalize (x : string) : string :=
  Str.join "_" (Str.split " "%char (Str.lower x)).

(** The frame before the newline substitution. *)
Definition extracted (lf : DataFrame) : result DataFrame :=
  lf <- rename_all normalize lf ;;
  filter [ne "None" (Col "risk")] lf.

Definition renames : list (string * string) :=
  [("solution", "remediation"); ("plugin_output", "evidence")].

Definition process (file : option DataFrame) (file_type : string) : result DataFrame :=
  if negb (accepts file_type)
  then Err (ValueError ("File type not supported: " ++ file_type))
  else
    match file with
    | None => Err ParseError
    | Some lf =>
        lf <- extracted lf ;;
        lf <- with_columns
                [("solution", replace_all Str.nl " <br/> " (Col "solution"));
                 ("description", replace_all Str.nl " <br/> " (Col "description"));
                 ("plugin_output", replace_all Str.nl " <br/> " (Col "plugin_output"))]
                lf ;;
        rename renames lf
    end.

End VANessus.

(** ** Compliance/Nessus/nessus.py *)

Module ComplianceNessus.

Import Frame.

Definition accepts (file_type : string) : bool :=
  String.eqb file_type "text/csv".

Definition newline : ascii := ascii_of_nat 10.

Definition pattern2 : Regex.pattern :=
  Regex.mkPattern
    "Actual Value:\s*\n(?s)(.*)"
    (Regex.seq
       [Regex.lit "Actual Value:";
        Regex.Star true (Regex.Class Str.rs_space);
        Regex.Lit newline;
        Regex.Group 1 (Regex.Star true (Regex.Dot true))]).

Definition name_pattern : Regex.pattern :=
  Regex.mkPattern
    "^(.*): \[.*\]"
    (Regex.seq
       [Regex.Bol;
        Regex.Group 1 (Regex.Star true (Regex.Dot false));
        Regex.lit ": [";
        Regex.Star true (Regex.Dot false);
        Regex.lit "]"]).

(** One line with its end: a run of characters other than the newline, then
    the newline. *)
Definition a_line : Regex.regex :=
  Regex.Seq (Regex.Star true (Regex.Dot false)) (Regex.Lit newline).

Definition description_pattern : Regex.pattern :=
  Regex.mkPattern
    "^(?:.*\n){2}((?s).*?)(?:^Actual Value:|$)"
    (Regex.seq
       [Regex.Bol;
        a_line;
        a_line;
        Regex.Group 1 (Regex.Star false (Regex.Dot true));
        Regex.Alt (Regex.Seq Regex.Bol (Regex.lit "Actual Value:")) Regex.Eol]).

Definition process (file : option DataFrame) (file_type : string) : result DataFrame :=
  if negb (accepts file_type)
  then Err (ValueError ("File type not supported: " ++ file_type))
  else
    match file with
    | None => Err ParseError
    | Some lf =>
        lf <- with_columns
                [("name", extract name_pattern 1 (Col "Description"));
                 ("description",
                  replace_all Str.nl "<br/>"
                    (replace pattern2 ""
                       (extract description_pattern 1 (Col "Description"))));
                 ("evidence",
                  strip_chars
                    (replace_all Str.nl "<br/>"
                       (extract pattern2 1 (Col "Description"))));
                 ("risk", Lit JNull)] lf ;;
        lf <- filter [ne "None" (Col "Risk"); is_not_null (Col "Risk")] lf ;;
        lf <- rename [("Solution", "remediation"); ("Risk", "status")] lf ;;
        drop ["VPR Score"; "CVE"; "Name"; "Plugin Output"; "Description"] lf
    end.

End ComplianceNessus.

(** ** VAPT/BugBounty/YesWeHack/ywh2csv.py *)

Module Ywh2csv.

Definition CRITICALITY_MAP : list (string * string) :=
  [("critical", "CRITICAL");
   ("c", "CRITICAL");
   ("high", "HIGH");
   ("h", "HIGH");
   ("medium", "MEDIUM");
   ("m", "MEDIUM");
   ("low", "LOW");
   ("l", "LOW")].

Definition CSV_HEADERS : list string :=
  ["CVE"; "Risk"; "Host"; "Port"; "Name"; "Description"; "Solution";
   "Plugin Output"; "VPR Score"].

Definition convert_criticality (ywh_criticality : json) : option string :=
  if negb (truthy ywh_criticality) then None
  else
    let criticality_lower :=
      Str.strip Str.py_space (Str.lower (py_str ywh_criticality)) in
    assoc criticality_lower CRITICALITY_MAP.

(** The characters [re.sub(r'[^a-zA-Z0-9.\-]', '', cleaned)] keeps. *)
Definition host_char (c : ascii) : bool :=
  Str.is_lower c || Str.is_upper c || Str.is_digit c
  || Ascii.eqb c "."%char || Ascii.eqb c "-"%char.

Definition clean_scope (scope : json) : string :=
  if negb (truthy scope) then ""
  else
    let cleaned := Str.strip Str.py_space (py_str scope) in
    let cleaned := Str.replace "\/" "/" cleaned in
    let cleaned := Str.replace "http://" "" (Str.replace "https://" "" cleaned) in
    let cleaned :=
      if Str.has_char "/"%char cleaned then Str.before "/"%char cleaned else cleaned in
    let cleaned :=
      if Str.has_char ":"%char cleaned then Str.before ":"%char cleaned else cleaned in
    Str.filter_chars host_char cleaned.

Definition format_description (description : json) (max_length : Z) : string :=
  if negb (truthy description) then ""
  else
    let formatted := Str.replace Str.nl "<br/>" (py_str description) in
    if (max_length <? Z.of_nat (String.length formatted))%Z
    then Str.slice_to max_length formatted ++ "..."
    else formatted.

(** The default of [max_length]. *)
Definition max_length_default : Z := 5000.

(** [detailed_report if detailed_report else report] *)
Definition source_of (report : dict) (detailed_report : option dict) : dict :=
  match detailed_report with
  | Some d => if truthy (JObj d) then d else report
  | None => report
  end.

(** [criticity], from the root or from the [cvss] object. *)
Definition criticity_of (source : dict) : json :=
  let criticity := dict_get source "criticity" (JStr "") in
  if negb (truthy criticity)
  then
    match dict_get source "cvss" (JObj []) with
    | JObj cvss => dict_get cvss "criticity" (JStr "")
    | _ => criticity
    end
  else criticity.

(** [description_html], else [description]. *)
Definition description_of (source : dict) : json :=
  let description := dict_get source "description_html" (JStr "") in
  if negb (truthy description)
  then dict_get source "description" (JStr "") else description.

(** [remediation_link], from the root or from the [bug_type] object. *)
Definition remediation_link_of (source : dict) : json :=
  let remediation_link := dict_get source "remediation_link" (JStr "") in
  if negb (truthy remediation_link)
  then
    match dict_get source "bug_type" (JObj []) with
    | JObj bug_type => dict_get bug_type "remediation_link" (JStr "")
    | _ => remediation_link
    end
  else remediation_link.

Definition map_report_to_csv_row (report : dict) (detailed_report : option dict)
  : option dict :=
  let source := source_of report detailed_report in
  let local_id := dict_get source "local_id" (JStr "") in
  let criticity := criticity_of source in
  let title := dict_get source "title" (JStr "") in
  let description := description_of source in
  let remediation_link := remediation_link_of source in
  let scope := dict_get source "scope" (JStr "") in
  let host := if truthy scope then clean_scope scope else "" in
  match convert_criticality criticity with
  | None => None
  | Some risk =>
      Some
        [("CVE", local_id);
         ("Risk", JStr risk);
         ("Host", JStr host);
         ("Port", JStr "0");
         ("Name", title);
         ("Description", JStr (format_description description max_length_default));
         ("Solution",
          JStr (if truthy remediation_link
                then format_description remediation_link max_length_default
                else format_description description max_length_default));
         ("Plugin Output", JStr "");
         ("VPR Score", JStr "")]
  end.

(** [should_include_report]: the workflow state, from the root, else from
    the [status] object, else from the [workflow] object. *)
Definition workflow_state_of (report : dict) : json :=
  let workflow_state := dict_get report "workflow_state" (JStr "") in
  let workflow_state :=
    if negb (truthy workflow_state)
    then
      match dict_get report "status" (JObj []) with
      | JObj status => dict_get status "workflow_state" (JStr "")
      | _ => workflow_state
      end
    else workflow_state in
  if negb (truthy workflow_state)
  then
    match dict_get report "workflow" (JObj []) with
    | JObj workflow => dict_get workflow "state" (JStr "")
    | _ => workflow_state
    end
  else workflow_state.

Definition should_include_report (report : dict) : bool :=
  let workflow_state := workflow_state_of report in
  let fix_verification_status :=
    dict_get report "ask_for_fix_verification_status" (JStr "") in
  let is_accepted := String.eqb (Str.lower (py_str workflow_state)) "accepted" in
  let is_pending := String.eqb (py_str fix_verification_status) "PENDING" in
  is_accepted && is_pending.

(** [len(v)]. *)
Definition py_len (v : json) : result nat :=
  match v with
  | JArr l => Ok (List.length l)
  | JObj d => Ok (List.length d)
  | JStr s => Ok (String.length s)
  | _ => Err TypeError
  end.

(** [len(all_reports) >= total] *)
Definition reached (n : nat) (total : json) : result bool :=
  match total with
  | JNum z => Ok (z <=? Z.of_nat n)%Z
  | JBool b => Ok ((if b then 1 else 0) <=? Z.of_nat n)%Z
  | _ => Err TypeError
  end.

(** [all_reports if all_reports else None] *)
Definition some_reports (all_reports : list json) : option (list json) :=
  match all_reports with
  | [] => None
  | _ => Some all_reports
  end.

(** ["-" * n] *)
Fixpoint dashes (n : nat) : string :=
  match n with
  | O => EmptyString
  | S k => String "-"%char (dashes k)
  end.

(** The arguments [argparse] hands to [main]. *)
Record args : Type := mkArgs {
  programs : list string;
  output : string;
  business_unit : option string;
  list_business_units : bool;
  list_programs : option string;
  verbose : bool;
  no_details : bool;
  no_filter : bool
}.

(** The functions that talk to the server and to the file system.

    [make_api_request endpoint] is what a GET of [endpoint] yields: the
    decoded body of the answer, [None] when the request fails (the function
    logs the failure and returns [None]).  [write_csv output_file rows] tells
    whether the header and [rows] could be written to [output_file].
    What is logged is left out. *)
Section Api.

Variable make_api_request : string -> option json.
Variable write_csv : string -> list dict -> bool.
Variable API_KEY : option string.

(** [not response] for an optional answer. *)
Definition answered (response : option json) : bool :=
  match response with
  | Some v => truthy v
  | None => false
  end.

Definition get_business_units : result (option json) :=
  match make_api_request "/business-units" with
  | Some response =>
      if truthy response
      then items <- get response "items" (JArr []) ;; Ok (Some items)
      else Ok None
  | None => Ok None
  end.

(** [next((bu for bu in business_units if bu.get('slug') == slug), None)] *)
Fixpoint first_with_slug (slug : string) (business_units : list json)
  : result (option json) :=
  match business_units with
  | [] => Ok None
  | bu :: rest =>
      s <- get bu "slug" JNull ;;
      if is_str slug s then Ok (Some bu) else first_with_slug slug rest
  end.

Definition get_business_unit_programs (business_unit_slug : string)
  : result (option json) :=
  business_units <- get_business_units ;;
  if negb (answered business_units) then Ok None
  else
    match business_units with
    | Some listed =>
        units <- py_iter listed ;;
        business_unit <- first_with_slug business_unit_slug units ;;
        if negb (answered business_unit) then Ok None
        else
          match business_unit with
          | Some bu => programs_ <- get bu "programs" (JArr []) ;; Ok (Some programs_)
          | None => Ok None
          end
    | None => Ok None
    end.

Definition reports_endpoint (program_slug : string) (limit offset : Z) : string :=
  "/programs/" ++ program_slug ++ "/reports?limit=" ++ Repr.decimal limit
    ++ "&offset=" ++ Repr.decimal offset.

(** The [while True] loop of [get_program_reports], for at most [fuel]
    requests: [None] when the loop has not ended by then. *)
Fixpoint get_program_reports_from (fuel : nat) (program_slug : string)
    (limit offset : Z) (all_reports : list json)
  : option (result (option (list json))) :=
  match fuel with
  | O => None
  | S fuel' =>
      let response := make_api_request (reports_endpoint program_slug limit offset) in
      if negb (answered response)
      then
        if (offset =? 0)%Z then Some (Ok None)
        else Some (Ok (some_reports all_reports))
      else
        match response with
        | None => Some (Ok (some_reports all_reports))
        | Some response =>
            match get response "items" (JArr []) with
            | Err e => Some (Err e)
            | Ok items =>
                if negb (truthy items) then Some (Ok (some_reports all_reports))
                else
                  match py_iter items with
                  | Err e => Some (Err e)
                  | Ok more =>
                      let all_reports := (all_reports ++ more)%list in
                      match
                        (pagination <- get response "pagination" (JObj []) ;;
                         total <- get pagination "total" (JNum 0) ;;
                         reached (List.length all_reports) total)
                      with
                      | Err e => Some (Err e)
                      | Ok true => Some (Ok (some_reports all_reports))
                      | Ok false =>
                          get_program_reports_from fuel' program_slug limit
                            (offset + limit)%Z all_reports
                      end
                  end
            end
        end
  end.

Definition get_program_reports (fuel : nat) (program_slug : string) (limit : Z)
  : option (result (option (list json))) :=
  get_program_reports_from fuel program_slug limit 0%Z [].

Definition get_report_details (report_id : json) : option json :=
  make_api_request ("/reports/" ++ py_str report_id).

Definition get_program_info (program_slug : string) : option json :=
  make_api_request ("/programs/" ++ program_slug).

(** The body of the loop of [export_reports_to_csv]: the row the report
    adds to [csv_rows], [None] when the report is skipped. *)
Definition exported_row (fetch_details apply_filter : bool) (report : json)
  : result (option dict) :=
  id <- get report "id" JNull ;;
  local_id <- get report "local_id" (JStr "") ;;
  let report_id := py_or id local_id in
  let detailed_report :=
    if fetch_details && truthy report_id then get_report_details report_id
    else None in
  if apply_filter && negb (answered detailed_report) then Ok None
  else
    included <-
      (if apply_filter
       then
         match detailed_report with
         | Some (JObj d) => Ok (should_include_report d)
         | _ => Err AttributeError
         end
       else Ok true) ;;
    if negb included then Ok None
    else
      match report, detailed_report with
      | JObj r, Some (JObj d) => Ok (map_report_to_csv_row r (Some d))
      | JObj r, Some v =>
          if truthy v then Err AttributeError else Ok (map_report_to_csv_row r None)
      | JObj r, None => Ok (map_report_to_csv_row r None)
      | _, _ => Err AttributeError
      end.

Fixpoint somes {A : Type} (l : list (option A)) : list A :=
  match l with
  | [] => []
  | Some a :: l' => a :: somes l'
  | None :: l' => somes l'
  end.

(** [csv_rows] at the end of the loop. *)
Definition csv_rows_of (reports : list json) (fetch_details apply_filter : bool)
  : result (list dict) :=
  rows_ <- mapM (exported_row fetch_details apply_filter) reports ;;
  Ok (somes rows_).

Definition export_reports_to_csv (reports : list json) (output_file : string)
    (fetch_details apply_filter : bool) : result bool :=
  match reports with
  | [] => Ok false
  | _ =>
      csv_rows <- csv_rows_of reports fetch_details apply_filter ;;
      match csv_rows with
      | [] => Ok false
      | _ => Ok (write_csv output_file csv_rows)
      end
  end.

(** What [main] prints of a business unit and of a program. *)
Definition business_unit_lines (bu : json) : result (list string) :=
  slug <- get bu "slug" JNull ;;
  name <- get bu "name" JNull ;;
  programs_ <- get bu "programs" (JArr []) ;;
  n <- py_len programs_ ;;
  Ok ["Slug: " ++ py_str slug;
      "Name: " ++ py_str name;
      "Programs: " ++ Repr.decimal (Z.of_nat n);
      dashes 60].

Definition program_lines (prog : json) : result (list string) :=
  slug <- get prog "slug" JNull ;;
  title <- get prog "title" JNull ;;
  status <- get prog "status" JNull ;;
  Ok ["Slug: " ++ py_str slug;
      "Title: " ++ py_str title;
      "Status: " ++ py_str status;
      dashes 60].

(** The reports of the programs, one program after the other. *)
Fixpoint collected (fuel : nat) (programs_ : list string)
  : option (result (list json)) :=
  match programs_ with
  | [] => Some (Ok [])
  | program_slug :: rest =>
      match get_program_reports fuel program_slug 100 with
      | None => None
      | Some (Err e) => Some (Err e)
      | Some (Ok reports) =>
          match collected fuel rest with
          | None => None
          | Some (Err e) => Some (Err e)
          | Some (Ok others) =>
              Some (Ok (match reports with
                        | Some l => (l ++ others)%list
                        | None => others
                        end))
          end
      end
  end.

(** What [main] does for [--list-business-units] and for
    [--list-programs]: the lines it prints and the exit code. *)
Definition print_business_units : result (list string * Z) :=
  business_units <- get_business_units ;;
  if answered business_units
  then
    match business_units with
    | Some listed =>
        units <- py_iter listed ;;
        lines <- mapM business_unit_lines units ;;
        Ok ((Str.nl ++ "Available Business Units:") :: dashes 60 :: concat lines, 0%Z)
    | None => Ok ([], 0%Z)
    end
  else Ok ([], 0%Z).

Definition print_programs (unit_ : string) : result (list string * Z) :=
  programs_ <- get_business_unit_programs unit_ ;;
  if answered programs_
  then
    match programs_ with
    | Some listed =>
        progs <- py_iter listed ;;
        lines <- mapM program_lines progs ;;
        Ok ((Str.nl ++ "Available Programs in '" ++ unit_ ++ "':")
              :: dashes 60 :: concat lines,
            0%Z)
    | None => Ok ([], 0%Z)
    end
  else Ok ([], 0%Z).

(** The flags [main] hands to [export_reports_to_csv]: detail fetching is
    forced when the filter is on. *)
Definition export_flags (a : args) : bool * bool :=
  let apply_filter := negb (no_filter a) in
  let fetch_details := negb (no_details a) in
  let fetch_details :=
    if apply_filter && negb fetch_details then true else fetch_details in
  (fetch_details, apply_filter).

(** What [main] does when it exports. *)
Definition export_programs (fuel : nat) (a : args) : option (result (list string * Z)) :=
  if match API_KEY with Some key => String.eqb key "" | None => true end
  then Some (Ok ([], 1%Z))
  else
    match collected fuel (programs a) with
    | None => None
    | Some (Err e) => Some (Err e)
    | Some (Ok all_reports) =>
        match all_reports with
        | [] => Some (Ok ([], 1%Z))
        | _ =>
            let (fetch_details, apply_filter) := export_flags a in
            Some
              (success <- export_reports_to_csv all_reports (output a)
                            fetch_details apply_filter ;;
               Ok ([], if success then 0%Z else 1%Z))
        end
    end.

(** [main]: what it prints and the exit code it returns; [None] when a
    pagination loop has not ended within [fuel] requests. *)
Definition main (fuel : nat) (a : args) : option (result (list string * Z)) :=
  if list_business_units a then Some print_business_units
  else
    match list_programs a with
    | Some unit_ =>
        if negb (String.eqb unit_ "") then Some (print_programs unit_)
        else export_programs fuel a
    | None => export_programs fuel a
    end.

End Api.

End Ywh2csv.

(** ** The plugins as one family

    Every plugin offers [process(file, file_type)]; what the decoder of the
    plugin makes of [file] depends on the plugin. *)

Inductive plugin : Type :=
| ComplianceNessusPlugin
| VANessusPlugin
| SCATrivyPlugin
| VATrivyPlugin
| SemgrepPlugin
| ThreatCodePlugin
| BurpSuitePlugin.

Definition decoded (p : plugin) : Type :=
  match p with
  | BurpSuitePlugin => element
  | VATrivyPlugin | SemgrepPlugin => json
  | _ => DataFrame
  end.

Definition process (p : plugin) : option (decoded p) -> string -> result DataFrame :=
  match p with
  | ComplianceNessusPlugin => ComplianceNessus.process
  | VANessusPlugin => VANessus.process
  | SCATrivyPlugin => SCATrivy.process
  | VATrivyPlugin => VATrivy.process
  | SemgrepPlugin => Semgrep.process
  | ThreatCodePlugin => ThreatCode.process
  | BurpSuitePlugin => BurpSuite.process
  end.

Definition accepts (p : plugin) : string -> bool :=
  match p with
  | ComplianceNessusPlugin => ComplianceNessus.accepts
  | VANessusPlugin => VANessus.accepts
  | SCATrivyPlugin => SCATrivy.accepts
  | VATrivyPlugin => VATrivy.accepts
  | SemgrepPlugin => Semgrep.accepts
  | ThreatCodePlugin => ThreatCode.accepts
  | BurpSuitePlugin => BurpSuite.accepts
  end.

(** The file types a plugin lists. *)
Definition listed_types (p : plugin) : list string :=
  match p with
  | ComplianceNessusPlugin | VANessusPlugin => ["text/csv"]
  | SCATrivyPlugin => ["json"]
  | VATrivyPlugin | SemgrepPlugin => ["application/json"; "json"]
  | ThreatCodePlugin => ["text/csv"; "csv"]
  | BurpSuitePlugin => BurpSuite.supported_types
  end.

(** The error of the guard on the file type. *)
Definition unsupported (p : plugin) (file_type : string) : error :=
  match p with
  | ComplianceNessusPlugin | VANessusPlugin =>
      ValueError ("File type not supported: " ++ file_type)
  | SCATrivyPlugin => ValueError ("Unsupported file type: " ++ file_type)
  | VATrivyPlugin | SemgrepPlugin =>
      ValueError ("Unsupported file type: " ++ file_type ++ ". Expected JSON.")
  | ThreatCodePlugin =>
      ValueError ("Unsupported file type: " ++ file_type ++ ". Expected CSV.")
  | BurpSuitePlugin =>
      ValueError ("Unsupported file type: " ++ file_type ++ ". Expected XML format.")
  end.

(** ** What the specification says of a result *)

Definition keys (r : row) : list string := map fst r.

(** A row of the canonical schema: the 9 fields in order, and a risk of the
    enumeration. *)
Definition risk_in (values : list string) (r : row) : Prop :=
  exists s, lookup "risk" r = Some (JStr s) /\ In s values.

Definition canonical_row (r : row) : Prop :=
  keys r = canonical /\ risk_in valid_risks r.

Definition canonical_frame (df : DataFrame) : Prop :=
  columns df = canonical /\ Forall canonical_row (rows df).

(** The newline substitution on a cell, with the marker of the plugin. *)
Definition break_cell (marker : string) (c : cell) : cell :=
  match c with
  | JStr s => JStr (Str.replace Str.nl marker s)
  | _ => c
  end.

Definition upper_cell (c : cell) : cell :=
  match c with
  | JStr s => JStr (Str.upper s)
  | _ => c
  end.

Definition text_fields : list string := ["description"; "remediation"; "evidence"].

(** What becomes of the cell of field [k]: the newline substitution in the
    fields [fields], upper case in the fields [uppers], nothing elsewhere. *)
Definition cell_rule (marker : string) (fields uppers : list string)
    (k : string) (c : cell) : cell :=
  if Str.mem k fields then break_cell marker c
  else if Str.mem k uppers then upper_cell c
  else c.

(** [r] is [r0] with every cell rewritten by [g]: the same fields in the
    same order. *)
Definition rewritten (g : string -> cell -> cell) (r0 r : row) : Prop :=
  keys r = keys r0 /\
  forall k, lookup k r = option_map (g k) (lookup k r0).

(** [r] is [r0] with the newline substitution in exactly the fields [fields],
    the fields [uppers] in upper case, and every other field as it was. *)
Definition substituted (marker : string) (fields uppers : list string)
    (r0 r : row) : Prop :=
  rewritten (cell_rule marker fields uppers) r0 r.

(** [r0] with every cell rewritten by [g]. *)
Definition apply_rule (g : string -> cell -> cell) (r0 : row) : row :=
  map (fun kv => (fst kv, g (fst kv) (snd kv))) r0.

(** A string function on a cell, as an expression of the [str] namespace
    applies it. *)
Definition str_apply (f : string -> cell) (c : cell) : cell :=
  match c with
  | JStr s => f s
  | _ => c
  end.

(** Columns rewritten in place by one string expression. *)
Definition in_place (f : string -> cell) (fields : list string)
  : list (string * Frame.expr) :=
  map (fun k => (k, Frame.Str f (Frame.Col k))) fields.

(** A cell a string expression takes. *)
Definition text_cell (c : cell) : bool :=
  match c with
  | JStr _ | JNull => true
  | _ => false
  end.



(** A row whose risk, as it stands, is in the enumeration. *)
Definition risk_kept (r : row) : bool :=
  match lookup "risk" r with
  | Some (JStr s) => Str.mem s valid_risks
  | _ => false
  end.

(** The row the DAST plugin makes of an issue, and whether it keeps it. *)
Definition burp_row (issue : element) : row :=
  apply_rule (cell_rule "<br/>" text_fields ["risk"]) (BurpSuite.record_of issue).

Definition burp_keeps (issue : element) : bool :=
  risk_kept (burp_row issue).

(** The newline substitution and the upper case, as string functions of
    an expression. *)
Definition break_fn (marker : string) : string -> cell :=
  fun s => JStr (Str.replace Str.nl marker s).

Definition upper_fn : string -> cell := fun s => JStr (Str.upper s).

(** The steps of the dual-shape Trivy plugin on the frame of its records. *)
Definition trivy_steps (df : DataFrame) : result DataFrame :=
  df <- Frame.with_columns
          (in_place (break_fn "<br/>") ["description"; "remediation"]) df ;;
  df <- Frame.with_columns (in_place upper_fn ["risk"]) df ;;
  Frame.filter [Frame.is_in valid_risks (Frame.Col "risk")] df.






















(** [r] holds the canonical fields of [r0], rewritten by the rule of the
    substitution. *)
Definition projected (marker : string) (fields : list string) (r0 r : row) : Prop :=
  keys r = canonical /\
  forall k, In k canonical ->
    lookup k r = option_map (cell_rule marker fields [] k) (lookup k r0).

(** A cell that is null, or the text [f t] for some [t]. *)
Definition null_or_text (f : string -> string) (c : option cell) : Prop :=
  c = Some JNull \/ exists t, c = Some (JStr (f t)).

(** ** Sample uploads *)

Module Samples.

(** A Semgrep report with one result. *)
Definition semgrep_doc : json :=
  JObj
    [("results",
      JArr
        [JObj
           [("check_id", JStr "python.lang.security.audit.eval");
            ("path", JStr "app/main.py");
            ("start", JObj [("line", JNum 18)]);
            ("end", JObj [("line", JNum 19)]);
            ("extra", JObj [("message", JStr "Avoid eval")])]])].

(** A Nessus CSV export in the ThreatVault column layout, with one row. *)
Definition compliance_text : string :=
  "SSH Weak Ciphers: [tag]" ++ Str.nl ++ Str.nl ++ "description text" ++ Str.nl
    ++ "Actual Value:" ++ Str.nl ++ "ssh -v output".

Definition nessus_row (risk : string) : row :=
  [("CVE", JNull);
   ("Risk", JStr risk);
   ("Host", JStr "10.0.0.5");
   ("Port", JNum 22);
   ("Name", JStr "SSH Weak Ciphers");
   ("Description", JStr compliance_text);
   ("Solution", JStr ("Edit sshd_config." ++ Str.nl ++ "Restart sshd."));
   ("Plugin Output", JStr "ssh -v output");
   ("VPR Score", JNull)].

Definition nessus_frame : DataFrame :=
  mkDataFrame Ywh2csv.CSV_HEADERS [nessus_row "High"].


(** A Burp Suite export with an informational issue and a high one whose
    host element carries only the [ip] attribute. *)
Definition info_issue : element :=
  Element "issue" [] None
    [Element "severity" [] (Some "Information") [];
     Element "host" [("ip", "10.0.0.2")] (Some "https://shop.example.com") [];
     Element "name" [] (Some "Cacheable HTTPS response") []].

Definition high_issue : element :=
  Element "issue" [] None
    [Element "severity" [] (Some "High") [];
     Element "host" [("ip", "10.0.0.1")] None [];
     Element "name" [] (Some "SQL injection") [];
     Element "issueDetail" [] (Some ("The id parameter" ++ Str.nl ++ "is injectable.")) []].

Definition burp_root : element :=
  Element "issues" [("burpVersion", "2024.1")] None [info_issue; high_issue].

(** Vulnerabilities of the two shapes of a Trivy report. *)
Definition modern_vuln : dict :=
  [("VulnerabilityID", JStr "CVE-2024-0001");
   ("PkgName", JStr "openssl");
   ("Severity", JStr "HIGH");
   ("Title", JStr "openssl: overflow");
   ("FixedVersion", JStr "1.2.3")].

Definition legacy_vuln : dict :=
  [("id", JStr "CVE-2024-0002");
   ("severity", JStr "Low");
   ("Title", JStr "zlib: overflow");
   ("FixedVersion", JStr "1.2.3")].

(** A modern vulnerability whose fixed version is the empty text, and a
    legacy one without a fixed version and with a solution. *)
Definition unfixed_vuln : dict :=
  [("VulnerabilityID", JStr "CVE-2024-0006");
   ("PkgName", JStr "busybox");
   ("Severity", JStr "MEDIUM");
   ("FixedVersion", JStr "")].

Definition advised_vuln : dict :=
  [("id", JStr "CVE-2024-0005");
   ("severity", JStr "High");
   ("FixedVersion", JNull);
   ("solution", JStr "Upgrade zlib")].

Definition legacy_doc : json :=
  JObj [("vulnerabilities", JArr [JObj legacy_vuln])].


(** A container-scanning report without vulnerabilities, as [pl.read_json]
    frames it. *)
Definition sca_clean_frame : DataFrame :=
  mkDataFrame ["version"; "vulnerabilities"]
    [[("version", JStr "15.0.0"); ("vulnerabilities", JArr [])]].

(** A container-scanning report, as [pl.read_json] frames it. *)
Definition sca_frame : DataFrame :=
  mkDataFrame ["version"; "vulnerabilities"]
    [[("version", JStr "15.0.0");
      ("vulnerabilities",
       JArr
         [JObj
            [("id", JStr "CVE-2024-0003");
             ("severity", JStr "Critical");
             ("location",
              JObj [("image", JStr "registry/app:1");
                    ("dependency",
                     JObj [("package", JObj [("name", JStr "glibc")]);
                           ("version", JStr "2.31")])]);
             ("message", JStr "CVE-2024-0003 in glibc");
             ("description", JStr "An overflow");
             ("solution", JStr "Upgrade glibc");
             ("cve", JStr "debian:10:glibc:CVE-2024-0003")]])]].




(** The compliance row of the scenario, with its other cells left open. *)
Definition compliance_upload (cve host port name solution plugin_output vpr_score : cell)
  : DataFrame :=
  mkDataFrame Ywh2csv.CSV_HEADERS
    [[("CVE", cve);
      ("Risk", JStr "High");
      ("Host", host);
      ("Port", port);
      ("Name", name);
      ("Description", JStr compliance_text);
      ("Solution", solution);
      ("Plugin Output", plugin_output);
      ("VPR Score", vpr_score)]].


(** A YesWeHack report without a remediation link. *)
Definition ywh_report : dict :=
  [("local_id", JStr "YWH-42");
   ("title", JStr "Stored XSS");
   ("cvss", JObj [("criticity", JStr "H")]);
   ("scope", JStr "https://app.example.com/");
   ("bug_type", JObj [("name", JStr "XSS")]);
   ("description", JStr ("Open the page." ++ Str.nl ++ "Observe the alert."))].


(** The details of that report, as the server gives them. *)
Definition ywh_detailed : dict :=
  [("local_id", JStr "YWH-42");
   ("title", JStr "Stored XSS");
   ("criticity", JStr "High");
   ("scope", JStr "https://app.example.com/");
   ("description_html", JStr "<p>Open the page.</p>");
   ("workflow_state", JStr "Accepted");
   ("ask_for_fix_verification_status", JStr "PENDING")].

(** A server with one program of three reports, which it lists two by two,
    and with the details of the first of them. *)
Definition ywh_reports : list json :=
  [JObj ywh_report;
   JObj [("local_id", JStr "YWH-43")];
   JObj [("local_id", JStr "YWH-44")]].

Definition ywh_page (items : list json) : json :=
  JObj [("items", JArr items); ("pagination", JObj [("total", JNum 3)])].

Definition ywh_server (endpoint : string) : option json :=
  if String.eqb endpoint "/reports/YWH-42" then Some (JObj ywh_detailed)
  else if String.eqb endpoint "/programs/shop/reports?limit=2&offset=0"
  then Some (ywh_page (firstn 2 ywh_reports))
  else if String.eqb endpoint "/programs/shop/reports?limit=2&offset=2"
  then Some (ywh_page (skipn 2 ywh_reports))
  else None.

(** A ThreatCode CSV export with one finding, without a CVE and without a
    score. *)
Definition threatcode_frame : DataFrame :=
  mkDataFrame
    ["CVE"; "Risk"; "Host"; "Name"; "Description"; "Solution"; "Plugin Output";
     "VPR Score"]
    [[("CVE", JNull);
      ("Risk", JStr "High");
      ("Host", JStr "shop-backend");
      ("Name", JStr "Use of eval");
      ("Description", JStr "The input reaches eval.");
      ("Solution", JStr "Parse the input instead.");
      ("Plugin Output",
       JStr ("File: app/main.py" ++ Str.nl ++ "Line: 18" ++ Str.nl ++ "Code: eval(x)"));
      ("VPR Score", JNull)]].


End Samples.

(** What the result of each plugin is like: the canonical frame for the
    plugins that filter on the enumeration, the canonical columns with the
    fixed risk for Semgrep, the columns of the upload for the Nessus
    plugins (the canonical ones when the VA plugin is given the ThreatVault
    CSV header). *)
Definition output_shape (p : plugin) : option (decoded p) -> DataFrame -> Prop :=
  match p return option (decoded p) -> DataFrame -> Prop with
  | BurpSuitePlugin => fun _ df => canonical_frame df
  | VATrivyPlugin => fun _ df => canonical_frame df
  | SCATrivyPlugin => fun _ df => canonical_frame df
  | ThreatCodePlugin => fun _ df => canonical_frame df
  | SemgrepPlugin => fun _ df =>
      columns df = canonical /\
      Forall (fun r => keys r = canonical /\ lookup "risk" r = Some (JStr "Medium"))
             (rows df)
  | VANessusPlugin => fun file df =>
      (exists lf,
         file = Some lf /\
         columns df
         = map (Frame.renamed VANessus.renames)
               (map VANessus.normalize (columns lf)) /\
         (columns lf = Ywh2csv.CSV_HEADERS -> columns df = canonical)) /\
      Forall (fun r => exists s, lookup "risk" r = Some (JStr s) /\ s <> "None")
             (rows df)
  | ComplianceNessusPlugin => fun _ df =>
      In "status" (columns df) /\
      Forall (fun r => lookup "risk" r = Some JNull) (rows df)
  end.


(** ** What the further properties talk about *)

(** A text that does not start with white space. *)
Definition starts_clean (sp : ascii -> bool) (s : string) : Prop :=
  match s with
  | EmptyString => True
  | String c _ => sp c = false
  end.

(** The identifier under which the exporter asks for the details of a
    report. *)
Definition report_id_of (r : dict) : json :=
  py_or (dict_get r "id" JNull) (dict_get r "local_id" (JStr "")).

(** A row without a raw newline in the texts of its three text fields. *)
Definition newline_free (r : row) : Prop :=
  forall k s, In k text_fields -> lookup k r = Some (JStr s) ->
    Str.has_char (ascii_of_nat 10) s = false.

(** The plugins that put the marker for the newline in the three text
    fields or leave a field empty. *)
Definition breaks_every_text (p : plugin) : bool :=
  match p with
  | BurpSuitePlugin | SemgrepPlugin | ThreatCodePlugin | VATrivyPlugin
  | SCATrivyPlugin => true
  | _ => false
  end.

(** The cells a plugin fills with a constant. *)
Definition fixed_cells (p : plugin) : list (string * cell) :=
  match p with
  | BurpSuitePlugin => [("cve", JStr ""); ("port", JNum 0); ("vpr_score", JStr "")]
  | VATrivyPlugin | SCATrivyPlugin =>
      [("port", JNum 0); ("evidence", JStr ""); ("vpr_score", JStr "")]
  | SemgrepPlugin =>
      [("cve", JStr ""); ("risk", JStr "Medium"); ("host", JStr "semgrep");
       ("vpr_score", JStr "")]
  | _ => []
  end.

(** A text made of characters of a class, and a text that starts with a
    character of a class. *)
Fixpoint all_chars (p : ascii -> bool) (s : string) : bool :=
  match s with
  | EmptyString => true
  | String c s' => p c && all_chars p s'
  end.

Definition head_is (p : ascii -> bool) (s : string) : bool :=
  match s with
  | EmptyString => false
  | String c _ => p c
  end.

(** * Facts about the error monad and the frame operations *)

Ltac inv_bind H :=
  match type of H with
  | bind ?m _ = Ok _ =>
      let E := fresh "E" in
      destruct m eqn:E; cbn [bind] in H; [ | discriminate H ]
  end.

Lemma mem_In (s : string) (l : list string) : Str.mem s l = true <-> In s l.
Proof.
  unfold Str.mem. rewrite existsb_exists. split.
  - intros [x [Hin Heq]]. apply String.eqb_eq in Heq. now subst.
  - intros Hin. exists s. split; [ assumption | apply String.eqb_refl ].
Qed.

Lemma mapM_Forall2 {A B : Type} (f : A -> result B) (l : list A) (l' : list B) :
  mapM f l = Ok l' -> Forall2 (fun a b => f a = Ok b) l l'.
Proof.
  revert l'. induction l as [ | a l IH ]; intros l' H; cbn in H.
  - injection H as <-. constructor.
  - inv_bind H. inv_bind H. injection H as <-. constructor; auto.
Qed.

Lemma mapM_map {A B C : Type} (f : B -> result C) (g : A -> B) (h : A -> C)
    (l : list A) :
  (forall a, In a l -> f (g a) = Ok (h a)) -> mapM f (map g l) = Ok (map h l).
Proof.
  induction l as [ | a l IH ]; intros H; cbn.
  - reflexivity.
  - rewrite H by now left. cbn. rewrite IH by (intros; apply H; now right).
    reflexivity.
Qed.

Lemma filterM_sound (p : row -> result bool) (l l' : list row) :
  Frame.filterM p l = Ok l' ->
  forall r, In r l' -> In r l /\ p r = Ok true.
Proof.
  revert l'. induction l as [ | a l IH ]; intros l' H r Hr; cbn in H.
  - injection H as <-. contradiction.
  - inv_bind H. inv_bind H. injection H as <-.
    destruct a0.
    + destruct Hr as [ <- | Hr ].
      * split; [ now left | assumption ].
      * destruct (IH _ eq_refl r Hr). split; [ now right | assumption ].
    + destruct (IH _ eq_refl r Hr). split; [ now right | assumption ].
Qed.

Lemma filterM_filter (p : row -> result bool) (q : row -> bool) (l : list row) :
  (forall r, In r l -> p r = Ok (q r)) ->
  Frame.filterM p l = Ok (List.filter q l).
Proof.
  induction l as [ | a l IH ]; intros H; cbn.
  - reflexivity.
  - rewrite H by now left. cbn. rewrite IH by (intros; apply H; now right).
    cbn. reflexivity.
Qed.

(** *** Rows *)

Lemma lookup_set (k k' : string) (v : cell) (r : row) :
  lookup k (Frame.set k' v r) = if String.eqb k k' then Some v else lookup k r.
Proof.
  induction r as [ | [k0 v0] r IH ]; cbn.
  - destruct (String.eqb k k'); reflexivity.
  - destruct (String.eqb_spec k' k0) as [ <- | Hne ]; cbn.
    + destruct (String.eqb k k'); reflexivity.
    + rewrite IH. destruct (String.eqb_spec k k0) as [ -> | ]; [ | reflexivity ].
      destruct (String.eqb_spec k0 k'); [ congruence | reflexivity ].
Qed.

Lemma keys_set (k : string) (v : cell) (r : row) :
  lookup k r <> None -> keys (Frame.set k v r) = keys r.
Proof.
  unfold keys. induction r as [ | [k0 v0] r IH ]; cbn; intros H.
  - contradiction.
  - destruct (String.eqb k k0); cbn; [ reflexivity | ]. now rewrite IH.
Qed.

Lemma lookup_keys (k : string) (r : row) :
  lookup k r <> None <-> In k (keys r).
Proof.
  unfold keys. induction r as [ | [k0 v0] r IH ]; cbn.
  - tauto.
  - destruct (String.eqb_spec k k0) as [ -> | Hne ].
    + split; [ now left | discriminate ].
    + rewrite IH. split; [ now right | intros [ ? | ? ]; congruence ].
Qed.

Lemma add_name_known (k : string) (names : list string) :
  In k names -> Frame.add_name k names = names.
Proof.
  induction names as [ | n names IH ]; cbn; intros H.
  - contradiction.
  - destruct (String.eqb_spec k n); [ reflexivity | ].
    destruct H as [ -> | H ]; [ congruence | ]. now rewrite IH.
Qed.

Lemma lookup_set_all (vals : list (string * cell)) (r : row) (k : string) :
  lookup k (Frame.set_all vals r) =
  match lookup k (rev vals) with
  | Some v => Some v
  | None => lookup k r
  end.
Proof.
  unfold Frame.set_all. revert r.
  induction vals as [ | [k0 v0] vals IH ]; intros r; cbn.
  - reflexivity.
  - rewrite IH, lookup_set.
    assert (Happ : forall a b : dict,
               lookup k (a ++ b)%list =
               match lookup k a with Some v => Some v | None => lookup k b end).
    { intros a b. induction a as [ | [ka va] a IHa ]; cbn; [ reflexivity | ].
      now destruct (String.eqb k ka). }
    rewrite Happ. cbn. destruct (lookup k (rev vals)); [ reflexivity | ].
    now destruct (String.eqb k k0).
Qed.

Lemma keys_set_all (vals : list (string * cell)) (r : row) :
  (forall kv, In kv vals -> In (fst kv) (keys r)) ->
  keys (Frame.set_all vals r) = keys r.
Proof.
  unfold Frame.set_all. revert r.
  induction vals as [ | [k0 v0] vals IH ]; intros r H; cbn.
  - reflexivity.
  - assert (Hk : keys (Frame.set k0 v0 r) = keys r).
    { apply keys_set, lookup_keys. apply (H (k0, v0)). now left. }
    rewrite IH; [ assumption | ].
    intros kv Hkv. rewrite Hk. apply H. now right.
Qed.

Lemma lookup_In (k : string) (v : cell) (d : dict) :
  lookup k d = Some v -> In (k, v) d.
Proof.
  induction d as [ | [k0 v0] d IH ]; cbn; [ discriminate | ].
  destruct (String.eqb_spec k k0) as [ -> | ].
  - intros [= ->]. now left.
  - intros H. right. auto.
Qed.

Lemma lookup_None (k : string) (d : dict) :
  lookup k d = None <-> ~ In k (keys d).
Proof.
  rewrite <- lookup_keys. destruct (lookup k d) as [ c | ]; split.
  - discriminate.
  - intros H. exfalso. apply H. discriminate.
  - intros _ H. now apply H.
  - reflexivity.
Qed.

Lemma dict_get_found (d : dict) (k : string) (default v : json) :
  lookup k d = Some v -> dict_get d k default = v.
Proof.
  unfold dict_get. now intros ->.
Qed.

Lemma dict_get_absent (d : dict) (k : string) (default : json) :
  lookup k d = None -> dict_get d k default = default.
Proof.
  unfold dict_get. now intros ->.
Qed.

(** *** Expressions on a row *)

Lemma eval_str_col (f : string -> cell) (k : string) (r : row) (v : cell) :
  Frame.eval (Frame.Str f (Frame.Col k)) r = Ok v ->
  exists c, lookup k r = Some c /\ text_cell c = true /\ v = str_apply f c.
Proof.
  cbn. destruct (lookup k r) as [ c | ]; cbn; [ | discriminate ].
  destruct c; cbn; try discriminate; intros [= <-]; eexists; repeat split.
Qed.


Lemma with_columns_row_inv (assigns : list (string * Frame.expr)) (r r' : row) :
  Frame.with_columns_row assigns r = Ok r' ->
  exists vals,
    Forall2 (fun a kv => fst kv = fst a /\ Frame.eval (snd a) r = Ok (snd kv))
            assigns vals
    /\ r' = Frame.set_all vals r.
Proof.
  unfold Frame.with_columns_row. intros H. inv_bind H. injection H as <-.
  exists a. split; [ | reflexivity ].
  apply mapM_Forall2 in E.
  induction E as [ | x y l l' Hxy _ IH ]; constructor; [ | assumption ].
  unfold Frame.eval_named in Hxy. inv_bind Hxy. injection Hxy as <-. now split.
Qed.

(** *** Columns rewritten in place by one string function *)

Section InPlace.

Variable f : string -> cell.

Lemma in_place_vals (fields : list string) (r : row)
    (vals : list (string * cell)) :
  Forall2 (fun a kv => fst kv = fst a /\ Frame.eval (snd a) r = Ok (snd kv))
          (in_place f fields) vals ->
  keys vals = fields /\
  forall k v, In (k, v) vals ->
    exists c, lookup k r = Some c /\ text_cell c = true /\ v = str_apply f c.
Proof.
  revert vals. induction fields as [ | k0 fields IH ]; intros vals H;
    inversion H; subst; clear H.
  - split; [ reflexivity | contradiction ].
  - destruct (IH _ H4) as [Hk Hv]. destruct y as [k1 v1].
    destruct H2 as [Hfst Hev]. cbn in Hfst, Hev. subst k1.
    split; [ unfold keys in *; cbn; now rewrite Hk | ].
    intros k v [ [= <- <-] | Hin ]; [ | now apply Hv ].
    apply (eval_str_col f k0 r v1). exact Hev.
Qed.

Lemma in_place_rewritten (fields : list string) (r r' : row) :
  Frame.with_columns_row (in_place f fields) r = Ok r' ->
  rewritten (fun k c => if Str.mem k fields then str_apply f c else c) r r'.
Proof.
  intros H. apply with_columns_row_inv in H. destruct H as [vals [HF ->]].
  apply in_place_vals in HF. destruct HF as [Hk Hv].
  split.
  - apply keys_set_all. intros [k v] Hin.
    destruct (Hv _ _ Hin) as [c [Hc _]]. cbn. apply lookup_keys. congruence.
  - intros k. rewrite lookup_set_all.
    destruct (lookup k (rev vals)) as [ v | ] eqn:El.
    + apply lookup_In in El. apply in_rev in El.
      destruct (Hv _ _ El) as [c [Hc [_ ->]]].
      assert (Hm : Str.mem k fields = true).
      { apply mem_In. rewrite <- Hk. unfold keys.
        change k with (fst (k, str_apply f c)). now apply in_map. }
      now rewrite Hm, Hc.
    + apply lookup_None in El.
      assert (Hm : Str.mem k fields = false).
      { destruct (Str.mem k fields) eqn:Em; [ | reflexivity ].
        exfalso. apply El. apply mem_In in Em. rewrite <- Hk in Em.
        unfold keys in *. rewrite map_rev. now apply in_rev in Em. }
      rewrite Hm. destruct (lookup k r); reflexivity.
Qed.


End InPlace.

Lemma rewritten_trans (g1 g2 : string -> cell -> cell) (r0 r1 r2 : row) :
  rewritten g1 r0 r1 -> rewritten g2 r1 r2 ->
  rewritten (fun k c => g2 k (g1 k c)) r0 r2.
Proof.
  intros [K1 L1] [K2 L2]. split; [ congruence | ].
  intros k. rewrite L2, L1. now destruct (lookup k r0).
Qed.

Lemma rewritten_ext (g1 g2 : string -> cell -> cell) (r0 r : row) :
  (forall k c, lookup k r0 = Some c -> g1 k c = g2 k c) ->
  rewritten g1 r0 r -> rewritten g2 r0 r.
Proof.
  intros Hext [K L]. split; [ assumption | ].
  intros k. rewrite L. destruct (lookup k r0) eqn:E; cbn; [ | reflexivity ].
  f_equal. now apply Hext.
Qed.

(** *** Frames *)

Lemma with_columns_inv (assigns : list (string * Frame.expr)) (df df' : DataFrame) :
  Frame.with_columns assigns df = Ok df' ->
  Frame.all_known (columns df) (map snd assigns) = true /\
  columns df' =
    fold_left (fun acc a => Frame.add_name (fst a) acc) assigns (columns df) /\
  Forall2 (fun r r' => Frame.with_columns_row assigns r = Ok r') (rows df) (rows df').
Proof.
  unfold Frame.with_columns. intros H.
  destruct (Frame.all_known _ _); [ | discriminate ].
  inv_bind H. injection H as <-. cbn. repeat split.
  now apply mapM_Forall2.
Qed.

Lemma fold_add_known (names : list string) (ks : list string) :
  (forall k, In k ks -> In k names) ->
  fold_left (fun acc k => Frame.add_name k acc) ks names = names.
Proof.
  induction ks as [ | k ks IH ]; cbn; intros H; [ reflexivity | ].
  rewrite add_name_known by (apply H; now left).
  apply IH. intros; apply H; now right.
Qed.

Lemma in_place_columns (f : string -> cell) (fields : list string) (df df' : DataFrame) :
  Frame.with_columns (in_place f fields) df = Ok df' ->
  columns df' = columns df /\ (forall k, In k fields -> In k (columns df)).
Proof.
  intros H. apply with_columns_inv in H. destruct H as [Hk [Hc _]].
  assert (Hin : forall k, In k fields -> In k (columns df)).
  { unfold Frame.all_known in Hk. rewrite forallb_forall in Hk.
    intros k Hkf.
    specialize (Hk (Frame.Str f (Frame.Col k))).
    unfold in_place in Hk. rewrite map_map in Hk. cbn in Hk.
    assert (Hx : In (Frame.Str f (Frame.Col k))
                    (map (fun x => Frame.Str f (Frame.Col x)) fields))
      by (now apply (in_map (fun x => Frame.Str f (Frame.Col x)))).
    specialize (Hk Hx). unfold Frame.known in Hk. cbn in Hk.
    rewrite andb_true_r in Hk. now apply mem_In. }
  split; [ | assumption ].
  rewrite Hc. unfold in_place.
  rewrite <- (fold_add_known (columns df) fields Hin) at 2.
  clear. generalize (columns df). induction fields as [ | k ks IH ]; cbn; intros names.
  - reflexivity.
  - apply IH.
Qed.

Lemma filter_inv (preds : list Frame.expr) (df df' : DataFrame) :
  Frame.filter preds df = Ok df' ->
  columns df' = columns df /\
  forall r, In r (rows df') -> In r (rows df) /\ Frame.keep preds r = Ok true.
Proof.
  unfold Frame.filter. intros H.
  destruct (Frame.all_known _ _); [ | discriminate ].
  inv_bind H. injection H as <-. cbn. split; [ reflexivity | ].
  now apply filterM_sound.
Qed.

Lemma keep_is_in (values : list string) (k : string) (r : row) :
  Frame.keep [Frame.is_in values (Frame.Col k)] r = Ok true ->
  exists s, lookup k r = Some (JStr s) /\ In s values.
Proof.
  unfold Frame.keep, Frame.is_in. cbn -[Str.mem].
  destruct (lookup k r) as [ c | ]; cbn -[Str.mem]; [ | discriminate ].
  destruct c; cbn -[Str.mem]; try discriminate.
  rewrite andb_true_r. intros [= H]. exists s. split; [ reflexivity | ].
  destruct (Str.mem s values) eqn:E; [ now apply mem_In | discriminate ].
Qed.

Lemma select_inv (exprs : list (string * Frame.expr)) (df df' : DataFrame) :
  Frame.select exprs df = Ok df' ->
  columns df' = map fst exprs /\
  Forall2 (fun r r' => Frame.select_row exprs r = Ok r') (rows df) (rows df').
Proof.
  unfold Frame.select. intros H.
  destruct (Frame.all_known _ _); [ | discriminate ].
  destruct (Frame.nodup_names _); [ | discriminate ].
  inv_bind H. injection H as <-. cbn. split; [ reflexivity | ].
  now apply mapM_Forall2.
Qed.

Lemma select_row_keys (exprs : list (string * Frame.expr)) (r r' : row) :
  Frame.select_row exprs r = Ok r' -> keys r' = map fst exprs.
Proof.
  unfold Frame.select_row. intros H. apply mapM_Forall2 in H.
  induction H as [ | a kv l l' Ha _ IH ]; cbn; [ reflexivity | ].
  unfold Frame.eval_named in Ha. inv_bind Ha. injection Ha as <-.
  cbn. unfold keys in IH. now rewrite IH.
Qed.

Lemma Forall2_in_r {A B : Type} (R : A -> B -> Prop) (l : list A) (l' : list B) (b : B) :
  Forall2 R l l' -> In b l' -> exists a, In a l /\ R a b.
Proof.
  induction 1 as [ | x y l l' Hxy _ IH ]; intros Hin; [ contradiction | ].
  destruct Hin as [ <- | Hin ].
  - exists x. split; [ now left | assumption ].
  - destruct (IH Hin) as [a [Ha HR]]. exists a. split; [ now right | assumption ].
Qed.

(** *** The DAST plugin, exactly *)

Lemma filter_map_comm {A B : Type} (p : B -> bool) (f : A -> B) (l : list A) :
  List.filter p (map f l) = map f (List.filter (fun a => p (f a)) l).
Proof.
  induction l as [ | a l IH ]; cbn; [ reflexivity | ].
  destruct (p (f a)); cbn; now rewrite IH.
Qed.

Lemma keep_risk (r : row) (c : cell) :
  lookup "risk" r = Some c -> text_cell c = true ->
  Frame.keep [Frame.is_in valid_risks (Frame.Col "risk")] r = Ok (risk_kept r).
Proof.
  intros H Ht. unfold Frame.keep, Frame.is_in, risk_kept. cbn -[Str.mem].
  rewrite H. destruct c; try discriminate Ht; cbn -[Str.mem]; [ reflexivity | ].
  now destruct (Str.mem s valid_risks).
Qed.

Lemma burp_pipeline (issues : list element) :
  issues <> [] ->
  (df <- Frame.with_columns
           [("description", Frame.replace_all Str.nl "<br/>" (Frame.Col "description"));
            ("remediation", Frame.replace_all Str.nl "<br/>" (Frame.Col "remediation"));
            ("evidence", Frame.replace_all Str.nl "<br/>" (Frame.Col "evidence"))]
           (Frame.of_records (map BurpSuite.record_of issues)) ;;
   df <- Frame.with_columns [("risk", Frame.to_uppercase (Frame.Col "risk"))] df ;;
   Frame.filter [Frame.is_in valid_risks (Frame.Col "risk")] df)
  = Ok (mkDataFrame canonical (map burp_row (List.filter burp_keeps issues))).
Proof.
  intros Hne. destruct issues as [ | i issues ]; [ contradiction | ].
  unfold Frame.with_columns at 1.
  change (columns (Frame.of_records (map BurpSuite.record_of (i :: issues))))
    with canonical.
  change (rows (Frame.of_records (map BurpSuite.record_of (i :: issues))))
    with (map BurpSuite.record_of (i :: issues)).
  change (Frame.all_known canonical _) with true. cbv iota.
  rewrite (mapM_map _ BurpSuite.record_of
             (fun x => apply_rule (cell_rule "<br/>" text_fields [])
                         (BurpSuite.record_of x)))
    by reflexivity.
  cbn [bind].
  unfold Frame.with_columns at 1. cbn [columns rows].
  change (Frame.all_known _ _) with true. cbv iota.
  rewrite (mapM_map _ _ burp_row) by reflexivity.
  cbn [bind].
  unfold Frame.filter. cbn [columns rows].
  change (Frame.all_known _ _) with true. cbv iota.
  rewrite (filterM_filter _ risk_kept) by
    (intros r Hr; apply in_map_iff in Hr; destruct Hr as [x [<- _]];
     now apply (keep_risk _ (JStr (Str.upper (ET.findtext x "severity" ""))))).

  cbn [bind]. rewrite filter_map_comm. reflexivity.
Qed.

Lemma burp_process (root : element) (file_type : string) :
  BurpSuite.accepts file_type = true ->
  BurpSuite.process (Some root) file_type
  = Ok (mkDataFrame canonical
          (map burp_row (List.filter burp_keeps (ET.findall root "issue")))).
Proof.
  intros Ha. unfold BurpSuite.process. rewrite Ha. cbn [negb].
  unfold BurpSuite.records.
  destruct (ET.findall root "issue") as [ | i issues ] eqn:E.
  - reflexivity.
  - exact (burp_pipeline (i :: issues) ltac:(discriminate)).
Qed.

(** *** The newline substitution and the upper case of the risk, as steps
    of a pipeline *)

Lemma in_place_step (f : string -> cell) (fields : list string) (df df' : DataFrame) :
  Frame.with_columns (in_place f fields) df = Ok df' ->
  columns df' = columns df /\
  forall r, In r (rows df') ->
    exists r0, In r0 (rows df) /\
      rewritten (fun k c => if Str.mem k fields then str_apply f c else c) r0 r.
Proof.
  intros H. split; [ now apply (in_place_columns f fields) | ].
  apply with_columns_inv in H. destruct H as [_ [_ HF]].
  intros r Hr. destruct (Forall2_in_r _ _ _ _ HF Hr) as [r0 [Hr0 Hrow]].
  exists r0. split; [ assumption | ]. now apply in_place_rewritten.
Qed.

Lemma break_step (marker : string) (fields : list string) (df df' : DataFrame) :
  Frame.with_columns (in_place (break_fn marker) fields) df = Ok df' ->
  columns df' = columns df /\
  forall r, In r (rows df') ->
    exists r0, In r0 (rows df) /\ substituted marker fields [] r0 r.
Proof.
  intros H. apply in_place_step in H. destruct H as [Hc Hr].
  split; [ assumption | ].
  intros r Hin. destruct (Hr r Hin) as [r0 [Hr0 Hrw]].
  exists r0. split; [ assumption | ].
  unfold substituted. revert Hrw. apply rewritten_ext.
  intros k c _. unfold cell_rule. destruct (Str.mem k fields); [ | reflexivity ].
  destruct c; reflexivity.
Qed.

Lemma upper_step (df df' : DataFrame) :
  Frame.with_columns (in_place upper_fn ["risk"]) df = Ok df' ->
  columns df' = columns df /\
  forall r, In r (rows df') ->
    exists r0, In r0 (rows df) /\ substituted "" [] ["risk"] r0 r.
Proof.
  intros H. apply in_place_step in H. destruct H as [Hc Hr].
  split; [ assumption | ].
  intros r Hin. destruct (Hr r Hin) as [r0 [Hr0 Hrw]].
  exists r0. split; [ assumption | ].
  unfold substituted. revert Hrw. apply rewritten_ext.
  intros k c _. unfold cell_rule. cbn [Str.mem existsb].
  destruct (Str.mem k ["risk"]); [ | reflexivity ].
  destruct c; reflexivity.
Qed.

(** The substitution, then the upper case of the risk. *)
Lemma substituted_then_upper (marker : string) (fields : list string)
    (r0 r1 r2 : row) :
  Str.mem "risk" fields = false ->
  substituted marker fields [] r0 r1 ->
  substituted "" [] ["risk"] r1 r2 ->
  substituted marker fields ["risk"] r0 r2.
Proof.
  intros Hrisk H1 H2. unfold substituted in *.
  pose proof (rewritten_trans _ _ _ _ _ H1 H2) as H.
  revert H. apply rewritten_ext. intros k c _. unfold cell_rule.
  cbn [Str.mem existsb].
  destruct (String.eqb_spec k "risk") as [ -> | Hne ].
  - rewrite Hrisk. reflexivity.
  - cbn. destruct (Str.mem k fields); reflexivity.
Qed.

Lemma substituted_risk (marker : string) (fields : list string) (r0 r : row) :
  Str.mem "risk" fields = false ->
  substituted marker fields [] r0 r ->
  lookup "risk" r = lookup "risk" r0.
Proof.
  intros Hrisk [_ H]. rewrite H. unfold cell_rule. rewrite Hrisk. cbn.
  now destruct (lookup "risk" r0).
Qed.



Lemma filter_risk_inv (df df' : DataFrame) :
  Frame.filter [Frame.is_in valid_risks (Frame.Col "risk")] df = Ok df' ->
  columns df' = columns df /\
  forall r, In r (rows df') -> In r (rows df) /\ risk_in valid_risks r.
Proof.
  intros H. apply filter_inv in H. destruct H as [Hc Hr].
  split; [ assumption | ].
  intros r Hin. destruct (Hr r Hin) as [Hr0 Hk].
  split; [ assumption | ]. now apply keep_is_in.
Qed.

(** *** When the steps succeed *)





Lemma filter_none {A : Type} (p : A -> bool) (l : list A) :
  (forall a, In a l -> p a = false) -> List.filter p l = [].
Proof.
  induction l as [ | a l IH ]; cbn; intros H; [ reflexivity | ].
  rewrite (H a) by now left. apply IH. intros; apply H; now right.
Qed.

(** *** The records of the JSON plugins *)

Lemma Forall2_Forall_r {A B : Type} (R : A -> B -> Prop) (P : B -> Prop)
    (l : list A) (l' : list B) :
  (forall a b, R a b -> P b) -> Forall2 R l l' -> Forall P l'.
Proof.
  intros H; induction 1; constructor; eauto.
Qed.

Lemma semgrep_record (x : json) (r : dict) :
  Semgrep.record_of x = Ok r ->
  keys r = canonical /\ lookup "risk" r = Some (JStr "Medium").
Proof.
  unfold Semgrep.record_of. intros H. repeat inv_bind H. injection H as <-.
  split; reflexivity.
Qed.

Lemma semgrep_records (data : json) (recs : list dict) :
  Semgrep.records data = Ok recs ->
  Forall (fun r => keys r = canonical /\ lookup "risk" r = Some (JStr "Medium")) recs.
Proof.
  unfold Semgrep.records. intros H. repeat inv_bind H.
  apply mapM_Forall2 in H. revert H. apply Forall2_Forall_r.
  intros x r. apply semgrep_record.
Qed.

Lemma of_records_columns (recs : list dict) :
  recs <> [] -> Forall (fun r => keys r = canonical) recs ->
  columns (Frame.of_records recs) = canonical.
Proof.
  destruct recs as [ | r recs ]; [ contradiction | ].
  intros _ H. inversion H; subst. assumption.
Qed.

Lemma semgrep_process_inv (file : option json) (file_type : string) (df : DataFrame) :
  Semgrep.process file file_type = Ok df ->
  exists data recs,
    file = Some data /\ Semgrep.records data = Ok recs /\
    columns df = canonical /\
    forall r, In r (rows df) ->
      exists r0, In r0 recs /\ substituted "<br/>" text_fields [] r0 r.
Proof.
  unfold Semgrep.process. destruct (negb _); [ discriminate | ].
  destruct file as [ data | ]; [ | discriminate ].
  intros H. inv_bind H. exists data, a. split; [ reflexivity | ].
  split; [ exact E | ].
  destruct a as [ | r0 recs ].
  - injection H as <-. split; [ reflexivity | contradiction ].
  - change (Frame.with_columns (in_place (break_fn "<br/>") text_fields)
              (Frame.of_records (r0 :: recs)) = Ok df) in H.
    apply break_step in H. destruct H as [Hc Hr].
    split; [ | exact Hr ].
    rewrite Hc. apply of_records_columns; [ discriminate | ].
    apply semgrep_records in E. revert E. apply Forall_impl. tauto.
Qed.

Lemma legacy_record (vuln data : json) (r : dict) :
  VATrivy._parse_legacy_vulnerability vuln data = Ok r ->
  keys r = canonical /\ lookup "evidence" r = Some (JStr "").
Proof.
  unfold VATrivy._parse_legacy_vulnerability. intros H.
  repeat inv_bind H. injection H as <-. split; reflexivity.
Qed.

Lemma modern_record (vuln target : json) (r : dict) :
  VATrivy._parse_modern_vulnerability vuln target = Ok r ->
  keys r = canonical /\ lookup "evidence" r = Some (JStr "").
Proof.
  unfold VATrivy._parse_modern_vulnerability. intros H.
  repeat inv_bind H. injection H as <-. split; reflexivity.
Qed.

Lemma Forall_concat {A : Type} (P : A -> Prop) (ls : list (list A)) :
  Forall (Forall P) ls -> Forall P (concat ls).
Proof.
  induction 1; cbn; [ constructor | ]. apply Forall_app. now split.
Qed.

Lemma trivy_records (data : json) (recs : list dict) :
  VATrivy.records data = Ok recs ->
  Forall (fun r => keys r = canonical /\ lookup "evidence" r = Some (JStr "")) recs.
Proof.
  unfold VATrivy.records. intros H. inv_bind H. destruct a.
  - repeat inv_bind H. apply mapM_Forall2 in H. revert H.
    apply Forall2_Forall_r. intros x r. apply legacy_record.
  - inv_bind H. destruct a; [ | discriminate ].
    repeat inv_bind H. injection H as <-.
    apply Forall_concat. apply mapM_Forall2 in E3. revert E3.
    apply Forall2_Forall_r. intros x rs Hx.
    unfold VATrivy.records_of_result in Hx. repeat inv_bind Hx.
    destruct a3; try (repeat inv_bind Hx; apply mapM_Forall2 in Hx; revert Hx;
                      apply Forall2_Forall_r; intros v r; apply modern_record).
    injection Hx as <-. constructor.
Qed.

Lemma trivy_steps_inv (df df' : DataFrame) :
  trivy_steps df = Ok df' ->
  columns df' = columns df /\
  forall r, In r (rows df') ->
    risk_in valid_risks r /\
    exists r0, In r0 (rows df) /\
      substituted "<br/>" ["description"; "remediation"] ["risk"] r0 r.
Proof.
  unfold trivy_steps. intros H. inv_bind H. inv_bind H.
  apply break_step in E. destruct E as [Hc1 Hr1].
  apply upper_step in E0. destruct E0 as [Hc2 Hr2].
  apply filter_risk_inv in H. destruct H as [Hc3 Hr3].
  split; [ congruence | ].
  intros r Hin. destruct (Hr3 r Hin) as [Hin2 Hrisk].
  split; [ assumption | ].
  destruct (Hr2 r Hin2) as [r1 [Hin1 Hs2]].
  destruct (Hr1 r1 Hin1) as [r0 [Hin0 Hs1]].
  exists r0. split; [ assumption | ].
  now apply (substituted_then_upper _ _ r0 r1 r).
Qed.

Lemma trivy_process_inv (file : option json) (file_type : string) (df : DataFrame) :
  VATrivy.process file file_type = Ok df ->
  exists data recs,
    file = Some data /\ VATrivy.records data = Ok recs /\
    columns df = canonical /\
    forall r, In r (rows df) ->
      risk_in valid_risks r /\
      exists r0, In r0 recs /\
        substituted "<br/>" ["description"; "remediation"] ["risk"] r0 r.
Proof.
  unfold VATrivy.process. destruct (negb _); [ discriminate | ].
  destruct file as [ data | ]; [ | discriminate ].
  intros H. inv_bind H. exists data, a. split; [ reflexivity | ].
  split; [ exact E | ].
  destruct a as [ | r0 recs ].
  - injection H as <-. split; [ reflexivity | contradiction ].
  - change (trivy_steps (Frame.of_records (r0 :: recs)) = Ok df) in H.
    apply trivy_steps_inv in H. destruct H as [Hc Hr].
    split; [ | exact Hr ].
    rewrite Hc. apply of_records_columns; [ discriminate | ].
    apply trivy_records in E. revert E. apply Forall_impl. tauto.
Qed.




(** *** Selections *)

Lemma eval_col (k : string) (r : row) (v : cell) :
  Frame.eval (Frame.Col k) r = Ok v <-> lookup k r = Some v.
Proof.
  cbn. destruct (lookup k r) as [ c | ]; split; intros H;
    try discriminate H; now injection H as ->.
Qed.

Lemma select_row_named (names : list string) (r r' : row) :
  Frame.select_row (Frame.named names) r = Ok r' ->
  forall k, In k names -> lookup k r' = lookup k r.
Proof.
  unfold Frame.select_row. revert r'.
  induction names as [ | n names IH ]; intros r' H k Hk; [ contradiction | ].
  cbn [Frame.named map mapM] in H. inv_bind H. inv_bind H. injection H as <-.
  unfold Frame.eval_named in E. cbn [fst snd] in E. inv_bind E. injection E as <-.
  apply eval_col in E1. cbn [lookup].
  destruct (String.eqb_spec k n) as [ -> | Hne ]; [ now rewrite E1 | ].
  destruct Hk as [ -> | Hk ]; [ congruence | ].
  now apply (IH a0).
Qed.

(** *** Renamed and dropped columns *)

Lemma lookup_rename_keys (f : string -> string) (k : string) (r : row) :
  (forall k', f k' = k <-> k' = k) ->
  lookup k (Frame.rename_keys f r) = lookup k r.
Proof.
  intros Hf. induction r as [ | [k0 v0] r IH ]; cbn; [ reflexivity | ].
  destruct (String.eqb_spec k (f k0)) as [ E | E ].
  - symmetry in E. apply (proj1 (Hf k0)) in E. subst k0.
    now rewrite String.eqb_refl.
  - destruct (String.eqb_spec k k0) as [ -> | _ ]; [ | assumption ].
    exfalso. apply E. symmetry. now apply Hf.
Qed.

Lemma lookup_drop_keys (names : list string) (k : string) (r : row) :
  Str.mem k names = false ->
  lookup k (Frame.drop_keys names r) = lookup k r.
Proof.
  intros Hk. unfold Frame.drop_keys.
  induction r as [ | [k0 v0] r IH ]; cbn -[Str.mem]; [ reflexivity | ].
  destruct (String.eqb_spec k k0) as [ <- | Hne ].
  - rewrite Hk. cbn -[Str.mem]. now rewrite String.eqb_refl.
  - destruct (Str.mem k0 names); cbn -[Str.mem]; [ assumption | ].
    destruct (String.eqb_spec k k0); [ contradiction | assumption ].
Qed.

Lemma rename_all_inv (f : string -> string) (df df' : DataFrame) :
  Frame.rename_all f df = Ok df' ->
  columns df' = map f (columns df) /\
  rows df' = map (Frame.rename_keys f) (rows df).
Proof.
  unfold Frame.rename_all. destruct (Frame.nodup_names _); [ | discriminate ].
  intros [= <-]. split; reflexivity.
Qed.

Lemma rename_inv (mapping : list (string * string)) (df df' : DataFrame) :
  Frame.rename mapping df = Ok df' ->
  (forall m, In m mapping -> In (fst m) (columns df)) /\
  columns df' = map (Frame.renamed mapping) (columns df) /\
  rows df' = map (Frame.rename_keys (Frame.renamed mapping)) (rows df).
Proof.
  unfold Frame.rename.
  destruct (forallb _ mapping) eqn:E; [ | discriminate ].
  intros H. apply rename_all_inv in H. split; [ | assumption ].
  rewrite forallb_forall in E. intros m Hm. now apply mem_In, E.
Qed.

Lemma drop_inv (names : list string) (df df' : DataFrame) :
  Frame.drop names df = Ok df' ->
  columns df' = List.filter (fun n => negb (Str.mem n names)) (columns df) /\
  rows df' = map (Frame.drop_keys names) (rows df).
Proof.
  unfold Frame.drop. destruct (forallb _ names); [ | discriminate ].
  intros [= <-]. split; reflexivity.
Qed.

Lemma eval_str (f : string -> cell) (e : Frame.expr) (r : row) (v : cell) :
  Frame.eval (Frame.Str f e) r = Ok v ->
  exists c, Frame.eval e r = Ok c /\ text_cell c = true /\ v = str_apply f c.
Proof.
  intros H. simpl in H.
  destruct (Frame.eval e r) as [ a | ] eqn:E; simpl in H; [ | discriminate ].
  exists a. destruct a; try discriminate; injection H as <-; repeat split.
Qed.

Lemma keep_ne (lit : string) (k : string) (preds : list Frame.expr) (r : row) :
  Frame.keep (Frame.ne lit (Frame.Col k) :: preds) r = Ok true ->
  exists s, lookup k r = Some (JStr s) /\ s <> lit.
Proof.
  unfold Frame.keep, Frame.ne. cbn [mapM]. intros H.
  destruct (Frame.eval _ r) as [ v | ] eqn:Ev; cbn [bind] in H; [ | discriminate ].
  destruct (mapM _ preds) as [ vs | ]; cbn [bind] in H; [ | discriminate ].
  injection H as H. cbn [forallb] in H.
  apply andb_prop in H. destruct H as [H _].
  apply eval_str in Ev. destruct Ev as [c [Hc [Ht ->]]]. apply eval_col in Hc.
  destruct c as [ | b | z | s | l | d ]; try discriminate Ht; cbn in H;
    try discriminate H.
  exists s. split; [ assumption | ].
  destruct (String.eqb_spec s lit); [ discriminate | assumption ].
Qed.

(** *** The CSV plugins and the nested-struct JSON plugin *)

Lemma threatcode_extracted (df0 df1 : DataFrame) :
  ThreatCode.extracted df0 = Ok df1 ->
  columns df1 = canonical /\ Forall (fun r => keys r = canonical) (rows df1).
Proof.
  unfold ThreatCode.extracted. intros H. inv_bind H. inv_bind H.
  apply select_inv in H. destruct H as [Hc Hr].
  split; [ exact Hc | ].
  revert Hr. apply Forall2_Forall_r. intros r r' Hrow.
  now apply select_row_keys in Hrow.
Qed.

Lemma threatcode_process_inv (file : option DataFrame) (file_type : string)
    (df : DataFrame) :
  ThreatCode.process file file_type = Ok df ->
  exists df0 df1,
    file = Some df0 /\ ThreatCode.extracted df0 = Ok df1 /\
    columns df = canonical /\
    forall r, In r (rows df) ->
      risk_in valid_risks r /\
      exists r0, In r0 (rows df1) /\ keys r0 = canonical /\
        substituted "<br/>" text_fields [] r0 r.
Proof.
  unfold ThreatCode.process. destruct (negb _); [ discriminate | ].
  destruct file as [ df0 | ]; [ | discriminate ].
  intros H. inv_bind H. exists df0, a. split; [ reflexivity | ].
  split; [ exact E | ].
  apply threatcode_extracted in E. destruct E as [Hc0 Hk0].
  inv_bind H. inv_bind H.
  change (Frame.with_columns (in_place (break_fn "<br/>") text_fields) a = Ok a0) in E.
  apply break_step in E. destruct E as [Hc1 Hr1].
  apply filter_risk_inv in E0. destruct E0 as [Hc2 Hr2].
  assert (Hrows : forall r, In r (rows a1) ->
            risk_in valid_risks r /\
            exists r0, In r0 (rows a) /\ keys r0 = canonical /\
              substituted "<br/>" text_fields [] r0 r).
  { intros r Hin. destruct (Hr2 r Hin) as [Hin1 Hrisk].
    split; [ assumption | ].
    destruct (Hr1 r Hin1) as [r0 [Hin0 Hs]]. exists r0.
    split; [ assumption | ]. split; [ | assumption ].
    rewrite Forall_forall in Hk0. now apply Hk0. }
  destruct (rows a1) eqn:Erows.
  - injection H as <-. split; [ reflexivity | contradiction ].
  - injection H as <-. split; [ congruence | ].
    rewrite Erows. exact Hrows.
Qed.

Lemma scatrivy_extracted (lf df1 : DataFrame) :
  SCATrivy.extracted lf = Ok df1 ->
  forall r, In r (rows df1) -> risk_in valid_risks r.
Proof.
  unfold SCATrivy.extracted. intros H. repeat inv_bind H.
  apply filter_risk_inv in H. destruct H as [_ Hr].
  intros r Hin. now destruct (Hr r Hin).
Qed.

Lemma scatrivy_process_inv (file : option DataFrame) (file_type : string)
    (df : DataFrame) :
  SCATrivy.process file file_type = Ok df ->
  exists lf df1,
    file = Some lf /\ SCATrivy.extracted lf = Ok df1 /\
    columns df = canonical /\
    forall r, In r (rows df) ->
      risk_in valid_risks r /\
      exists r0, In r0 (rows df1) /\
        projected "<br/>" ["description"; "remediation"] r0 r.
Proof.
  unfold SCATrivy.process. destruct (negb _); [ discriminate | ].
  destruct file as [ lf | ]; [ | discriminate ].
  intros H. inv_bind H. exists lf, a. split; [ reflexivity | ].
  split; [ exact E | ].
  pose proof (scatrivy_extracted _ _ E) as Hrisk.
  inv_bind H.
  change (Frame.with_columns
            (in_place (break_fn "<br/>") ["description"; "remediation"]) a = Ok a0)
    in E0.
  apply break_step in E0. destruct E0 as [Hc1 Hr1].
  apply select_inv in H. destruct H as [Hc2 Hr2].
  split; [ exact Hc2 | ].
  intros r Hin. destruct (Forall2_in_r _ _ _ _ Hr2 Hin) as [r2 [Hin2 Hsel]].
  destruct (Hr1 r2 Hin2) as [r0 [Hin0 Hs]].
  pose proof (select_row_named _ _ _ Hsel) as Hl.
  assert (Hp : projected "<br/>" ["description"; "remediation"] r0 r).
  { split; [ now apply select_row_keys in Hsel | ].
    intros k Hk. rewrite (Hl k Hk). now destruct Hs as [_ ->]. }
  split; [ | exists r0; now split ].
  destruct (Hrisk r0 Hin0) as [s [Hs0 Hv]]. exists s. split; [ | assumption ].
  destruct Hp as [_ Hp]. rewrite (Hp "risk") by (cbn; tauto).
  rewrite Hs0. reflexivity.
Qed.

Lemma vanessus_renamed (k : string) :
  k <> "remediation" -> k <> "evidence" -> k <> "solution" -> k <> "plugin_output" ->
  forall k', Frame.renamed VANessus.renames k' = k <-> k' = k.
Proof.
  intros H1 H2 H3 H4 k'. unfold VANessus.renames. cbn [Frame.renamed].
  destruct (String.eqb_spec k' "solution") as [ -> | ];
    [ split; congruence | ].
  destruct (String.eqb_spec k' "plugin_output") as [ -> | ];
    [ split; congruence | ].
  tauto.
Qed.

Lemma vanessus_process_inv (file : option DataFrame) (file_type : string)
    (df : DataFrame) :
  VANessus.process file file_type = Ok df ->
  exists lf df1,
    file = Some lf /\ VANessus.extracted lf = Ok df1 /\
    columns df
      = map (Frame.renamed VANessus.renames) (map VANessus.normalize (columns lf)) /\
    forall r, In r (rows df) ->
      (exists s, lookup "risk" r = Some (JStr s) /\ s <> "None") /\
      exists r1 r2,
        In r1 (rows df1) /\
        substituted " <br/> " ["solution"; "description"; "plugin_output"] [] r1 r2 /\
        r = Frame.rename_keys (Frame.renamed VANessus.renames) r2.
Proof.
  unfold VANessus.process. destruct (negb _); [ discriminate | ].
  destruct file as [ lf | ]; [ | discriminate ].
  intros H. inv_bind H. exists lf, a. split; [ reflexivity | ].
  split; [ exact E | ].
  unfold VANessus.extracted in E. inv_bind E.
  apply rename_all_inv in E0. destruct E0 as [Hc0 _].
  apply filter_inv in E. destruct E as [Hc1 Hr1].
  inv_bind H.
  change (Frame.with_columns
            (in_place (break_fn " <br/> ") ["solution"; "description"; "plugin_output"])
            a = Ok a1) in E.
  apply break_step in E. destruct E as [Hc2 Hr2].
  apply rename_inv in H. destruct H as [_ [Hc3 Hr3]].
  split; [ congruence | ].
  intros r Hin. rewrite Hr3 in Hin. apply in_map_iff in Hin.
  destruct Hin as [r2 [<- Hin2]].
  destruct (Hr2 r2 Hin2) as [r1 [Hin1 Hs]].
  split;
    [ | exists r1, r2; split; [ assumption | split; [ assumption | reflexivity ] ] ].
  destruct (Hr1 r1 Hin1) as [_ Hk]. apply keep_ne in Hk.
  destruct Hk as [s [Hl Hne]]. exists s. split; [ | assumption ].
  rewrite lookup_rename_keys by (apply vanessus_renamed; discriminate).
  rewrite (substituted_risk " <br/> " ["solution"; "description"; "plugin_output"]
             r1 r2 eq_refl Hs).
  assumption.
Qed.

Lemma compliance_renamed (k : string) :
  k <> "remediation" -> k <> "status" -> k <> "Solution" -> k <> "Risk" ->
  forall k',
    Frame.renamed [("Solution", "remediation"); ("Risk", "status")] k' = k <-> k' = k.
Proof.
  intros H1 H2 H3 H4 k'. cbn [Frame.renamed].
  destruct (String.eqb_spec k' "Solution") as [ -> | ]; [ split; congruence | ].
  destruct (String.eqb_spec k' "Risk") as [ -> | ]; [ split; congruence | ].
  tauto.
Qed.

Lemma compliance_process_inv (file : option DataFrame) (file_type : string)
    (df : DataFrame) :
  ComplianceNessus.process file file_type = Ok df ->
  In "status" (columns df) /\
  forall r, In r (rows df) ->
    lookup "risk" r = Some JNull /\
    null_or_text (Str.replace Str.nl "<br/>") (lookup "description" r) /\
    null_or_text (fun t => Str.strip Str.rs_space (Str.replace Str.nl "<br/>" t))
                 (lookup "evidence" r).
Proof.
  unfold ComplianceNessus.process. destruct (negb _); [ discriminate | ].
  destruct file as [ lf | ]; [ | discriminate ].
  intros H. inv_bind H. inv_bind H. inv_bind H.
  apply with_columns_inv in E. destruct E as [_ [_ Hr0]].
  apply filter_inv in E0. destruct E0 as [_ Hr1].
  apply rename_inv in E1. destruct E1 as [Hm [Hc2 Hr2]].
  apply drop_inv in H. destruct H as [Hc3 Hr3].
  split.
  - rewrite Hc3, Hc2. apply filter_In. split; [ | reflexivity ].
    change "status"
      with (Frame.renamed [("Solution", "remediation"); ("Risk", "status")] "Risk").
    apply in_map. apply (Hm ("Risk", "status")). cbn; tauto.
  - intros r Hin. rewrite Hr3, Hr2, map_map in Hin. apply in_map_iff in Hin.
    destruct Hin as [r1 [<- Hin1]].
    destruct (Hr1 r1 Hin1) as [Hin0 _].
    destruct (Forall2_in_r _ _ _ _ Hr0 Hin0) as [r0 [_ Hrow]].
    apply with_columns_row_inv in Hrow. destruct Hrow as [vals [HF ->]].
    repeat match goal with
           | F : Forall2 _ (_ :: _) _ |- _ => inversion F; subst; clear F
           | F : Forall2 _ [] _ |- _ => inversion F; subst; clear F
           end.
    repeat match goal with
           | P : _ /\ _ |- _ => destruct P
           | y : (string * cell)%type |- _ => destruct y
           end.
    cbn [fst snd] in *. subst.
    repeat split.
    + rewrite lookup_drop_keys by reflexivity.
      rewrite lookup_rename_keys by (apply compliance_renamed; discriminate).
      rewrite lookup_set_all. cbn.
      match goal with
      | E : Frame.eval (Frame.Lit JNull) _ = _ |- _ => cbn in E; inversion E
      end.
      reflexivity.
    + rewrite lookup_drop_keys by reflexivity.
      rewrite lookup_rename_keys by (apply compliance_renamed; discriminate).
      rewrite lookup_set_all. cbn.
      match goal with
      | E : Frame.eval (Frame.replace_all _ _ (Frame.replace _ _ _)) _ = _ |- _ =>
          apply eval_str in E; destruct E as [x [_ [Ht ->]]]
      end.
      destruct x; try discriminate Ht; [ now left | right; eexists; reflexivity ].
    + rewrite lookup_drop_keys by reflexivity.
      rewrite lookup_rename_keys by (apply compliance_renamed; discriminate).
      rewrite lookup_set_all. cbn.
      match goal with
      | E : Frame.eval (Frame.strip_chars _) _ = _ |- _ =>
          apply eval_str in E; destruct E as [x [E [Ht ->]]];
          apply eval_str in E; destruct E as [x' [_ [Ht' ->]]]
      end.
      destruct x'; try discriminate Ht'; [ now left | right; eexists; reflexivity ].
Qed.

(** *** The rows of the compliance plugin *)




Lemma eval_str_text (f : string -> cell) (e : Frame.expr) (r : row) (c : cell) :
  Frame.eval e r = Ok c -> text_cell c = true ->
  Frame.eval (Frame.Str f e) r = Ok (str_apply f c).
Proof.
  intros H Ht. cbn [Frame.eval]. rewrite H. cbn [bind].
  destruct c; try discriminate Ht; reflexivity.
Qed.



(** * The properties of the specification *)

Lemma process_accepts (p : plugin) (file : option (decoded p)) (file_type : string)
    (df : DataFrame) :
  process p file file_type = Ok df -> accepts p file_type = true.
Proof.
  destruct p; cbn [process accepts];
    [ unfold ComplianceNessus.process | unfold VANessus.process
    | unfold SCATrivy.process | unfold VATrivy.process | unfold Semgrep.process
    | unfold ThreatCode.process | unfold BurpSuite.process ];
    match goal with |- context [negb ?a] => destruct a end;
    (reflexivity || discriminate).
Qed.

Lemma burp_canonical (file : option element) (file_type : string) (df : DataFrame) :
  BurpSuite.process file file_type = Ok df -> canonical_frame df.
Proof.
  intros H. pose proof (process_accepts BurpSuitePlugin file file_type df H) as Ha.
  cbn [accepts] in Ha.
  destruct file as [ root | ];
    [ | unfold BurpSuite.process in H; rewrite Ha in H; discriminate ].
  rewrite (burp_process root file_type Ha) in H. injection H as <-.
  split; [ reflexivity | ]. cbn [rows]. apply Forall_forall. intros r Hin.
  apply in_map_iff in Hin. destruct Hin as [i [<- Hi]].
  apply filter_In in Hi. destruct Hi as [_ Hk].
  split; [ reflexivity | ].
  unfold burp_keeps, risk_kept in Hk.
  destruct (lookup "risk" (burp_row i)) as [ c | ] eqn:E; [ | discriminate ].
  destruct c; try discriminate.
  exists s. split; [ exact E | now apply mem_In ].
Qed.

Lemma substituted_keys (marker : string) (fields uppers : list string) (r0 r : row) :
  substituted marker fields uppers r0 r -> keys r = keys r0.
Proof.
  now intros [H _].
Qed.

(** C1 (as amended).  Whenever [process] returns a frame: the DAST,
    ThreatCode and the two Trivy plugins return the 9 canonical columns in
    order, every row has these 9 fields in order and a risk among CRITICAL,
    HIGH, MEDIUM, LOW; Semgrep returns the same columns and fields with the
    risk fixed to Medium; the VA Nessus plugin returns the columns of the
    upload under their normalised names and only drops rows whose risk is
    None or missing; the compliance plugin returns a status column and a
    null risk. *)
Theorem output_shape_of_process (p : plugin) (file : option (decoded p))
    (file_type : string) (df : DataFrame) :
  process p file file_type = Ok df -> output_shape p file df.
Proof.
  destruct p; cbn [process output_shape]; intros H.
  - apply compliance_process_inv in H. destruct H as [Hs Hr].
    split; [ assumption | ]. apply Forall_forall. intros r Hin.
    now destruct (Hr r Hin).
  - apply vanessus_process_inv in H.
    destruct H as [lf [df1 [-> [_ [Hc Hr]]]]].
    split.
    + exists lf. split; [ reflexivity | ]. split; [ exact Hc | ].
      intros Hh. rewrite Hc, Hh. reflexivity.
    + apply Forall_forall. intros r Hin. now destruct (Hr r Hin).
  - apply scatrivy_process_inv in H.
    destruct H as [lf [df1 [_ [_ [Hc Hr]]]]].
    split; [ assumption | ]. apply Forall_forall. intros r Hin.
    destruct (Hr r Hin) as [Hrisk [r0 [_ [Hk _]]]]. now split.
  - apply trivy_process_inv in H.
    destruct H as [data [recs [_ [Hrecs [Hc Hr]]]]].
    split; [ assumption | ]. apply Forall_forall. intros r Hin.
    destruct (Hr r Hin) as [Hrisk [r0 [Hin0 Hs]]]. split; [ | assumption ].
    rewrite (substituted_keys _ _ _ _ _ Hs).
    apply trivy_records in Hrecs. rewrite Forall_forall in Hrecs.
    now destruct (Hrecs r0 Hin0).
  - apply semgrep_process_inv in H.
    destruct H as [data [recs [_ [Hrecs [Hc Hr]]]]].
    split; [ assumption | ]. apply Forall_forall. intros r Hin.
    destruct (Hr r Hin) as [r0 [Hin0 Hs]].
    apply semgrep_records in Hrecs. rewrite Forall_forall in Hrecs.
    destruct (Hrecs r0 Hin0) as [Hk Hm].
    split; [ now rewrite (substituted_keys _ _ _ _ _ Hs) | ].
    now rewrite (substituted_risk "<br/>" text_fields r0 r eq_refl Hs).
  - apply threatcode_process_inv in H.
    destruct H as [df0 [df1 [_ [_ [Hc Hr]]]]].
    split; [ assumption | ]. apply Forall_forall. intros r Hin.
    destruct (Hr r Hin) as [Hrisk [r0 [_ [Hk Hs]]]]. split; [ | assumption ].
    now rewrite (substituted_keys _ _ _ _ _ Hs).
  - now apply burp_canonical in H.
Qed.

Lemma output_shape_of_process_witness :
  process BurpSuitePlugin (Some Samples.burp_root) "text/xml"
  = Ok (mkDataFrame canonical [burp_row Samples.high_issue])
  /\ output_shape BurpSuitePlugin (Some Samples.burp_root)
       (mkDataFrame canonical [burp_row Samples.high_issue]).
Proof.
  split.
  - vm_compute. reflexivity.
  - apply (output_shape_of_process BurpSuitePlugin (Some Samples.burp_root) "text/xml").
    vm_compute. reflexivity.
Defined.

(** C1 (as stated) fails: the Semgrep plugin returns a row whose risk is
    Medium, the VA Nessus plugin one whose risk is High as the scanner
    spells it, and the compliance plugin a frame with other columns. *)
Lemma output_shape_counterexample :
  (exists df,
     process SemgrepPlugin (Some Samples.semgrep_doc) "json" = Ok df
     /\ ~ canonical_frame df) /\
  (exists df,
     process VANessusPlugin (Some Samples.nessus_frame) "text/csv" = Ok df
     /\ ~ canonical_frame df) /\
  (exists df,
     process ComplianceNessusPlugin (Some Samples.nessus_frame) "text/csv" = Ok df
     /\ ~ canonical_frame df).
Proof.
  assert (Hvalid : forall s, In s valid_risks ->
            s = "CRITICAL" \/ s = "HIGH" \/ s = "MEDIUM" \/ s = "LOW")
    by (intros s H; cbn in H; intuition).
  repeat split.
  - eexists. split; [ vm_compute; reflexivity | ].
    intros [_ Hr]. inversion Hr as [ | r l [_ [s [Hs Hin]]] _ ]; subst.
    vm_compute in Hs. injection Hs as <-.
    apply Hvalid in Hin. intuition discriminate.
  - eexists. split; [ vm_compute; reflexivity | ].
    intros [_ Hr]. inversion Hr as [ | r l [_ [s [Hs Hin]]] _ ]; subst.
    vm_compute in Hs. injection Hs as <-.
    apply Hvalid in Hin. intuition discriminate.
  - eexists. split; [ vm_compute; reflexivity | ].
    intros [Hc _]. vm_compute in Hc. discriminate Hc.
Qed.

(** C2 (as amended).  A file type outside the accepted set of a plugin makes
    [process] fail with the error of its guard, whatever the file is, an
    undecodable one included; a file type is accepted exactly when it is one
    of the listed strings, compared as written, except by the DAST plugin,
    which compares in lower case. *)
Theorem unsupported_type_rejected (p : plugin) (file_type : string) :
  (accepts p file_type = false ->
   forall file, process p file file_type = Err (unsupported p file_type)) /\
  (accepts p file_type = true <->
   In (match p with BurpSuitePlugin => Str.lower file_type | _ => file_type end)
      (listed_types p)).
Proof.
  split.
  - intros Ha file.
    destruct p; cbn [process accepts unsupported] in *;
      [ unfold ComplianceNessus.process | unfold VANessus.process
      | unfold SCATrivy.process | unfold VATrivy.process | unfold Semgrep.process
      | unfold ThreatCode.process | unfold BurpSuite.process ];
      rewrite Ha; reflexivity.
  - destruct p; cbn [accepts listed_types];
      try (unfold ComplianceNessus.accepts, VANessus.accepts, SCATrivy.accepts;
           rewrite String.eqb_eq; cbn; intuition congruence);
      apply mem_In.
Qed.

Lemma unsupported_type_rejected_witness :
  accepts SCATrivyPlugin "application/json" = false /\
  process SCATrivyPlugin None "application/json"
  = Err (unsupported SCATrivyPlugin "application/json").
Proof.
  split.
  - reflexivity.
  - apply (proj1 (unsupported_type_rejected SCATrivyPlugin "application/json")).
    reflexivity.
Defined.

(** C2 (as stated) fails: the nested-struct Trivy plugin, a JSON plugin,
    refuses application/json, and Semgrep refuses JSON in capitals, while
    each takes json. *)
Lemma accepted_types_counterexample :
  process SCATrivyPlugin (Some Samples.sca_frame) "application/json"
  = Err (ValueError "Unsupported file type: application/json") /\
  (exists df, process SCATrivyPlugin (Some Samples.sca_frame) "json" = Ok df) /\
  process SemgrepPlugin (Some Samples.semgrep_doc) "JSON"
  = Err (ValueError "Unsupported file type: JSON. Expected JSON.") /\
  (exists df, process SemgrepPlugin (Some Samples.semgrep_doc) "json" = Ok df).
Proof.
  repeat split; try (eexists; vm_compute; reflexivity); vm_compute; reflexivity.
Qed.

(** *** Results without rows *)

Lemma In_add_name (k k' : string) (names : list string) :
  In k (Frame.add_name k' names) <-> k = k' \/ In k names.
Proof.
  induction names as [ | n names IH ]; cbn.
  - intuition.
  - destruct (String.eqb_spec k' n) as [ -> | Hne ]; cbn.
    + intuition.
    + rewrite IH. intuition.
Qed.



Ltac inv_Forall2 :=
  repeat match goal with
         | H : Forall2 _ (_ :: _) _ |- _ => inversion H; subst; clear H
         | H : Forall2 _ [] _ |- _ => inversion H; subst; clear H
         end.


Lemma int_of_nonneg (digits : string) : (0 <= ThreatCode.int_of digits)%Z.
Proof.
  unfold ThreatCode.int_of.
  assert (H : forall l acc, (0 <= acc)%Z ->
            (0 <= fold_left (fun a c => (a * 10 + Z.of_nat (Str.code c - 48))%Z) l acc)%Z).
  { induction l as [ | c l IH ]; intros acc Ha; [ exact Ha | ].
    cbn [fold_left]. apply IH. lia. }
  apply H. lia.
Qed.

Lemma line_number_nonneg (plugin_output : json) (n : Z) :
  ThreatCode.extract_first_line_number plugin_output = Ok n -> (0 <= n)%Z.
Proof.
  unfold ThreatCode.extract_first_line_number.
  destruct (negb _); [ intros H; injection H as <-; lia | ].
  destruct plugin_output; try discriminate.
  destruct (String.eqb _ _); [ intros H; injection H as <-; lia | ].
  destruct (Regex.extract _ _ _); intros H; injection H as <-;
    [ apply int_of_nonneg | lia ].
Qed.

(** *** ThreatCode on a CSV of the expected columns and cells *)






(** *** Names without duplicates *)




(** *** Rows that a filter drops *)




(** *** The VA Nessus plugin *)


(** *** The compliance plugin *)


(** *** ThreatCode *)



(** *** The DAST plugin and the dual-shape Trivy plugin *)



(** *** Structs unnested *)









(** *** The nested-struct Trivy plugin on vulnerabilities it drops *)






(** A report without vulnerabilities gives the nested-struct Trivy plugin a
    list column with nothing to unnest. *)
Example sca_trivy_without_vulnerabilities :
  SCATrivy.process (Some Samples.sca_clean_frame) "json" = Err SchemaError.
Proof.
  reflexivity.
Qed.


(** *** The newline substitution *)

Lemma apply_rule_rewritten (g : string -> cell -> cell) (r0 : row) :
  rewritten g r0 (apply_rule g r0).
Proof.
  split.
  - unfold keys, apply_rule. rewrite map_map. reflexivity.
  - intros k. induction r0 as [ | [k0 v0] r0 IH ]; cbn; [ reflexivity | ].
    destruct (String.eqb_spec k k0) as [ -> | ]; [ reflexivity | exact IH ].
Qed.

Lemma burp_substituted (file : option element) (file_type : string) (df : DataFrame) :
  BurpSuite.process file file_type = Ok df ->
  exists root,
    file = Some root /\
    forall r, In r (rows df) ->
      exists r0, In r0 (BurpSuite.records root) /\
        substituted "<br/>" text_fields ["risk"] r0 r.
Proof.
  intros H. pose proof (process_accepts BurpSuitePlugin file file_type df H) as Ha.
  cbn [accepts] in Ha.
  destruct file as [ root | ];
    [ | unfold BurpSuite.process in H; rewrite Ha in H; discriminate ].
  exists root. split; [ reflexivity | ].
  rewrite (burp_process root file_type Ha) in H. injection H as <-.
  cbn [rows]. intros r Hin. apply in_map_iff in Hin.
  destruct Hin as [i [<- Hi]]. apply filter_In in Hi. destruct Hi as [Hi _].
  exists (BurpSuite.record_of i).
  split; [ unfold BurpSuite.records; now apply in_map | ].
  apply apply_rule_rewritten.
Qed.




(** C5.  The compliance plugin, on a row whose Description is
    "SSH Weak Ciphers: [tag]", a blank line, "description text", the line
    "Actual Value:" and "ssh -v output", with Risk High, returns one row:
    its name is "SSH Weak Ciphers", its description holds
    "description text" and nothing of the Actual Value block, its evidence
    holds "ssh -v output", and its status is High. *)
Theorem compliance_scenario
    (cve host port name solution plugin_output vpr_score : cell) :
  exists description evidence,
    ComplianceNessus.process
      (Some (Samples.compliance_upload cve host port name solution plugin_output
                                       vpr_score))
      "text/csv"
    = Ok (mkDataFrame
            ["status"; "Host"; "Port"; "remediation"; "name"; "description";
             "evidence"; "risk"]
            [[("status", JStr "High");
              ("Host", host);
              ("Port", port);
              ("remediation", solution);
              ("name", JStr "SSH Weak Ciphers");
              ("description", JStr description);
              ("evidence", JStr evidence);
              ("risk", JNull)]])
    /\ Str.contains "description text" description = true
    /\ Str.contains "Actual Value" description = false
    /\ Str.contains "ssh -v output" description = false
    /\ Str.contains "ssh -v output" evidence = true.
Proof.
  exists "description text<br/>", "ssh -v output".
  split; [ vm_compute; reflexivity | ]. repeat split.
Qed.

(** C6.  The DAST plugin returns one row for each issue it keeps, in the
    order of the upload: an issue whose severity is Information is not
    kept, so no row stands for it; an issue whose severity is High is kept,
    and when its host element has no text and the attribute ip="10.0.0.1",
    the host of its row is 10.0.0.1. *)
Theorem burp_scenario (root : element) (file_type : string) :
  BurpSuite.accepts file_type = true ->
  BurpSuite.process (Some root) file_type
  = Ok (mkDataFrame canonical
          (map burp_row (List.filter burp_keeps (ET.findall root "issue")))) /\
  (forall issue,
      ET.findtext issue "severity" "" = "Information" -> burp_keeps issue = false) /\
  (forall issue host_elem,
      ET.findtext issue "severity" "" = "High" ->
      ET.find issue "host" = Some host_elem ->
      ET.text host_elem = None ->
      ET.get host_elem "ip" "" = "10.0.0.1" ->
      burp_keeps issue = true /\
      lookup "risk" (burp_row issue) = Some (JStr "HIGH") /\
      lookup "host" (burp_row issue) = Some (JStr "10.0.0.1")).
Proof.
  intros Ha. split; [ now apply burp_process | ]. split.
  - intros issue Hs. unfold burp_keeps, risk_kept, burp_row, BurpSuite.record_of.
    rewrite Hs. reflexivity.
  - intros issue host_elem Hs Hf Ht Hip.
    unfold burp_keeps, risk_kept, burp_row, BurpSuite.record_of.
    rewrite Hs, Hf. cbv beta iota zeta. rewrite Ht, Hip.
    repeat split.
Qed.

Lemma burp_scenario_witness :
  BurpSuite.accepts "xml" = true /\
  BurpSuite.process (Some Samples.burp_root) "xml"
  = Ok (mkDataFrame canonical
          (map burp_row
             (List.filter burp_keeps (ET.findall Samples.burp_root "issue")))) /\
  burp_keeps Samples.info_issue = false /\
  lookup "host" (burp_row Samples.high_issue) = Some (JStr "10.0.0.1").
Proof.
  pose proof (burp_scenario Samples.burp_root "xml" eq_refl) as [Hp [Hi Hh]].
  split; [ reflexivity | ]. split; [ exact Hp | ].
  split; [ apply Hi; reflexivity | ].
  apply (Hh Samples.high_issue (Element "host" [("ip", "10.0.0.1")] None []));
    reflexivity.
Defined.

(** *** The dual-shape Trivy plugin *)

Lemma modern_fields (vuln : dict) (target : json) :
  VATrivy._parse_modern_vulnerability (JObj vuln) target
  = Ok [("cve", dict_get vuln "VulnerabilityID" (JStr ""));
        ("risk", dict_get vuln "Severity" (JStr ""));
        ("host", target);
        ("port", JNum 0);
        ("name", dict_get vuln "PkgName" (JStr ""));
        ("description",
         if truthy (dict_get vuln "Description" (JStr ""))
         then dict_get vuln "Description" (JStr "")
         else dict_get vuln "Title" (JStr ""));
        ("remediation",
         JStr (if truthy (dict_get vuln "FixedVersion" (JStr ""))
               then "Upgrade to version " ++ py_str (dict_get vuln "FixedVersion" (JStr ""))
               else "No fix available"));
        ("evidence", JStr "");
        ("vpr_score", JStr "")].
Proof.
  unfold VATrivy._parse_modern_vulnerability. cbn [get bind].
  destruct (truthy (dict_get vuln "Description" (JStr ""))); reflexivity.
Qed.

Lemma legacy_fields (vuln : dict) (data : json) (r : dict) :
  VATrivy._parse_legacy_vulnerability (JObj vuln) data = Ok r ->
  lookup "description" r
  = Some (py_or (dict_get vuln "Description" JNull)
                (dict_get vuln "description" (JStr ""))) /\
  lookup "remediation" r
  = Some (let solution :=
            py_or (dict_get vuln "FixedVersion" JNull)
                  (dict_get vuln "solution" (JStr "")) in
          if negb (truthy solution) || is_str "No solution provided" solution
          then JStr "No fix available" else solution).
Proof.
  unfold VATrivy._parse_legacy_vulnerability. cbn [get bind]. intros H.
  repeat inv_bind H. injection H as <-. split; reflexivity.
Qed.

(** C7 (as amended).  Modern shape: a vulnerability whose FixedVersion is
    the non-empty text X has the remediation "Upgrade to version X"; one
    whose FixedVersion is absent, empty, null or otherwise false has
    "No fix available"; and a description that is absent or empty is taken
    from Title.  Legacy shape: the remediation is FixedVersion as it
    stands, else the text of solution as it stands, and it is
    "No fix available" when neither holds a value or when the value taken,
    from FixedVersion or from solution, is "No solution provided"; the
    description is Description, else description, and Title is not read. *)
Theorem trivy_remediation (vuln : dict) (target data : json) :
  (exists r,
     VATrivy._parse_modern_vulnerability (JObj vuln) target = Ok r /\
     (forall x, lookup "FixedVersion" vuln = Some (JStr x) -> x <> "" ->
                lookup "remediation" r = Some (JStr ("Upgrade to version " ++ x))) /\
     (lookup "FixedVersion" vuln = None ->
      lookup "remediation" r = Some (JStr "No fix available")) /\
     (lookup "FixedVersion" vuln = Some (JStr "") ->
      lookup "remediation" r = Some (JStr "No fix available")) /\
     (lookup "FixedVersion" vuln = Some JNull ->
      lookup "remediation" r = Some (JStr "No fix available")) /\
     (truthy (dict_get vuln "FixedVersion" (JStr "")) = false ->
      lookup "remediation" r = Some (JStr "No fix available")) /\
     (truthy (dict_get vuln "Description" (JStr "")) = false ->
      lookup "description" r = Some (dict_get vuln "Title" (JStr "")))) /\
  (forall r,
     VATrivy._parse_legacy_vulnerability (JObj vuln) data = Ok r ->
     (forall x, lookup "FixedVersion" vuln = Some (JStr x) -> x <> "" ->
                x <> "No solution provided" ->
                lookup "remediation" r = Some (JStr x)) /\
     (forall x, truthy (dict_get vuln "FixedVersion" JNull) = false ->
                lookup "solution" vuln = Some (JStr x) -> x <> "" ->
                x <> "No solution provided" ->
                lookup "remediation" r = Some (JStr x)) /\
     (truthy (dict_get vuln "FixedVersion" JNull) = false ->
      truthy (dict_get vuln "solution" (JStr "")) = false ->
      lookup "remediation" r = Some (JStr "No fix available")) /\
     (truthy (dict_get vuln "FixedVersion" JNull) = false ->
      lookup "solution" vuln = Some (JStr "No solution provided") ->
      lookup "remediation" r = Some (JStr "No fix available")) /\
     (lookup "FixedVersion" vuln = Some (JStr "No solution provided") ->
      lookup "remediation" r = Some (JStr "No fix available")) /\
     lookup "description" r
     = Some (py_or (dict_get vuln "Description" JNull)
                   (dict_get vuln "description" (JStr "")))).
Proof.
  split.
  - eexists. split; [ apply modern_fields | ]. cbn [lookup String.eqb Ascii.eqb Bool.eqb].
    repeat split.
    + intros x Hx Hne. rewrite (dict_get_found _ _ _ _ Hx). cbn [truthy py_str].
      destruct (String.eqb_spec x ""); [ contradiction | reflexivity ].
    + intros Hx. rewrite (dict_get_absent _ _ _ Hx). reflexivity.
    + intros Hx. rewrite (dict_get_found _ _ _ _ Hx). reflexivity.
    + intros Hx. rewrite (dict_get_found _ _ _ _ Hx). reflexivity.
    + intros Hx. rewrite Hx. reflexivity.
    + intros Hd. rewrite Hd. reflexivity.
  - intros r H. apply legacy_fields in H. destruct H as [Hd Hr].
    assert (Htext : forall x, x <> "" -> x <> "No solution provided" ->
               truthy (JStr x) = true /\ is_str "No solution provided" (JStr x) = false).
    { intros x Hne Hns. split.
      - cbn [truthy]. apply String.eqb_neq in Hne. now rewrite Hne.
      - change (is_str "No solution provided" (JStr x))
          with (String.eqb "No solution provided" x).
        apply String.eqb_neq. congruence. }
    repeat split.
    + intros x Hx Hne Hns. rewrite Hr, (dict_get_found _ _ _ _ Hx).
      destruct (Htext x Hne Hns) as [Ht Hs].
      unfold py_or. cbv zeta. rewrite Ht. cbv iota. rewrite Ht, Hs. reflexivity.
    + intros x Hf Hx Hne Hns. rewrite Hr, (dict_get_found _ _ _ _ Hx).
      destruct (Htext x Hne Hns) as [Ht Hs].
      unfold py_or. rewrite Hf. cbv zeta. rewrite Ht, Hs. reflexivity.
    + intros Hf Hs. rewrite Hr. unfold py_or. rewrite Hf. cbv zeta.
      rewrite Hs. reflexivity.
    + intros Hf Hs. rewrite Hr. unfold py_or. rewrite Hf.
      rewrite (dict_get_found _ _ _ _ Hs). reflexivity.
    + intros Hx. rewrite Hr, (dict_get_found _ _ _ _ Hx). reflexivity.
    + exact Hd.
Qed.

Lemma trivy_remediation_witness :
  (lookup "FixedVersion" Samples.modern_vuln = Some (JStr "1.2.3") /\
   "1.2.3" <> "" /\
   exists r,
     VATrivy._parse_modern_vulnerability (JObj Samples.modern_vuln) (JStr "alpine:3.19")
     = Ok r /\
     lookup "remediation" r = Some (JStr "Upgrade to version 1.2.3")) /\
  (lookup "FixedVersion" Samples.unfixed_vuln = Some (JStr "") /\
   exists r,
     VATrivy._parse_modern_vulnerability (JObj Samples.unfixed_vuln) (JStr "alpine:3.19")
     = Ok r /\
     lookup "remediation" r = Some (JStr "No fix available")) /\
  (truthy (dict_get Samples.advised_vuln "FixedVersion" JNull) = false /\
   lookup "solution" Samples.advised_vuln = Some (JStr "Upgrade zlib") /\
   "Upgrade zlib" <> "" /\
   "Upgrade zlib" <> "No solution provided" /\
   VATrivy._parse_legacy_vulnerability (JObj Samples.advised_vuln) JNull
   = Ok [("cve", JStr "CVE-2024-0005");
         ("risk", JStr "High");
         ("host", JStr "");
         ("port", JNum 0);
         ("name", JStr "CVE-2024-0005");
         ("description", JStr "");
         ("remediation", JStr "Upgrade zlib");
         ("evidence", JStr "");
         ("vpr_score", JStr "")] /\
   lookup "remediation"
          [("cve", JStr "CVE-2024-0005");
           ("risk", JStr "High");
           ("host", JStr "");
           ("port", JNum 0);
           ("name", JStr "CVE-2024-0005");
           ("description", JStr "");
           ("remediation", JStr "Upgrade zlib");
           ("evidence", JStr "");
           ("vpr_score", JStr "")]
   = Some (JStr "Upgrade zlib")).
Proof.
  split; [ | split ].
  - split; [ reflexivity | ]. split; [ discriminate | ].
    destruct (proj1 (trivy_remediation Samples.modern_vuln (JStr "alpine:3.19") JNull))
      as [r [Hr [Hfix _]]].
    exists r. split; [ exact Hr | ].
    apply (Hfix "1.2.3"); [ reflexivity | discriminate ].
  - split; [ reflexivity | ].
    destruct (proj1 (trivy_remediation Samples.unfixed_vuln (JStr "alpine:3.19") JNull))
      as [r [Hr [_ [_ [Hempty _]]]]].
    exists r. split; [ exact Hr | ]. apply Hempty. reflexivity.
  - assert (Hne : "Upgrade zlib" <> "") by discriminate.
    assert (Hns : "Upgrade zlib" <> "No solution provided") by discriminate.
    assert (Hr : VATrivy._parse_legacy_vulnerability (JObj Samples.advised_vuln) JNull
                 = Ok [("cve", JStr "CVE-2024-0005");
                       ("risk", JStr "High");
                       ("host", JStr "");
                       ("port", JNum 0);
                       ("name", JStr "CVE-2024-0005");
                       ("description", JStr "");
                       ("remediation", JStr "Upgrade zlib");
                       ("evidence", JStr "");
                       ("vpr_score", JStr "")])
      by (vm_compute; reflexivity).
    split; [ reflexivity | ]. split; [ reflexivity | ].
    split; [ exact Hne | ]. split; [ exact Hns | ]. split; [ exact Hr | ].
    destruct (proj2 (trivy_remediation Samples.advised_vuln JNull JNull) _ Hr)
      as [_ [Hsol _]].
    apply (Hsol "Upgrade zlib"); [ reflexivity | reflexivity | exact Hne | exact Hns ].
Defined.

(** C7 (as stated) fails: in the legacy shape a vulnerability with a Title
    and no description gets the empty description, and its FixedVersion is
    the remediation as it stands; so it is in the row [process] returns. *)
Lemma trivy_legacy_counterexample :
  exists r df,
    VATrivy._parse_legacy_vulnerability (JObj Samples.legacy_vuln) Samples.legacy_doc
    = Ok r /\
    lookup "Title" Samples.legacy_vuln = Some (JStr "zlib: overflow") /\
    lookup "description" Samples.legacy_vuln = None /\
    lookup "description" r = Some (JStr "") /\
    lookup "remediation" r = Some (JStr "1.2.3") /\
    VATrivy.process (Some Samples.legacy_doc) "json" = Ok df /\
    rows df
    = [[("cve", JStr "CVE-2024-0002");
        ("risk", JStr "LOW");
        ("host", JStr "");
        ("port", JNum 0);
        ("name", JStr "CVE-2024-0002");
        ("description", JStr "");
        ("remediation", JStr "1.2.3");
        ("evidence", JStr "");
        ("vpr_score", JStr "")]].
Proof.
  eexists. eexists. split; [ vm_compute; reflexivity | ].
  repeat split.
Qed.

(** *** The YesWeHack exporter *)

Lemma filter_chars_kept (keep : ascii -> bool) (c : ascii) (s : string) :
  Str.has_char c (Str.filter_chars keep s) = true -> keep c = true.
Proof.
  induction s as [ | d s IH ]; cbn; [ discriminate | ].
  destruct (keep d) eqn:E; [ | exact IH ].
  cbn. destruct (Ascii.eqb_spec c d) as [ -> | ]; [ now intros _ | exact IH ].
Qed.

(** A text all of whose characters satisfy [keep]. *)
Lemma all_chars_tail (keep : ascii -> bool) (c : ascii) (s : string) :
  (forall d, Str.has_char d (String c s) = true -> keep d = true) ->
  keep c = true /\ forall d, Str.has_char d s = true -> keep d = true.
Proof.
  intros H. split.
  - apply H. cbn. now rewrite Ascii.eqb_refl.
  - intros d Hd. apply H. cbn. rewrite Hd. apply orb_true_r.
Qed.

Lemma filter_chars_all (keep : ascii -> bool) (s : string) :
  (forall d, Str.has_char d s = true -> keep d = true) ->
  Str.filter_chars keep s = s.
Proof.
  induction s as [ | c s IH ]; intros H; [ reflexivity | ].
  apply all_chars_tail in H. destruct H as [Hc Hs].
  cbn. rewrite Hc. now rewrite IH.
Qed.

Lemma strip_none (sp : ascii -> bool) (s : string) :
  (forall d, Str.has_char d s = true -> sp d = false) ->
  Str.strip sp s = s.
Proof.
  intros H. unfold Str.strip.
  assert (Hl : Str.lstrip sp s = s).
  { destruct s as [ | c s ]; [ reflexivity | ].
    cbn. rewrite (H c); [ reflexivity | ]. cbn. now rewrite Ascii.eqb_refl. }
  rewrite Hl. clear Hl.
  induction s as [ | c s IH ]; [ reflexivity | ].
  assert (Hc : sp c = false) by (apply H; cbn; now rewrite Ascii.eqb_refl).
  assert (Hs : forall d, Str.has_char d s = true -> sp d = false)
    by (intros d Hd; apply H; cbn; rewrite Hd; apply orb_true_r).
  cbn. rewrite (IH Hs). destruct s; [ now rewrite Hc | reflexivity ].
Qed.

Lemma prefix_has_char (c : ascii) (old s : string) :
  prefix old s = true -> Str.has_char c old = true -> Str.has_char c s = true.
Proof.
  revert s. induction old as [ | o old IH ]; intros s Hp Hc;
    [ cbn in Hc; discriminate Hc | ].
  destruct s as [ | d s ]; [ cbn in Hp; discriminate Hp | ].
  cbn [prefix] in Hp. destruct (ascii_dec o d) as [ -> | ]; [ | discriminate Hp ].
  cbn [Str.has_char] in *. destruct (Ascii.eqb c d); [ reflexivity | ].
  now apply IH.
Qed.

(** A pattern with a character the text lacks replaces nothing. *)
Lemma replace_absent (c : ascii) (old new s : string) :
  Str.has_char c old = true -> Str.has_char c s = false ->
  Str.replace old new s = s.
Proof.
  intros Hold Hs. unfold Str.replace.
  destruct old as [ | o old ]; [ discriminate | ].
  induction s as [ | d s IH ]; [ reflexivity | ].
  cbn [Str.replace_from].
  destruct (prefix (String o old) (String d s)) eqn:Ep.
  - rewrite (prefix_has_char c _ _ Ep Hold) in Hs. discriminate.
  - cbn in Hs. apply orb_false_iff in Hs. destruct Hs as [_ Hs].
    now rewrite IH.
Qed.

Lemma host_char_absent (c : ascii) (h : string) :
  Ywh2csv.host_char c = false ->
  (forall d, Str.has_char d h = true -> Ywh2csv.host_char d = true) ->
  Str.has_char c h = false.
Proof.
  intros Hc H. destruct (Str.has_char c h) eqn:E; [ | reflexivity ].
  rewrite (H c E) in Hc. discriminate.
Qed.

Lemma host_char_no_space (c : ascii) :
  Ywh2csv.host_char c = true -> Str.py_space c = false.
Proof.
  destruct c as [[] [] [] [] [] [] [] []]; vm_compute; congruence.
Qed.

(** C8.  [clean_scope] turns "https:\/\/app.example.com\/" into
    "app.example.com" and "https://sub.domain.com:8080/path" into
    "sub.domain.com", and the further examples of its docstring into their
    hosts; whatever the scope, the host it returns is made of letters,
    digits, dots and hyphens only, so no protocol separator, slash, colon
    or backslash is left in it; and a text made of such characters only is
    returned as it is. *)
Theorem clean_scope_hostname :
  Ywh2csv.clean_scope (JStr "https:\/\/app.example.com\/") = "app.example.com" /\
  Ywh2csv.clean_scope (JStr "https://sub.domain.com:8080/path") = "sub.domain.com" /\
  Ywh2csv.clean_scope (JStr "https://app.example.com/") = "app.example.com" /\
  Ywh2csv.clean_scope (JStr "http://example.com/path") = "example.com" /\
  Ywh2csv.clean_scope (JStr "https://sub.domain.com:8080/") = "sub.domain.com" /\
  (forall scope c,
      Str.has_char c (Ywh2csv.clean_scope scope) = true ->
      Ywh2csv.host_char c = true) /\
  (forall host,
      (forall c, Str.has_char c host = true -> Ywh2csv.host_char c = true) ->
      Ywh2csv.clean_scope (JStr host) = host).
Proof.
  repeat match goal with |- _ /\ _ => split end; try reflexivity.
  - intros scope c. unfold Ywh2csv.clean_scope.
    destruct (negb (truthy scope)); [ discriminate | ].
    cbv zeta. apply filter_chars_kept.
  - intros host H. unfold Ywh2csv.clean_scope.
    destruct host as [ | c0 host ]; [ reflexivity | ].
    change (negb (truthy (JStr (String c0 host)))) with false. cbv iota zeta.
    change (py_str (JStr (String c0 host))) with (String c0 host).
    set (h := String c0 host) in *.
    rewrite strip_none by (intros d Hd; now apply host_char_no_space, H).
    rewrite (replace_absent (ascii_of_nat 92) "\/" "/" h)
      by (reflexivity || now apply host_char_absent).
    rewrite (replace_absent ":"%char "https://" "" h)
      by (reflexivity || now apply host_char_absent).
    rewrite (replace_absent ":"%char "http://" "" h)
      by (reflexivity || now apply host_char_absent).
    rewrite (host_char_absent "/"%char h eq_refl H).
    rewrite (host_char_absent ":"%char h eq_refl H).
    now apply filter_chars_all.
Qed.






(** C10.  For a report whose remediation link is absent at the root and in
    the bug-type object, the Solution column of its row equals the
    Description column, which is the formatted description. *)
Theorem solution_falls_back (report : dict) (detailed : option dict) (row : dict) :
  Ywh2csv.map_report_to_csv_row report detailed = Some row ->
  lookup "remediation_link" (Ywh2csv.source_of report detailed) = None ->
  (forall bug_type,
      lookup "bug_type" (Ywh2csv.source_of report detailed) = Some (JObj bug_type) ->
      lookup "remediation_link" bug_type = None) ->
  lookup "Solution" row = lookup "Description" row /\
  lookup "Description" row
  = Some (JStr (Ywh2csv.format_description
                  (Ywh2csv.description_of (Ywh2csv.source_of report detailed))
                  Ywh2csv.max_length_default)).
Proof.
  intros H Hroot Hnested.
  assert (Hlink : truthy (Ywh2csv.remediation_link_of
                            (Ywh2csv.source_of report detailed)) = false).
  { unfold Ywh2csv.remediation_link_of. cbv zeta.
    rewrite (dict_get_absent _ _ _ Hroot). cbn [truthy String.eqb negb].
    unfold dict_get at 1.
    destruct (lookup "bug_type" (Ywh2csv.source_of report detailed))
      as [ bt | ] eqn:Eb; [ | reflexivity ].
    destruct bt; try reflexivity.
    now rewrite (dict_get_absent _ _ _ (Hnested _ eq_refl)). }
  unfold Ywh2csv.map_report_to_csv_row in H. cbv zeta in H.
  destruct (Ywh2csv.convert_criticality _); [ | discriminate ].
  injection H as <-. rewrite Hlink. split; reflexivity.
Qed.

Lemma solution_falls_back_witness :
  Ywh2csv.map_report_to_csv_row Samples.ywh_report None
  = Some [("CVE", JStr "YWH-42");
          ("Risk", JStr "HIGH");
          ("Host", JStr "app.example.com");
          ("Port", JStr "0");
          ("Name", JStr "Stored XSS");
          ("Description", JStr "Open the page.<br/>Observe the alert.");
          ("Solution", JStr "Open the page.<br/>Observe the alert.");
          ("Plugin Output", JStr "");
          ("VPR Score", JStr "")] /\
  lookup "Solution"
         [("CVE", JStr "YWH-42");
          ("Risk", JStr "HIGH");
          ("Host", JStr "app.example.com");
          ("Port", JStr "0");
          ("Name", JStr "Stored XSS");
          ("Description", JStr "Open the page.<br/>Observe the alert.");
          ("Solution", JStr "Open the page.<br/>Observe the alert.");
          ("Plugin Output", JStr "");
          ("VPR Score", JStr "")]
  = Some (JStr "Open the page.<br/>Observe the alert.").
Proof.
  assert (Hrow : Ywh2csv.map_report_to_csv_row Samples.ywh_report None
                 = Some [("CVE", JStr "YWH-42");
                         ("Risk", JStr "HIGH");
                         ("Host", JStr "app.example.com");
                         ("Port", JStr "0");
                         ("Name", JStr "Stored XSS");
                         ("Description", JStr "Open the page.<br/>Observe the alert.");
                         ("Solution", JStr "Open the page.<br/>Observe the alert.");
                         ("Plugin Output", JStr "");
                         ("VPR Score", JStr "")])
    by (vm_compute; reflexivity).
  split; [ exact Hrow | ].
  destruct (solution_falls_back Samples.ywh_report None _ Hrow) as [Hs Hd].
  - reflexivity.
  - intros bug_type [= <-]. reflexivity.
  - rewrite Hs. reflexivity.
Defined.

(** * Further properties of the code *)

(** *** Strings *)

Lemma lower_upper_char (c : ascii) :
  Str.lower_char (Str.upper_char c) = Str.lower_char c.
Proof.
  destruct c as [b0 b1 b2 b3 b4 b5 b6 b7].
  destruct b0, b1, b2, b3, b4, b5, b6, b7; vm_compute; reflexivity.
Qed.

Lemma lower_upper (s : string) : Str.lower (Str.upper s) = Str.lower s.
Proof.
  induction s as [ | c s IH ]; [ reflexivity | ].
  cbn. rewrite lower_upper_char. f_equal. exact IH.
Qed.

Lemma upper_empty (s : string) : String.eqb (Str.upper s) "" = String.eqb s "".
Proof.
  destruct s; reflexivity.
Qed.

Lemma has_char_app (c : ascii) (s t : string) :
  Str.has_char c (s ++ t) = Str.has_char c s || Str.has_char c t.
Proof.
  induction s as [ | d s IH ]; [ reflexivity | ].
  cbn. rewrite IH. now rewrite orb_assoc.
Qed.




(** No occurrence of a character is left when every occurrence is replaced
    by a text without it. *)
Lemma replace_char_gone (c : ascii) (new s : string) :
  Str.has_char c new = false ->
  Str.has_char c (Str.replace (String c EmptyString) new s) = false.
Proof.
  intros Hn. unfold Str.replace.
  induction s as [ | d s IH ]; [ reflexivity | ].
  cbn -[Str.has_char]. destruct (ascii_dec c d) as [ -> | Hne ].
  - assert (Hp : prefix "" s = true) by (destruct s; reflexivity).
    rewrite Hp, has_char_app, Hn. exact IH.
  - cbn. rewrite IH. apply Ascii.eqb_neq in Hne. now rewrite Hne.
Qed.

Lemma newline_gone (marker s : string) :
  Str.has_char (ascii_of_nat 10) marker = false ->
  Str.has_char (ascii_of_nat 10) (Str.replace Str.nl marker s) = false.
Proof.
  apply replace_char_gone.
Qed.

(** *** The YesWeHack exporter: criticality, rows, descriptions *)

Lemma criticality_mapped (k r : string) :
  assoc k Ywh2csv.CRITICALITY_MAP = Some r -> In r valid_risks.
Proof.
  cbn. intros H.
  repeat match type of H with
         | (if ?b then _ else _) = _ =>
             destruct b; [ injection H as <-; cbn; tauto | ]
         end.
  discriminate.
Qed.

(** X1.  the risk [convert_criticality] gives is one of the four of the
    enumeration, and the criticality is read without regard to case. *)
Theorem convert_criticality_enumerated :
  (forall criticality risk,
      Ywh2csv.convert_criticality criticality = Some risk -> In risk valid_risks) /\
  (forall s,
      Ywh2csv.convert_criticality (JStr (Str.upper s))
      = Ywh2csv.convert_criticality (JStr s)).
Proof.
  split.
  - intros criticality risk. unfold Ywh2csv.convert_criticality.
    destruct (negb _); [ discriminate | ]. apply criticality_mapped.
  - intros s. unfold Ywh2csv.convert_criticality. cbn [truthy py_str].
    now rewrite upper_empty, lower_upper.
Qed.




Lemma space_lower_char (c : ascii) :
  Str.py_space (Str.lower_char c) = Str.py_space c.
Proof.
  destruct c as [b0 b1 b2 b3 b4 b5 b6 b7].
  destruct b0, b1, b2, b3, b4, b5, b6, b7; vm_compute; reflexivity.
Qed.

Section Strip.

Variable sp : ascii -> bool.
Variable f : ascii -> ascii.
Hypothesis sp_f : forall c, sp (f c) = sp c.

Lemma lstrip_map (s : string) :
  Str.lstrip sp (Str.map_chars f s) = Str.map_chars f (Str.lstrip sp s).
Proof.
  induction s as [ | c s IH ]; [ reflexivity | ].
  cbn. rewrite sp_f. destruct (sp c); [ exact IH | reflexivity ].
Qed.

Lemma rstrip_map (s : string) :
  Str.rstrip sp (Str.map_chars f s) = Str.map_chars f (Str.rstrip sp s).
Proof.
  induction s as [ | c s IH ]; [ reflexivity | ].
  cbn. rewrite IH, sp_f.
  destruct (Str.rstrip sp s); cbn; [ destruct (sp c); reflexivity | reflexivity ].
Qed.

Lemma strip_map (s : string) :
  Str.strip sp (Str.map_chars f s) = Str.map_chars f (Str.strip sp s).
Proof.
  unfold Str.strip. now rewrite lstrip_map, rstrip_map.
Qed.

Lemma rstrip_idem (s : string) : Str.rstrip sp (Str.rstrip sp s) = Str.rstrip sp s.
Proof.
  induction s as [ | c s IH ]; [ reflexivity | ].
  cbn. destruct (Str.rstrip sp s) as [ | d t ] eqn:E.
  - destruct (sp c) eqn:Ec; cbn; [ reflexivity | now rewrite Ec ].
  - cbn [Str.rstrip]. cbn [Str.rstrip] in IH. now rewrite IH.
Qed.

Lemma lstrip_clean (s : string) : starts_clean sp (Str.lstrip sp s).
Proof.
  induction s as [ | c s IH ]; [ exact I | ].
  cbn. destruct (sp c) eqn:E; [ exact IH | exact E ].
Qed.

Lemma rstrip_clean (s : string) : starts_clean sp s -> starts_clean sp (Str.rstrip sp s).
Proof.
  destruct s as [ | c s ]; [ trivial | ].
  cbn. intros E. destruct (Str.rstrip sp s); [ now rewrite E | exact E ].
Qed.

Lemma lstrip_of_clean (s : string) : starts_clean sp s -> Str.lstrip sp s = s.
Proof.
  destruct s as [ | c s ]; [ reflexivity | ]. cbn. now intros ->.
Qed.

Lemma strip_idem (s : string) : Str.strip sp (Str.strip sp s) = Str.strip sp s.
Proof.
  unfold Str.strip.
  rewrite (lstrip_of_clean (Str.rstrip sp (Str.lstrip sp s))).
  - apply rstrip_idem.
  - apply rstrip_clean, lstrip_clean.
Qed.

End Strip.

Lemma lower_empty (s : string) : Str.lower s = "" -> s = "".
Proof.
  destruct s; [ reflexivity | discriminate ].
Qed.

(** X3.  white space around the criticality is ignored. *)
Theorem convert_criticality_stripped (s : string) :
  Ywh2csv.convert_criticality (JStr (Str.strip Str.py_space s))
  = Ywh2csv.convert_criticality (JStr s).
Proof.
  unfold Ywh2csv.convert_criticality. cbn [truthy py_str].
  unfold Str.lower.
  rewrite (strip_map _ _ space_lower_char), strip_idem.
  rewrite <- (strip_map _ _ space_lower_char).
  destruct (String.eqb s "") eqn:Es.
  - apply String.eqb_eq in Es. subst s. reflexivity.
  - cbn [negb]. destruct (String.eqb (Str.strip Str.py_space s) "") eqn:Et.
    + apply String.eqb_eq in Et. cbn [negb].
      rewrite (strip_map _ _ space_lower_char), Et. reflexivity.
    + reflexivity.
Qed.

(** X4.  a row of the exporter has the nine headers of the ThreatVault CSV in
    their order, a risk of the enumeration, a host made of the characters of
    a host name, the port ["0"] and nothing in the last two columns. *)
Theorem csv_row_shape (report : dict) (detailed : option dict) (row : dict) :
  Ywh2csv.map_report_to_csv_row report detailed = Some row ->
  keys row = Ywh2csv.CSV_HEADERS /\
  (exists risk, lookup "Risk" row = Some (JStr risk) /\ In risk valid_risks) /\
  (exists host,
     lookup "Host" row = Some (JStr host) /\
     forall c, Str.has_char c host = true -> Ywh2csv.host_char c = true) /\
  lookup "Port" row = Some (JStr "0") /\
  lookup "Plugin Output" row = Some (JStr "") /\
  lookup "VPR Score" row = Some (JStr "").
Proof.
  unfold Ywh2csv.map_report_to_csv_row.
  destruct (Ywh2csv.convert_criticality _) as [ risk | ] eqn:E; [ | discriminate ].
  intros H. injection H as <-.
  split; [ reflexivity | ].
  split.
  { exists risk. split; [ reflexivity | ].
    unfold Ywh2csv.convert_criticality in E.
    destruct (negb _); [ discriminate | ]. now apply criticality_mapped in E. }
  split; [ | repeat split ].
  eexists. split; [ reflexivity | ].
  intros c. destruct (truthy _); [ | discriminate ].
  unfold Ywh2csv.clean_scope. destruct (negb _); [ discriminate | ].
  apply filter_chars_kept.
Qed.

Lemma csv_row_shape_witness :
  exists row,
    Ywh2csv.map_report_to_csv_row Samples.ywh_report None = Some row /\
    keys row = Ywh2csv.CSV_HEADERS /\
    (exists risk, lookup "Risk" row = Some (JStr risk) /\ In risk valid_risks) /\
    (exists host,
       lookup "Host" row = Some (JStr host) /\
       forall c, Str.has_char c host = true -> Ywh2csv.host_char c = true) /\
    lookup "Port" row = Some (JStr "0") /\
    lookup "Plugin Output" row = Some (JStr "") /\
    lookup "VPR Score" row = Some (JStr "").
Proof.
  eexists. split; [ reflexivity | ].
  apply (csv_row_shape Samples.ywh_report None). reflexivity.
Defined.

(** X5.  [should_include_report] keeps a report exactly when its workflow
    state is "accepted", in any case, and its verification status is
    "PENDING", in this case: a report without the status is left out; the
    state at the root is the one that counts; the state of the [status]
    object, then that of the [workflow] object, counts when the ones before
    it are absent or empty. *)
Theorem should_include_report_decides :
  (forall report,
      lookup "ask_for_fix_verification_status" report = None ->
      Ywh2csv.should_include_report report = false) /\
  (forall report w flag,
      lookup "workflow_state" report = Some (JStr w) -> w <> "" ->
      lookup "ask_for_fix_verification_status" report = Some (JStr flag) ->
      Ywh2csv.should_include_report report
      = String.eqb (Str.lower w) "accepted" && String.eqb flag "PENDING") /\
  (forall report status w flag,
      truthy (dict_get report "workflow_state" (JStr "")) = false ->
      lookup "status" report = Some (JObj status) ->
      lookup "workflow_state" status = Some (JStr w) -> w <> "" ->
      lookup "ask_for_fix_verification_status" report = Some (JStr flag) ->
      Ywh2csv.should_include_report report
      = String.eqb (Str.lower w) "accepted" && String.eqb flag "PENDING") /\
  (forall report workflow w flag,
      truthy (dict_get report "workflow_state" (JStr "")) = false ->
      (forall status,
          lookup "status" report = Some (JObj status) ->
          truthy (dict_get status "workflow_state" (JStr "")) = false) ->
      lookup "workflow" report = Some (JObj workflow) ->
      lookup "state" workflow = Some (JStr w) ->
      lookup "ask_for_fix_verification_status" report = Some (JStr flag) ->
      Ywh2csv.should_include_report report
      = String.eqb (Str.lower w) "accepted" && String.eqb flag "PENDING").
Proof.
  assert (Hne : forall w, w <> "" -> truthy (JStr w) = true).
  { intros w Hw. cbn. apply String.eqb_neq in Hw. now rewrite Hw. }
  repeat split.
  - intros report H. unfold Ywh2csv.should_include_report.
    rewrite (dict_get_absent _ _ _ H). cbn. apply andb_false_r.
  - intros report w flag Hw Hne' Hf. unfold Ywh2csv.should_include_report.
    rewrite (dict_get_found _ _ _ _ Hf).
    unfold Ywh2csv.workflow_state_of.
    rewrite (dict_get_found _ _ _ _ Hw), (Hne w Hne'). cbn [negb].
    rewrite (Hne w Hne'). reflexivity.
  - intros report status w flag Hroot Hs Hw Hne' Hf.
    unfold Ywh2csv.should_include_report.
    rewrite (dict_get_found _ _ _ _ Hf).
    unfold Ywh2csv.workflow_state_of.
    rewrite Hroot, (dict_get_found _ _ _ _ Hs). cbn [negb].
    rewrite (dict_get_found _ _ _ _ Hw), (Hne w Hne'). reflexivity.
  - intros report workflow w flag Hroot Hs Hwf Hw Hf.
    unfold Ywh2csv.should_include_report.
    rewrite (dict_get_found _ _ _ _ Hf).
    unfold Ywh2csv.workflow_state_of.
    rewrite Hroot, (dict_get_found _ _ _ _ Hwf). cbn [negb].
    assert (Hfalsy :
              truthy match dict_get report "status" (JObj []) with
                     | JObj status => dict_get status "workflow_state" (JStr "")
                     | _ => dict_get report "workflow_state" (JStr "")
                     end = false).
    { unfold dict_get at 1.
      destruct (lookup "status" report) as [ v | ] eqn:E.
      - destruct v; try exact Hroot. now apply Hs.
      - reflexivity. }
    rewrite Hfalsy. cbn [negb].
    rewrite (dict_get_found _ _ _ _ Hw). reflexivity.
Qed.

(** *** The YesWeHack exporter: the export loop *)

Lemma In_somes {A : Type} (a : A) (l : list (option A)) :
  In a (Ywh2csv.somes l) <-> In (Some a) l.
Proof.
  induction l as [ | [ b | ] l IH ]; cbn; [ tauto | | ].
  - rewrite IH. split; intros [ H | H ]; auto; left; congruence.
  - rewrite IH. split; [ auto | ]. intros [ H | H ]; [ discriminate | assumption ].
Qed.

Lemma somes_length {A : Type} (l : list (option A)) :
  List.length (Ywh2csv.somes l) <= List.length l.
Proof.
  induction l as [ | [ b | ] l IH ]; cbn; lia.
Qed.

Lemma Forall2_length_eq {A B : Type} (R : A -> B -> Prop) (l : list A) (l' : list B) :
  Forall2 R l l' -> List.length l = List.length l'.
Proof.
  induction 1; cbn; congruence.
Qed.

Lemma exported_row_inv (api : string -> option json) (fetch_details apply_filter : bool)
    (report : json) (row : dict) :
  Ywh2csv.exported_row api fetch_details apply_filter report = Ok (Some row) ->
  exists r detailed,
    report = JObj r /\
    Ywh2csv.map_report_to_csv_row r detailed = Some row /\
    (apply_filter = true ->
     exists d,
       detailed = Some d /\ fetch_details = true /\
       Ywh2csv.get_report_details api (report_id_of r) = Some (JObj d) /\
       Ywh2csv.should_include_report d = true).
Proof.
  unfold Ywh2csv.exported_row.
  destruct report as [ | | | | | r ]; try discriminate.
  cbn [get bind]. fold (report_id_of r).
  destruct fetch_details; cbn [andb].
  - destruct (truthy (report_id_of r)).
    + destruct (Ywh2csv.get_report_details api (report_id_of r)) as [ v | ] eqn:Ed.
      * destruct apply_filter; cbn [andb Ywh2csv.answered].
        -- destruct (truthy v) eqn:Ev; cbn [negb]; [ | discriminate ].
           destruct v; try discriminate. cbn [bind].
           destruct (Ywh2csv.should_include_report fields) eqn:Ei; cbn [negb];
             [ | discriminate ].
           intros H. injection H as H. exists r, (Some fields).
           repeat split; try assumption. intros _. exists fields. now repeat split.
        -- cbn [bind negb]. intros H. destruct v.
           all: try (destruct (truthy _); [ discriminate | ];
                     injection H as H; exists r, None;
                     repeat split; [ assumption | discriminate ]).
           injection H as H. exists r, (Some fields).
           repeat split; [ assumption | discriminate ].
      * destruct apply_filter; cbn [andb Ywh2csv.answered negb bind];
          [ discriminate | ].
        intros H. injection H as H. exists r, None.
        repeat split; [ assumption | discriminate ].
    + destruct apply_filter; cbn [andb Ywh2csv.answered negb bind];
        [ discriminate | ].
      intros H. injection H as H. exists r, None.
      repeat split; [ assumption | discriminate ].
  - destruct apply_filter; cbn [andb Ywh2csv.answered negb bind];
      [ discriminate | ].
    intros H. injection H as H. exists r, None.
    repeat split; [ assumption | discriminate ].
Qed.

(** X6.  every row of the export is the row of one of the reports, and with
    the filter on it is the row of a report whose details were fetched and
    pass [should_include_report]; no report gives more than one row. *)
Theorem export_rows_filtered (api : string -> option json) (reports : list json)
    (fetch_details apply_filter : bool) (csv_rows : list dict) :
  Ywh2csv.csv_rows_of api reports fetch_details apply_filter = Ok csv_rows ->
  List.length csv_rows <= List.length reports /\
  forall row, In row csv_rows ->
    exists r detailed,
      In (JObj r) reports /\
      Ywh2csv.map_report_to_csv_row r detailed = Some row /\
      (apply_filter = true ->
       exists d,
         detailed = Some d /\ fetch_details = true /\
         Ywh2csv.get_report_details api (report_id_of r) = Some (JObj d) /\
         Ywh2csv.should_include_report d = true).
Proof.
  unfold Ywh2csv.csv_rows_of. intros H. inv_bind H. injection H as <-.
  apply mapM_Forall2 in E. split.
  - rewrite (Forall2_length_eq _ _ _ E). apply somes_length.
  - intros row Hin. apply In_somes in Hin.
    destruct (Forall2_in_r _ _ _ _ E Hin) as [report [Hr Hrow]].
    destruct (exported_row_inv _ _ _ _ _ Hrow) as [r [detailed [-> Hd]]].
    exists r, detailed. split; [ assumption | exact Hd ].
Qed.

Lemma export_rows_filtered_witness :
  exists csv_rows,
    Ywh2csv.csv_rows_of Samples.ywh_server Samples.ywh_reports true true = Ok csv_rows /\
    List.length csv_rows <= List.length Samples.ywh_reports /\
    forall row, In row csv_rows ->
      exists r detailed,
        In (JObj r) Samples.ywh_reports /\
        Ywh2csv.map_report_to_csv_row r detailed = Some row /\
        (true = true ->
         exists d,
           detailed = Some d /\ true = true /\
           Ywh2csv.get_report_details Samples.ywh_server (report_id_of r)
           = Some (JObj d) /\
           Ywh2csv.should_include_report d = true).
Proof.
  eexists. split; [ vm_compute; reflexivity | ].
  apply (export_rows_filtered Samples.ywh_server Samples.ywh_reports true true).
  vm_compute. reflexivity.
Defined.

Lemma somes_none {A B : Type} (l : list A) :
  Ywh2csv.somes (map (fun _ : A => @None B) l) = [].
Proof.
  induction l; [ reflexivity | exact IHl ].
Qed.

(** X7.  with the filter on and the details not fetched, the export writes
    nothing and fails, whatever the reports and the server. *)
Theorem export_filter_needs_details (api : string -> option json)
    (write : string -> list dict -> bool) (reports : list dict) (output_file : string) :
  Ywh2csv.csv_rows_of api (map JObj reports) false true = Ok [] /\
  Ywh2csv.export_reports_to_csv api write (map JObj reports) output_file false true
  = Ok false.
Proof.
  assert (H : Ywh2csv.csv_rows_of api (map JObj reports) false true = Ok []).
  { unfold Ywh2csv.csv_rows_of.
    rewrite (mapM_map _ JObj (fun _ => @None dict)); [ | reflexivity ].
    cbn [bind]. now rewrite somes_none. }
  split; [ exact H | ].
  unfold Ywh2csv.export_reports_to_csv. rewrite H.
  destruct (map JObj reports); reflexivity.
Qed.

(** *** The YesWeHack exporter: the pages of a program *)

Lemma firstn_plus {A : Type} (n m : nat) (l : list A) :
  firstn (n + m) l = (firstn n l ++ firstn m (skipn n l))%list.
Proof.
  revert l. induction n as [ | n IH ]; intros [ | a l ]; cbn.
  - reflexivity.
  - reflexivity.
  - now destruct m.
  - now rewrite IH.
Qed.

Lemma some_reports_nonempty (l : list json) :
  l <> [] -> Ywh2csv.some_reports l = Some l.
Proof.
  destruct l; [ contradiction | reflexivity ].
Qed.

Section Pages.

Variable api : string -> option json.
Variable slug : string.
Variable limit : nat.
Variable all : list json.

Hypothesis limit_positive : 0 < limit.
Hypothesis some_report : all <> [].

(** The server lists the reports [all] by pages of [limit] reports, and
    tells their number with every page. *)
Hypothesis pages :
  forall k, k * limit < List.length all ->
    exists response pagination,
      api (Ywh2csv.reports_endpoint slug (Z.of_nat limit) (Z.of_nat (k * limit)))
      = Some (JObj response) /\
      lookup "items" response = Some (JArr (firstn limit (skipn (k * limit) all))) /\
      lookup "pagination" response = Some (JObj pagination) /\
      lookup "total" pagination = Some (JNum (Z.of_nat (List.length all))).

Lemma pages_from (fuel k : nat) :
  k * limit < List.length all ->
  List.length all <= (k + fuel) * limit ->
  Ywh2csv.get_program_reports_from api fuel slug (Z.of_nat limit)
    (Z.of_nat (k * limit)) (firstn (k * limit) all)
  = Some (Ok (Some all)).
Proof.
  revert k. induction fuel as [ | fuel IH ]; intros k Hk Hfuel.
  - rewrite Nat.add_0_r in Hfuel. lia.
  - destruct (pages k Hk) as [response [pagination [Ha [Hi [Hp Ht]]]]].
    cbn [Ywh2csv.get_program_reports_from]. rewrite Ha.
    assert (Hresp : truthy (JObj response) = true).
    { destruct response; [ discriminate | reflexivity ]. }
    cbn [Ywh2csv.answered]. rewrite Hresp. cbn [negb get].
    rewrite (dict_get_found _ _ _ _ Hi).
    assert (Hpage : firstn limit (skipn (k * limit) all) <> []).
    { intros Hnil. apply (f_equal (@List.length json)) in Hnil.
      rewrite length_firstn, length_skipn in Hnil. cbn in Hnil. lia. }
    assert (Htr : truthy (JArr (firstn limit (skipn (k * limit) all))) = true).
    { cbn. destruct (firstn limit (skipn (k * limit) all)); [ contradiction | reflexivity ]. }
    rewrite Htr. cbn [negb py_iter].
    rewrite <- firstn_plus.
    rewrite (dict_get_found _ _ _ _ Hp). cbn [bind get].
    rewrite (dict_get_found _ _ _ _ Ht). cbn [Ywh2csv.reached].
    rewrite length_firstn.
    destruct (Z.of_nat (List.length all)
              <=? Z.of_nat (Nat.min (k * limit + limit) (List.length all)))%Z eqn:E.
    + apply Z.leb_le in E.
      rewrite firstn_all2 by lia. now rewrite some_reports_nonempty.
    + apply Z.leb_gt in E.
      replace (Z.of_nat (k * limit) + Z.of_nat limit)%Z
        with (Z.of_nat (S k * limit)) by lia.
      replace (k * limit + limit) with (S k * limit) by lia.
      apply IH; lia.
Qed.

End Pages.

(** X8.  when the server lists the reports of a program by pages of [limit]
    and tells their number, [get_program_reports] returns all of them, each
    once and in the order of the server, after at most one request for each
    page. *)
Theorem get_program_reports_complete (api : string -> option json) (slug : string)
    (limit : nat) (all : list json) (fuel : nat) :
  0 < limit ->
  all <> [] ->
  (forall k, k * limit < List.length all ->
     exists response pagination,
       api (Ywh2csv.reports_endpoint slug (Z.of_nat limit) (Z.of_nat (k * limit)))
       = Some (JObj response) /\
       lookup "items" response = Some (JArr (firstn limit (skipn (k * limit) all))) /\
       lookup "pagination" response = Some (JObj pagination) /\
       lookup "total" pagination = Some (JNum (Z.of_nat (List.length all)))) ->
  List.length all <= fuel * limit ->
  Ywh2csv.get_program_reports api fuel slug (Z.of_nat limit) = Some (Ok (Some all)).
Proof.
  intros Hl Ha Hp Hf. unfold Ywh2csv.get_program_reports.
  apply (pages_from api slug limit all Hl Ha Hp fuel 0).
  - cbn. destruct all; [ contradiction | cbn; lia ].
  - exact Hf.
Qed.

Lemma get_program_reports_complete_witness :
  Ywh2csv.get_program_reports Samples.ywh_server 2 "shop" 2
  = Some (Ok (Some Samples.ywh_reports)).
Proof.
  apply (get_program_reports_complete Samples.ywh_server "shop" 2 Samples.ywh_reports 2).
  - lia.
  - discriminate.
  - intros [ | [ | k ] ] Hk.
    + eexists _, _. repeat split; reflexivity.
    + eexists _, _. repeat split; reflexivity.
    + cbn in Hk. lia.
  - cbn. lia.
Defined.

Lemma reports_from_nonempty (api : string -> option json) (fuel : nat) (slug : string)
    (limit offset : Z) (acc l : list json) :
  Ywh2csv.get_program_reports_from api fuel slug limit offset acc = Some (Ok (Some l)) ->
  l <> [].
Proof.
  assert (Hs : forall x, Ywh2csv.some_reports x = Some l -> l <> []).
  { intros [ | a x ]; [ discriminate | ]. intros H. injection H as <-. discriminate. }
  revert offset acc. induction fuel as [ | fuel IH ]; intros offset acc; [ discriminate | ].
  cbn [Ywh2csv.get_program_reports_from].
  destruct (negb (Ywh2csv.answered _)).
  - destruct (offset =? 0)%Z; [ discriminate | ].
    intros H. injection H as H. now apply Hs in H.
  - destruct (api _) as [ response | ].
    + destruct (get response "items" (JArr [])) as [ items | ]; [ | discriminate ].
      destruct (negb (truthy items)).
      * intros H. injection H as H. now apply Hs in H.
      * destruct (py_iter items) as [ more | ]; [ | discriminate ].
        destruct (bind _ _) as [ [ | ] | ]; [ | apply IH | discriminate ].
        intros H. injection H as H. now apply Hs in H.
    + intros H. injection H as H. now apply Hs in H.
Qed.

(** X9.  [get_program_reports] never returns an empty list: it returns
    [None] instead, as it does when the first request fails. *)
Theorem get_program_reports_never_empty (api : string -> option json) (slug : string)
    (limit : Z) :
  (forall fuel l,
      Ywh2csv.get_program_reports api fuel slug limit = Some (Ok (Some l)) -> l <> []) /\
  (forall fuel,
      Ywh2csv.answered (api (Ywh2csv.reports_endpoint slug limit 0)) = false ->
      Ywh2csv.get_program_reports api (S fuel) slug limit = Some (Ok None)).
Proof.
  split.
  - intros fuel l. apply reports_from_nonempty.
  - intros fuel H. unfold Ywh2csv.get_program_reports.
    cbn [Ywh2csv.get_program_reports_from]. now rewrite H.
Qed.

(** *** The YesWeHack exporter: the flags of the command line *)

(** X10.  as long as the filter is on, [--no-details] changes nothing: [main]
    fetches the details all the same, and never exports with the filter on
    and the details off. *)
Theorem main_forces_details (api : string -> option json)
    (write : string -> list dict -> bool) (key : option string) (fuel : nat)
    (programs : list string) (output : string) (business_unit : option string)
    (list_business_units : bool) (list_programs : option string)
    (verbose no_details : bool) :
  Ywh2csv.main api write key fuel
    (Ywh2csv.mkArgs programs output business_unit list_business_units list_programs
       verbose no_details false)
  = Ywh2csv.main api write key fuel
      (Ywh2csv.mkArgs programs output business_unit list_business_units list_programs
         verbose false false) /\
  forall a, Ywh2csv.export_flags a <> (false, true).
Proof.
  split.
  - unfold Ywh2csv.main, Ywh2csv.export_programs, Ywh2csv.export_flags.
    cbn [Ywh2csv.list_business_units Ywh2csv.list_programs Ywh2csv.programs
         Ywh2csv.output Ywh2csv.no_details Ywh2csv.no_filter negb andb].
    destruct no_details; reflexivity.
  - intros a. unfold Ywh2csv.export_flags.
    destruct (Ywh2csv.no_filter a), (Ywh2csv.no_details a); discriminate.
Qed.

(** *** The rows of the plugins *)

Lemma substituted_newline_free (marker : string) (fields uppers : list string)
    (r0 r : row) (k s : string) :
  Str.has_char (ascii_of_nat 10) marker = false ->
  substituted marker fields uppers r0 r ->
  In k fields -> lookup k r = Some (JStr s) ->
  Str.has_char (ascii_of_nat 10) s = false.
Proof.
  intros Hm [_ Hl] Hk. rewrite Hl. unfold cell_rule.
  apply mem_In in Hk. rewrite Hk.
  destruct (lookup k r0) as [ c | ]; [ | discriminate ].
  destruct c; cbn; try discriminate.
  intros H. injection H as <-. now apply newline_gone.
Qed.

Lemma substituted_other (marker : string) (fields uppers : list string)
    (r0 r : row) (k : string) :
  substituted marker fields uppers r0 r ->
  Str.mem k fields = false -> Str.mem k uppers = false ->
  lookup k r = lookup k r0.
Proof.
  intros [_ Hl] Hf Hu. rewrite Hl. unfold cell_rule. rewrite Hf, Hu.
  now destruct (lookup k r0).
Qed.

Lemma trivy_record_fixed (r : dict) :
  (exists vuln data, VATrivy._parse_legacy_vulnerability vuln data = Ok r) \/
  (exists vuln target, VATrivy._parse_modern_vulnerability vuln target = Ok r) ->
  lookup "port" r = Some (JNum 0) /\
  lookup "evidence" r = Some (JStr "") /\
  lookup "vpr_score" r = Some (JStr "").
Proof.
  intros [ [vuln [data H]] | [vuln [target H]] ].
  - unfold VATrivy._parse_legacy_vulnerability in H.
    repeat inv_bind H. injection H as <-. repeat split.
  - unfold VATrivy._parse_modern_vulnerability in H.
    repeat inv_bind H. injection H as <-. repeat split.
Qed.

Lemma trivy_records_fixed (data : json) (recs : list dict) :
  VATrivy.records data = Ok recs ->
  forall r, In r recs ->
    lookup "port" r = Some (JNum 0) /\
    lookup "evidence" r = Some (JStr "") /\
    lookup "vpr_score" r = Some (JStr "").
Proof.
  unfold VATrivy.records. intros H. inv_bind H. destruct a.
  - repeat inv_bind H. apply mapM_Forall2 in H.
    intros r Hin. destruct (Forall2_in_r _ _ _ _ H Hin) as [x [_ Hx]].
    apply trivy_record_fixed. left. now exists x, data.
  - inv_bind H. destruct a; [ | discriminate ].
    repeat inv_bind H. injection H as <-.
    apply mapM_Forall2 in E3.
    intros r Hin. apply in_concat in Hin. destruct Hin as [rs [Hrs Hin]].
    destruct (Forall2_in_r _ _ _ _ E3 Hrs) as [x [_ Hx]].
    unfold VATrivy.records_of_result in Hx.
    destruct (get x "Target" (JStr "")) as [ target | ]; [ | discriminate ].
    destruct (get x "Vulnerabilities" (JArr [])) as [ listed | ]; [ | discriminate ].
    cbn [bind] in Hx.
    assert (Hm : forall vulns,
               mapM (fun vuln => VATrivy._parse_modern_vulnerability vuln target) vulns
               = Ok rs ->
               lookup "port" r = Some (JNum 0) /\
               lookup "evidence" r = Some (JStr "") /\
               lookup "vpr_score" r = Some (JStr "")).
    { intros vulns Hv. apply mapM_Forall2 in Hv.
      destruct (Forall2_in_r _ _ _ _ Hv Hin) as [v [_ Hv']].
      apply trivy_record_fixed. right. now exists v, target. }
    destruct listed; cbn [py_iter bind] in Hx; try discriminate;
      try (now apply (Hm _ Hx)).
    injection Hx as <-. contradiction.
Qed.

Lemma scatrivy_fixed (lf df1 : DataFrame) :
  SCATrivy.extracted lf = Ok df1 ->
  forall r, In r (rows df1) ->
    lookup "port" r = Some (JNum 0) /\
    lookup "evidence" r = Some (JStr "") /\
    lookup "vpr_score" r = Some (JStr "").
Proof.
  unfold SCATrivy.extracted. intros H. repeat inv_bind H.
  apply filter_inv in H. destruct H as [_ Hr].
  apply with_columns_inv in E2. destruct E2 as [_ [_ HF]].
  intros r Hin. destruct (Hr r Hin) as [Hin' _].
  destruct (Forall2_in_r _ _ _ _ HF Hin') as [r0 [_ Hrow]].
  apply with_columns_row_inv in Hrow. destruct Hrow as [vals [Hv ->]].
  inv_Forall2.
  repeat match goal with
         | H : _ /\ _ |- _ => destruct H
         | kv : (string * cell)%type |- _ => destruct kv
         end.
  cbn [fst snd] in *. subst.
  rewrite !lookup_set_all. cbn -[Frame.eval] in *.
  repeat match goal with
         | H : Frame.eval (Frame.Lit _) _ = Ok _ |- _ =>
             cbn [Frame.eval] in H; injection H as <-
         end.
  repeat split.
Qed.

Lemma projected_newline_free (r0 r : row) :
  projected "<br/>" ["description"; "remediation"] r0 r ->
  lookup "evidence" r0 = Some (JStr "") ->
  newline_free r.
Proof.
  intros [_ Hp] He k s Hk. rewrite Hp by (cbn in Hk |- *; tauto).
  destruct Hk as [ <- | [ <- | [ <- | [] ] ] ].
  - destruct (lookup "description" r0) as [ [] | ]; cbn; try discriminate.
    intros H. injection H as <-. now apply newline_gone.
  - destruct (lookup "remediation" r0) as [ [] | ]; cbn; try discriminate.
    intros H. injection H as <-. now apply newline_gone.
  - rewrite He. cbn. intros H. injection H as <-. reflexivity.
Qed.

(** X11.  no raw newline is left in the description, the remediation and
    the evidence of a row of the DAST, Semgrep, ThreatCode and Trivy
    plugins. *)
Theorem no_raw_newline (p : plugin) (file : option (decoded p)) (file_type : string)
    (df : DataFrame) :
  breaks_every_text p = true ->
  process p file file_type = Ok df ->
  Forall newline_free (rows df).
Proof.
  intros Hp H. apply Forall_forall. intros r Hin k s Hk.
  destruct p; try discriminate Hp; cbn [process decoded] in *.
  - apply scatrivy_process_inv in H.
    destruct H as [lf [df1 [_ [He [_ Hr]]]]].
    destruct (Hr r Hin) as [_ [r0 [Hin0 Hproj]]].
    destruct (scatrivy_fixed _ _ He r0 Hin0) as [_ [Hev _]].
    now apply (projected_newline_free r0 r Hproj Hev k s).
  - apply trivy_process_inv in H.
    destruct H as [data [recs [_ [He [_ Hr]]]]].
    destruct (Hr r Hin) as [_ [r0 [Hin0 Hs]]].
    destruct (trivy_records_fixed _ _ He r0 Hin0) as [_ [Hev _]].
    destruct Hk as [ <- | [ <- | [ <- | [] ] ] ].
    + apply (substituted_newline_free "<br/>" _ _ _ _ _ _ eq_refl Hs). cbn; tauto.
    + apply (substituted_newline_free "<br/>" _ _ _ _ _ _ eq_refl Hs). cbn; tauto.
    + rewrite (substituted_other _ _ _ _ _ "evidence" Hs eq_refl eq_refl), Hev.
      intros H. injection H as <-. reflexivity.
  - apply semgrep_process_inv in H.
    destruct H as [data [recs [_ [_ [_ Hr]]]]].
    destruct (Hr r Hin) as [r0 [_ Hs]].
    now apply (substituted_newline_free "<br/>" _ _ _ _ _ _ eq_refl Hs).
  - apply threatcode_process_inv in H.
    destruct H as [df0 [df1 [_ [_ [_ Hr]]]]].
    destruct (Hr r Hin) as [_ [r0 [_ [_ Hs]]]].
    now apply (substituted_newline_free "<br/>" _ _ _ _ _ _ eq_refl Hs).
  - apply burp_substituted in H.
    destruct H as [root [_ Hr]].
    destruct (Hr r Hin) as [r0 [_ Hs]].
    now apply (substituted_newline_free "<br/>" _ _ _ _ _ _ eq_refl Hs).
Qed.

Lemma no_raw_newline_witness :
  exists df,
    process BurpSuitePlugin (Some Samples.burp_root) "text/xml" = Ok df /\
    rows df <> [] /\
    Forall newline_free (rows df).
Proof.
  eexists. split; [ vm_compute; reflexivity | ].
  split; [ discriminate | ].
  apply (no_raw_newline BurpSuitePlugin (Some Samples.burp_root) "text/xml").
  - reflexivity.
  - vm_compute. reflexivity.
Defined.

Lemma semgrep_record_fixed (x : json) (r : dict) :
  Semgrep.record_of x = Ok r ->
  forall k v, In (k, v) (fixed_cells SemgrepPlugin) -> lookup k r = Some v.
Proof.
  unfold Semgrep.record_of. intros H. repeat inv_bind H. injection H as <-.
  intros k v Hin. cbn in Hin.
  repeat destruct Hin as [ Hin | Hin ]; try contradiction;
    injection Hin as <- <-; reflexivity.
Qed.

(** X12.  the cells a plugin fills with a constant: the DAST and the Trivy
    plugins give every row the port 0 and no score, the DAST plugin no CVE,
    the Trivy plugins no evidence, and Semgrep the risk "Medium", the host
    "semgrep", no CVE and no score. *)
Theorem constant_cells (p : plugin) (file : option (decoded p)) (file_type : string)
    (df : DataFrame) :
  process p file file_type = Ok df ->
  forall r, In r (rows df) ->
    forall k v, In (k, v) (fixed_cells p) -> lookup k r = Some v.
Proof.
  intros H r Hin k v Hk.
  destruct p; try contradiction; cbn [process decoded] in *.
  - apply scatrivy_process_inv in H.
    destruct H as [lf [df1 [_ [He [_ Hr]]]]].
    destruct (Hr r Hin) as [_ [r0 [Hin0 [_ Hp]]]].
    destruct (scatrivy_fixed _ _ He r0 Hin0) as [H1 [H2 H3]].
    cbn in Hk. repeat destruct Hk as [ Hk | Hk ]; try contradiction;
      injection Hk as <- <-; rewrite Hp by (cbn; tauto);
      [ rewrite H1 | rewrite H2 | rewrite H3 ]; reflexivity.
  - apply trivy_process_inv in H.
    destruct H as [data [recs [_ [He [_ Hr]]]]].
    destruct (Hr r Hin) as [_ [r0 [Hin0 Hs]]].
    destruct (trivy_records_fixed _ _ He r0 Hin0) as [H1 [H2 H3]].
    cbn in Hk. repeat destruct Hk as [ Hk | Hk ]; try contradiction;
      injection Hk as <- <-;
      [ rewrite (substituted_other _ _ _ _ _ "port" Hs eq_refl eq_refl)
      | rewrite (substituted_other _ _ _ _ _ "evidence" Hs eq_refl eq_refl)
      | rewrite (substituted_other _ _ _ _ _ "vpr_score" Hs eq_refl eq_refl) ];
      assumption.
  - unfold Semgrep.process in H. destruct (negb _); [ discriminate | ].
    destruct file as [ data | ]; [ | discriminate ].
    inv_bind H. unfold Semgrep.records in E. repeat inv_bind E.
    apply mapM_Forall2 in E.
    destruct a as [ | rec recs ].
    + injection H as <-. contradiction.
    + change (Frame.with_columns (in_place (break_fn "<br/>") text_fields)
                (Frame.of_records (rec :: recs)) = Ok df) in H.
      apply break_step in H. destruct H as [_ Hr].
      destruct (Hr r Hin) as [r0 [Hin0 Hs]].
      destruct (Forall2_in_r _ _ _ _ E Hin0) as [x [_ Hx]].
      pose proof (semgrep_record_fixed x r0 Hx k v Hk) as Hv.
      rewrite <- Hv. apply (substituted_other _ _ _ _ _ k Hs); [ | reflexivity ].
      cbn in Hk. repeat destruct Hk as [ Hk | Hk ]; try contradiction;
        injection Hk as <- <-; reflexivity.
  - apply burp_substituted in H.
    destruct H as [root [_ Hr]].
    destruct (Hr r Hin) as [r0 [Hin0 Hs]].
    unfold BurpSuite.records in Hin0. apply in_map_iff in Hin0.
    destruct Hin0 as [issue [<- _]].
    cbn in Hk. repeat destruct Hk as [ Hk | Hk ]; try contradiction;
      injection Hk as <- <-;
      [ rewrite (substituted_other _ _ _ _ _ "cve" Hs eq_refl eq_refl)
      | rewrite (substituted_other _ _ _ _ _ "port" Hs eq_refl eq_refl)
      | rewrite (substituted_other _ _ _ _ _ "vpr_score" Hs eq_refl eq_refl) ];
      reflexivity.
Qed.

Lemma constant_cells_witness :
  exists df r,
    process SemgrepPlugin (Some Samples.semgrep_doc) "json" = Ok df /\
    In r (rows df) /\
    forall k v, In (k, v) (fixed_cells SemgrepPlugin) -> lookup k r = Some v.
Proof.
  eexists. eexists. split; [ vm_compute; reflexivity | ].
  split; [ left; reflexivity | ].
  apply (constant_cells SemgrepPlugin (Some Samples.semgrep_doc) "json" _ eq_refl).
  left. reflexivity.
Defined.

Lemma str_or_empty (x : string) : str_or x "" = x.
Proof.
  unfold str_or. destruct (String.eqb_spec x ""); congruence.
Qed.

(** X13.  for an export whose severities are texts of the ASCII range, every
    row of the DAST plugin is the row of an issue of the export with a
    severity of the enumeration: its risk is the severity in upper case,
    its description the background of the issue, or the detail when there
    is no background, its remediation likewise, its host the text of the
    host element, or the [ip] attribute when the element has no text, each
    text with its newlines replaced. *)
Theorem burp_row_fields (root : element) (file_type : string) (df : DataFrame) :
  (forall issue, In issue (ET.findall root "issue") ->
                 Str.is_ascii (ET.findtext issue "severity" "") = true) ->
  BurpSuite.process (Some root) file_type = Ok df ->
  forall r, In r (rows df) ->
    exists issue,
      In issue (ET.findall root "issue") /\
      In (Str.upper (ET.findtext issue "severity" "")) valid_risks /\
      lookup "risk" r = Some (JStr (Str.upper (ET.findtext issue "severity" ""))) /\
      lookup "name" r = Some (JStr (ET.findtext issue "name" "")) /\
      lookup "description" r
      = Some (JStr (Str.replace Str.nl "<br/>"
                      (str_or (ET.findtext issue "issueBackground" "")
                              (ET.findtext issue "issueDetail" "")))) /\
      lookup "remediation" r
      = Some (JStr (Str.replace Str.nl "<br/>"
                      (str_or (ET.findtext issue "remediationBackground" "")
                              (ET.findtext issue "remediationDetail" "")))) /\
      lookup "host" r
      = Some (JStr (match ET.find issue "host" with
                    | Some host_elem =>
                        opt_or (ET.text host_elem) (ET.get host_elem "ip" "")
                    | None => ""
                    end)).
Proof.
  intros _ H r Hin.
  pose proof (process_accepts BurpSuitePlugin (Some root) file_type df H) as Ha.
  cbn [accepts] in Ha. rewrite (burp_process root file_type Ha) in H.
  injection H as <-. cbn [rows] in Hin.
  apply in_map_iff in Hin. destruct Hin as [issue [<- Hin]].
  apply filter_In in Hin. destruct Hin as [Hin Hk].
  exists issue. split; [ assumption | ].
  split.
  { unfold burp_keeps, risk_kept in Hk. cbn in Hk. now apply mem_In. }
  split; [ reflexivity | ]. split; [ reflexivity | ].
  split.
  { cbn. unfold str_or.
    now destruct (String.eqb (ET.findtext issue "issueBackground" "") ""). }
  split.
  { cbn. unfold str_or.
    now destruct (String.eqb (ET.findtext issue "remediationBackground" "") ""). }
  cbn. destruct (ET.find issue "host"); [ | reflexivity ].
  now rewrite str_or_empty.
Qed.

Lemma burp_row_fields_witness :
  (forall issue, In issue (ET.findall Samples.burp_root "issue") ->
                 Str.is_ascii (ET.findtext issue "severity" "") = true) /\
  exists df r,
    BurpSuite.process (Some Samples.burp_root) "xml" = Ok df /\
    In r (rows df) /\
    exists issue,
      In issue (ET.findall Samples.burp_root "issue") /\
      In (Str.upper (ET.findtext issue "severity" "")) valid_risks /\
      lookup "risk" r = Some (JStr (Str.upper (ET.findtext issue "severity" ""))) /\
      lookup "name" r = Some (JStr (ET.findtext issue "name" "")) /\
      lookup "description" r
      = Some (JStr (Str.replace Str.nl "<br/>"
                      (str_or (ET.findtext issue "issueBackground" "")
                              (ET.findtext issue "issueDetail" "")))) /\
      lookup "remediation" r
      = Some (JStr (Str.replace Str.nl "<br/>"
                      (str_or (ET.findtext issue "remediationBackground" "")
                              (ET.findtext issue "remediationDetail" "")))) /\
      lookup "host" r
      = Some (JStr (match ET.find issue "host" with
                    | Some host_elem =>
                        opt_or (ET.text host_elem) (ET.get host_elem "ip" "")
                    | None => ""
                    end)).
Proof.
  assert (Hascii : forall issue,
             In issue (ET.findall Samples.burp_root "issue") ->
             Str.is_ascii (ET.findtext issue "severity" "") = true).
  { intros issue [ <- | [ <- | [] ] ]; reflexivity. }
  split; [ exact Hascii | ].
  eexists. eexists. split; [ vm_compute; reflexivity | ].
  split; [ left; reflexivity | ].
  apply (burp_row_fields Samples.burp_root "xml" _ Hascii eq_refl). left. reflexivity.
Defined.

(** *** The test of the DAST plugin *)

Lemma keep_not_risk (r : row) (s : string) :
  lookup "risk" r = Some (JStr s) ->
  Frame.keep
    [TestBurpSuite.not_
       (Frame.is_in ["CRITICAL"; "HIGH"; "MEDIUM"; "LOW"] (Frame.Col "risk"))] r
  = Ok (negb (Str.mem s valid_risks)).
Proof.
  intros H. unfold Frame.keep, TestBurpSuite.not_, Frame.is_in.
  cbn [mapM Frame.eval bind]. rewrite H. cbn [bind].
  change ["CRITICAL"; "HIGH"; "MEDIUM"; "LOW"] with valid_risks.
  now destruct (Str.mem s valid_risks).
Qed.

Lemma burp_empty_count (field : string) (issues : list element) :
  In field ["risk"; "host"; "name"] ->
  exists n,
    TestBurpSuite.empty_count field (mkDataFrame canonical (map burp_row issues))
    = Ok n.
Proof.
  intros Hf. unfold TestBurpSuite.empty_count. cbn [columns rows].
  assert (Hm : Str.mem field canonical = true).
  { apply mem_In. cbn in Hf |- *. tauto. }
  rewrite Hm.
  rewrite (mapM_map _ burp_row
             (fun issue =>
                match lookup field (burp_row issue) with
                | Some (JStr s) => String.eqb s ""
                | _ => false
                end)).
  - cbn [bind]. eexists. reflexivity.
  - intros issue _. destruct Hf as [ <- | [ <- | [ <- | [] ] ] ]; reflexivity.
Qed.

Lemma verify_burp (issues : list element) :
  (forall issue, In issue issues -> burp_keeps issue = true) ->
  exists counts with_scheme,
    TestBurpSuite.verify (mkDataFrame canonical (map burp_row issues))
    = Ok (TestBurpSuite.mkVerdict true true
            (match issues with [] => None | _ => Some true end)
            counts with_scheme).
Proof.
  intros Hk. unfold TestBurpSuite.verify. cbn [columns rows].
  change (TestBurpSuite.missing_columns _) with (@nil string).
  change (TestBurpSuite.extra_columns _) with (@nil string).
  change (TestBurpSuite.list_eqb canonical TestBurpSuite.expected_columns) with true.
  destruct issues as [ | i issues ]; [ eexists _, _; reflexivity | ].
  set (l := i :: issues) in *.
  change (map burp_row l) with (burp_row i :: map burp_row issues) at 1.
  cbv iota.
  assert (Hinv : TestBurpSuite.invalid_risks (mkDataFrame canonical (map burp_row l))
                 = Ok (mkDataFrame canonical [])).
  { unfold TestBurpSuite.invalid_risks, Frame.filter. cbn [columns rows].
    change (Frame.all_known canonical _) with true. cbv iota.
    rewrite (filterM_filter _ (fun r => negb (risk_kept r))).
    - rewrite filter_none; [ reflexivity | ].
      intros r Hr. apply in_map_iff in Hr. destruct Hr as [x [<- Hx]].
      apply Hk in Hx. unfold burp_keeps in Hx. now rewrite Hx.
    - intros r Hr. apply in_map_iff in Hr. destruct Hr as [x [<- _]].
      now apply (keep_not_risk _ (Str.upper (ET.findtext x "severity" ""))). }
  rewrite Hinv. cbn [bind rows mapM].
  destruct (burp_empty_count "risk" l) as [n1 ->]; [ cbn; tauto | ].
  destruct (burp_empty_count "host" l) as [n2 ->]; [ cbn; tauto | ].
  destruct (burp_empty_count "name" l) as [n3 ->]; [ cbn; tauto | ].
  cbn [bind]. unfold TestBurpSuite.uses_hostname. cbn [rows].
  subst l. cbn [map]. eexists _, _. reflexivity.
Qed.

(** X14.  on every export that parses, the test of the DAST plugin ends
    without an error and with the verdicts that the columns are the
    expected ones, that they are in the expected order, and, when there are
    rows, that every risk is of the enumeration. *)
Theorem test_burpsuite_passes (root : element) :
  exists v,
    TestBurpSuite.test_burpsuite_plugin (Some root) = Some v /\
    TestBurpSuite.schema_matches v = true /\
    TestBurpSuite.order_correct v = true /\
    TestBurpSuite.risks_valid v <> Some false.
Proof.
  unfold TestBurpSuite.test_burpsuite_plugin.
  rewrite (burp_process root "xml" eq_refl). cbn [bind].
  destruct (verify_burp (List.filter burp_keeps (ET.findall root "issue")))
    as [counts [with_scheme ->]].
  - intros issue Hin. apply filter_In in Hin. tauto.
  - eexists. split; [ reflexivity | ]. cbn.
    repeat split. now destruct (List.filter _ _).
Qed.

(** *** The Semgrep plugin *)

Lemma Forall2_compose {A B C : Type} (R : A -> B -> Prop) (S : B -> C -> Prop)
    (l1 : list A) (l2 : list B) (l3 : list C) :
  Forall2 R l1 l2 -> Forall2 S l2 l3 ->
  Forall2 (fun a c => exists b, R a b /\ S b c) l1 l3.
Proof.
  intros H. revert l3. induction H; intros l3 H3; inversion H3; subst.
  - constructor.
  - constructor; [ eauto | auto ].
Qed.

Lemma break_rows (marker : string) (fields : list string) (df df' : DataFrame) :
  Frame.with_columns (in_place (break_fn marker) fields) df = Ok df' ->
  Forall2 (substituted marker fields []) (rows df) (rows df').
Proof.
  intros H. apply with_columns_inv in H. destruct H as [_ [_ HF]].
  revert HF. apply Forall2_impl. intros r r' Hrow.
  apply in_place_rewritten in Hrow.
  unfold substituted. revert Hrow. apply rewritten_ext.
  intros k c _. unfold cell_rule. destruct (Str.mem k fields); [ | reflexivity ].
  destruct c; reflexivity.
Qed.

Lemma semgrep_record_cells (x : json) (r0 : dict) :
  Semgrep.record_of x = Ok r0 ->
  exists check_id start start_line,
    get x "check_id" (JStr "") = Ok check_id /\
    get x "start" (JObj []) = Ok start /\
    get start "line" (JNum 0) = Ok start_line /\
    lookup "name" r0 = Some check_id /\
    lookup "port" r0 = Some start_line.
Proof.
  unfold Semgrep.record_of. intros H.
  destruct (get x "check_id" (JStr "")) as [ check_id | ]; [ | discriminate ].
  destruct (get x "path" (JStr "")) as [ path | ]; [ | discriminate ].
  destruct (get x "start" (JObj [])) as [ start | ]; [ | discriminate ].
  destruct (get x "end" (JObj [])) as [ end_ | ]; [ | discriminate ].
  destruct (get x "extra" (JObj [])) as [ extra | ]; [ | discriminate ].
  cbn [bind] in H.
  destruct (get start "line" (JNum 0)) as [ start_line | ] eqn:El; [ | discriminate ].
  cbn [bind] in H. repeat inv_bind H. injection H as <-.
  exists check_id, start, start_line. repeat split. exact El.
Qed.

(** X15.  Semgrep gives one row for each result of the report, in the order
    of the report, and drops none: the row of a result has its check as
    name and the line where it starts as port. *)
Theorem semgrep_row_per_result (data : json) (file_type : string) (df : DataFrame) :
  Semgrep.process (Some data) file_type = Ok df ->
  exists results items,
    get data "results" (JArr []) = Ok results /\
    py_iter results = Ok items /\
    Forall2
      (fun x r =>
         exists check_id start start_line,
           get x "check_id" (JStr "") = Ok check_id /\
           get x "start" (JObj []) = Ok start /\
           get start "line" (JNum 0) = Ok start_line /\
           lookup "name" r = Some check_id /\
           lookup "port" r = Some start_line)
      items (rows df).
Proof.
  unfold Semgrep.process. destruct (negb _); [ discriminate | ].
  intros H. inv_bind H. unfold Semgrep.records in E.
  destruct (get data "results" (JArr [])) as [ results | ]; [ | discriminate ].
  cbn [bind] in E.
  destruct (py_iter results) as [ items | ] eqn:Ei; [ | discriminate ].
  cbn [bind] in E. apply mapM_Forall2 in E.
  exists results, items. split; [ reflexivity | ]. split; [ exact Ei | ].
  assert (Hrows : Forall2 (substituted "<br/>" text_fields []) a (rows df)).
  { destruct a as [ | rec recs ].
    - injection H as <-. constructor.
    - change (Frame.with_columns (in_place (break_fn "<br/>") text_fields)
                (Frame.of_records (rec :: recs)) = Ok df) in H.
      now apply break_rows in H. }
  pose proof (Forall2_compose _ _ _ _ _ E Hrows) as HF.
  revert HF. apply Forall2_impl. intros x r [r0 [Hx Hs]].
  destruct (semgrep_record_cells x r0 Hx)
    as [check_id [start [start_line [H1 [H2 [H3 [H4 H5]]]]]]].
  exists check_id, start, start_line.
  repeat split; try assumption.
  - now rewrite (substituted_other _ _ _ _ _ "name" Hs eq_refl eq_refl).
  - now rewrite (substituted_other _ _ _ _ _ "port" Hs eq_refl eq_refl).
Qed.

Lemma semgrep_row_per_result_witness :
  exists df results items,
    Semgrep.process (Some Samples.semgrep_doc) "json" = Ok df /\
    get Samples.semgrep_doc "results" (JArr []) = Ok results /\
    py_iter results = Ok items /\
    Forall2
      (fun x r =>
         exists check_id start start_line,
           get x "check_id" (JStr "") = Ok check_id /\
           get x "start" (JObj []) = Ok start /\
           get start "line" (JNum 0) = Ok start_line /\
           lookup "name" r = Some check_id /\
           lookup "port" r = Some start_line)
      items (rows df).
Proof.
  eexists.
  destruct (semgrep_row_per_result Samples.semgrep_doc "json" _ eq_refl)
    as [results [items H]].
  exists results, items. split; [ reflexivity | exact H ].
Defined.

Lemma record_of_error (x : json) (e : error) :
  Semgrep.record_of x = Err e -> e = AttributeError.
Proof.
  unfold Semgrep.record_of. unfold get.
  destruct x; cbn [bind]; try congruence.
  repeat match goal with
         | |- context [match ?v with JObj _ => _ | _ => _ end] =>
             destruct v; cbn [bind]; try congruence
         end.
Qed.

Lemma mapM_error (l : list json) (x : json) :
  In x l -> (forall d, x <> JObj d) ->
  mapM Semgrep.record_of l = Err AttributeError.
Proof.
  intros Hin Hx. induction l as [ | y l IH ]; [ contradiction | ].
  cbn [mapM]. destruct (Semgrep.record_of y) as [ r | e ] eqn:E.
  - cbn [bind]. destruct Hin as [ -> | Hin ].
    + destruct x; try discriminate E. now destruct (Hx fields).
    + now rewrite (IH Hin).
  - apply record_of_error in E. now subst e.
Qed.

(** X16.  what Semgrep does with a report that is not as expected: without
    the key ["results"] the result is the empty frame of the canonical
    schema; with [null] under that key the plugin raises a [TypeError]; with
    a result that is not an object it raises an [AttributeError]. *)
Theorem semgrep_malformed (d : dict) (file_type : string) :
  Semgrep.accepts file_type = true ->
  (lookup "results" d = None ->
   Semgrep.process (Some (JObj d)) file_type = Ok (Frame.empty canonical)) /\
  (lookup "results" d = Some JNull ->
   Semgrep.process (Some (JObj d)) file_type = Err TypeError) /\
  (forall items x,
      lookup "results" d = Some (JArr items) -> In x items ->
      (forall fields, x <> JObj fields) ->
      Semgrep.process (Some (JObj d)) file_type = Err AttributeError).
Proof.
  intros Ha. unfold Semgrep.process, Semgrep.records. rewrite Ha. cbn [negb get bind].
  repeat split.
  - intros H. now rewrite (dict_get_absent _ _ _ H).
  - intros H. now rewrite (dict_get_found _ _ _ _ H).
  - intros items x H Hin Hx. rewrite (dict_get_found _ _ _ _ H). cbn [py_iter bind].
    now rewrite (mapM_error items x Hin Hx).
Qed.

Lemma semgrep_malformed_witness :
  Semgrep.accepts "json" = true /\
  Semgrep.process (Some (JObj [("version", JStr "1.0")])) "json"
  = Ok (Frame.empty canonical) /\
  Semgrep.process (Some (JObj [("results", JNull)])) "json" = Err TypeError /\
  Semgrep.process (Some (JObj [("results", JArr [JStr "x"])])) "json"
  = Err AttributeError.
Proof.
  split; [ reflexivity | ].
  split; [ apply (semgrep_malformed [("version", JStr "1.0")] "json" eq_refl);
           reflexivity | ].
  split; [ apply (semgrep_malformed [("results", JNull)] "json" eq_refl);
           reflexivity | ].
  apply (proj2 (proj2 (semgrep_malformed [("results", JArr [JStr "x"])] "json" eq_refl))
           [JStr "x"] (JStr "x")).
  - reflexivity.
  - left. reflexivity.
  - discriminate.
Defined.

(** *** The dual-shape Trivy plugin *)

Lemma mapM_app {A B : Type} (f : A -> result B) (l1 l2 : list A) :
  mapM f (l1 ++ l2)%list
  = (x <- mapM f l1 ;; y <- mapM f l2 ;; Ok (x ++ y)%list).
Proof.
  induction l1 as [ | a l1 IH ]; cbn [mapM app bind].
  - now destruct (mapM f l2).
  - destruct (f a); cbn [bind]; [ | reflexivity ].
    rewrite IH. destruct (mapM f l1); cbn [bind]; [ | reflexivity ].
    now destruct (mapM f l2).
Qed.

Lemma has_key_lookup (d : dict) (k : string) :
  has_key d k = match lookup k d with Some _ => true | None => false end.
Proof.
  reflexivity.
Qed.

Lemma no_vulnerabilities (t : dict) :
  lookup "Vulnerabilities" t = Some JNull \/
  lookup "Vulnerabilities" t = Some (JArr []) \/
  lookup "Vulnerabilities" t = None ->
  VATrivy.records_of_result (JObj t) = Ok [].
Proof.
  unfold VATrivy.records_of_result. cbn [get bind].
  intros [ H | [ H | H ] ].
  - now rewrite (dict_get_found _ _ _ _ H).
  - now rewrite (dict_get_found _ _ _ _ H).
  - now rewrite (dict_get_absent _ _ _ H).
Qed.

(** X17.  a target of a modern Trivy report whose list of vulnerabilities is
    [null], empty or absent adds no record and raises nothing: the records,
    and so the result, are those of the report without that target. *)
Theorem trivy_target_without_vulnerabilities (d d' t : dict) (before after : list json) :
  lookup "vulnerabilities" d = None ->
  lookup "vulnerabilities" d' = None ->
  lookup "Results" d = Some (JArr (before ++ JObj t :: after)) ->
  lookup "Results" d' = Some (JArr (before ++ after)) ->
  lookup "Vulnerabilities" t = Some JNull \/
  lookup "Vulnerabilities" t = Some (JArr []) \/
  lookup "Vulnerabilities" t = None ->
  VATrivy.records (JObj d) = VATrivy.records (JObj d') /\
  forall file_type,
    VATrivy.process (Some (JObj d)) file_type
    = VATrivy.process (Some (JObj d')) file_type.
Proof.
  intros Hl Hl' Hr Hr' Ht.
  assert (H : VATrivy.records (JObj d) = VATrivy.records (JObj d')).
  { unfold VATrivy.records. cbn [py_in getitem bind].
    rewrite !has_key_lookup, Hl, Hl', Hr, Hr'. cbn [bind py_iter].
    rewrite !mapM_app. cbn [mapM].
    rewrite (no_vulnerabilities t Ht).
    destruct (mapM VATrivy.records_of_result before); cbn [bind]; [ | reflexivity ].
    destruct (mapM VATrivy.records_of_result after); cbn [bind]; [ | reflexivity ].
    now rewrite !concat_app. }
  split; [ exact H | ].
  intros file_type. unfold VATrivy.process. now rewrite H.
Qed.

Lemma trivy_target_without_vulnerabilities_witness :
  VATrivy.records
    (JObj [("Results",
            JArr [JObj [("Target", JStr "alpine:3.19"); ("Vulnerabilities", JNull)];
                  JObj [("Target", JStr "app/package-lock.json");
                        ("Vulnerabilities", JArr [JObj Samples.modern_vuln])]])])
  = VATrivy.records
      (JObj [("Results",
              JArr [JObj [("Target", JStr "app/package-lock.json");
                          ("Vulnerabilities", JArr [JObj Samples.modern_vuln])]])]).
Proof.
  apply (trivy_target_without_vulnerabilities
           [("Results",
             JArr [JObj [("Target", JStr "alpine:3.19"); ("Vulnerabilities", JNull)];
                   JObj [("Target", JStr "app/package-lock.json");
                         ("Vulnerabilities", JArr [JObj Samples.modern_vuln])]])]
           [("Results",
             JArr [JObj [("Target", JStr "app/package-lock.json");
                         ("Vulnerabilities", JArr [JObj Samples.modern_vuln])]])]
           [("Target", JStr "alpine:3.19"); ("Vulnerabilities", JNull)]
           []
           [JObj [("Target", JStr "app/package-lock.json");
                  ("Vulnerabilities", JArr [JObj Samples.modern_vuln])]]);
    try reflexivity.
  left. reflexivity.
Defined.

(** X18.  how the Trivy plugin tells the shape of a report: a document with
    neither key is refused with a [ValueError]; a document with the key
    ["vulnerabilities"] is read as a legacy report, whatever else it holds,
    a key ["Results"] included. *)
Theorem trivy_shape (d : dict) (file_type : string) :
  VATrivy.accepts file_type = true ->
  (lookup "vulnerabilities" d = None -> lookup "Results" d = None ->
   VATrivy.process (Some (JObj d)) file_type
   = Err (ValueError
            "Unsupported Trivy JSON format. Expected 'vulnerabilities' or 'Results' key.")) /\
  (forall listed,
      lookup "vulnerabilities" d = Some listed ->
      VATrivy.process (Some (JObj d)) file_type
      = VATrivy.process (Some (JObj [("vulnerabilities", listed)])) file_type).
Proof.
  intros Ha. unfold VATrivy.process, VATrivy.records. rewrite Ha.
  cbn [negb py_in getitem bind]. rewrite !has_key_lookup. split.
  - intros -> ->. reflexivity.
  - intros listed ->. reflexivity.
Qed.

Lemma trivy_shape_witness :
  VATrivy.accepts "json" = true /\
  VATrivy.process (Some (JObj [("SchemaVersion", JNum 2)])) "json"
  = Err (ValueError
           "Unsupported Trivy JSON format. Expected 'vulnerabilities' or 'Results' key.") /\
  VATrivy.process
    (Some (JObj [("Results", JArr [JNum 1]);
                 ("vulnerabilities", JArr [JObj Samples.legacy_vuln])])) "json"
  = VATrivy.process (Some Samples.legacy_doc) "json".
Proof.
  split; [ reflexivity | ].
  split.
  - apply (trivy_shape [("SchemaVersion", JNum 2)] "json" eq_refl); reflexivity.
  - apply (trivy_shape [("Results", JArr [JNum 1]);
                        ("vulnerabilities", JArr [JObj Samples.legacy_vuln])]
                       "json" eq_refl).
    reflexivity.
Defined.

Lemma truthy_py_or (a b : json) : truthy (py_or a b) = truthy a || truthy b.
Proof.
  unfold py_or. destruct (truthy a) eqn:E; [ exact E | reflexivity ].
Qed.

(** X19.  a legacy vulnerability that has an identifier never gets an empty
    name: the name falls back to the identifier after the package, the
    name and the message of the vulnerability. *)
Theorem legacy_name_never_empty (vuln data : json) (r : dict) :
  VATrivy._parse_legacy_vulnerability vuln data = Ok r ->
  forall cve, lookup "cve" r = Some cve -> truthy cve = true ->
  exists name, lookup "name" r = Some name /\ truthy name = true.
Proof.
  unfold VATrivy._parse_legacy_vulnerability. intros H.
  repeat inv_bind H. injection H as <-.
  intros cve Hc Ht. cbn in Hc. injection Hc as <-.
  eexists. split; [ reflexivity | ].
  repeat rewrite truthy_py_or in Ht. repeat rewrite truthy_py_or.
  rewrite Ht. now rewrite !orb_true_r.
Qed.

Lemma legacy_name_never_empty_witness :
  exists r name,
    VATrivy._parse_legacy_vulnerability (JObj Samples.legacy_vuln) Samples.legacy_doc
    = Ok r /\
    lookup "name" r = Some name /\ truthy name = true.
Proof.
  eexists.
  destruct (legacy_name_never_empty (JObj Samples.legacy_vuln) Samples.legacy_doc _
              eq_refl (JStr "CVE-2024-0002") eq_refl eq_refl) as [name H].
  exists name. split; [ reflexivity | exact H ].
Defined.

(** *** Matches of the pattern of the line number *)

Lemma run_seq (r1 r2 : Regex.regex) (st : Regex.state)
    (k : Regex.state -> option Regex.state) :
  Regex.run (Regex.Seq r1 r2) st k = Regex.run r1 st (fun st' => Regex.run r2 st' k).
Proof.
  reflexivity.
Qed.












Lemma strip_blank (sp : ascii -> bool) (s : string) :
  all_chars sp s = true -> Str.strip sp s = "".
Proof.
  intros H. unfold Str.strip.
  assert (Hl : Str.lstrip sp s = "").
  { induction s as [ | c s IH ]; [ reflexivity | ].
    cbn in H |- *. apply andb_true_iff in H. destruct H as [-> H]. now apply IH. }
  now rewrite Hl.
Qed.



Lemma run_lit_mismatch (lits s : string) (at_ : nat) (gs : list (nat * string))
    (k : Regex.state -> option Regex.state) :
  prefix lits s = false ->
  Regex.run (Regex.lit lits) (Regex.mkState at_ s gs) k = None.
Proof.
  revert s at_. induction lits as [ | c lits IH ]; intros s at_ H.
  - destruct s; discriminate.
  - cbn [Regex.lit]. rewrite run_seq. cbn [Regex.run]. unfold Regex.step.
    cbn [Regex.rest Regex.pos Regex.groups].
    destruct s as [ | d t ]; [ reflexivity | ].
    cbn [prefix] in H. destruct (ascii_dec c d) as [ -> | Hne ].
    + rewrite Ascii.eqb_refl. now apply IH.
    + apply Ascii.eqb_neq in Hne. now rewrite Hne.
Qed.

Lemma search_without_marker (fuel at_ : nat) (s : string) :
  Str.contains "Line:" s = false ->
  Regex.search_from (Regex.ast ThreatCode.line_pattern) fuel at_ s = None.
Proof.
  revert fuel at_. induction s as [ | c s IH ]; intros fuel at_ H.
  - destruct fuel; reflexivity.
  - cbn [Str.contains] in H. apply orb_false_iff in H. destruct H as [Hp Hc].
    assert (Hr : Regex.run (Regex.ast ThreatCode.line_pattern)
                   (Regex.mkState at_ (String c s) []) Some = None).
    { cbn [ThreatCode.line_pattern Regex.ast Regex.seq]. rewrite run_seq.
      now apply run_lit_mismatch. }
    destruct fuel; cbn [Regex.search_from]; rewrite Hr; [ reflexivity | now apply IH ].
Qed.

(** X21.  [extract_first_line_number] never returns a negative number, and
    it returns 0 for an output that is null, blank or without the marker
    "Line:". *)
Theorem extract_first_line_number_default :
  ThreatCode.extract_first_line_number JNull = Ok 0%Z /\
  (forall s, all_chars Str.py_space s = true ->
             ThreatCode.extract_first_line_number (JStr s) = Ok 0%Z) /\
  (forall s, Str.contains "Line:" s = false ->
             ThreatCode.extract_first_line_number (JStr s) = Ok 0%Z) /\
  (forall plugin_output n,
      ThreatCode.extract_first_line_number plugin_output = Ok n -> (0 <= n)%Z).
Proof.
  split; [ reflexivity | ]. split; [ | split ].
  - intros s H. unfold ThreatCode.extract_first_line_number.
    destruct (negb _); [ reflexivity | ]. now rewrite (strip_blank _ _ H).
  - intros s H. unfold ThreatCode.extract_first_line_number.
    destruct (negb _); [ reflexivity | ].
    destruct (String.eqb _ _); [ reflexivity | ].
    unfold Regex.extract, Regex.search. now rewrite search_without_marker.
  - exact line_number_nonneg.
Qed.

(** *** The rows of ThreatCode *)

Lemma eval_fill_null (v : cell) (e : Frame.expr) (r : row) (c : cell) :
  Frame.eval (Frame.fill_null v e) r = Ok c -> v <> JNull -> c <> JNull.
Proof.
  unfold Frame.fill_null. cbn [Frame.eval]. intros H Hv.
  destruct (Frame.eval e r) as [ x | ]; cbn [bind] in H; [ | discriminate H ].
  injection H as <-. destruct x; try exact Hv; destruct v; discriminate.
Qed.

Lemma eval_fill_cast (d : string) (e : Frame.expr) (r : row) (c : cell) :
  Frame.eval (Frame.fill_null (JStr d) (Frame.cast_utf8 e)) r = Ok c ->
  exists s, c = JStr s.
Proof.
  unfold Frame.fill_null, Frame.cast_utf8. cbn [Frame.eval]. intros H.
  destruct (Frame.eval e r) as [ x | ]; cbn [bind] in H; [ | discriminate H ].
  destruct x; cbn [bind] in H; try discriminate H; injection H as <-;
    eexists; reflexivity.
Qed.

Lemma threatcode_extracted_cells (df0 df1 : DataFrame) :
  ThreatCode.extracted df0 = Ok df1 ->
  forall r, In r (rows df1) ->
    (exists c, lookup "cve" r = Some c /\ c <> JNull) /\
    (exists s, lookup "vpr_score" r = Some (JStr s)) /\
    (lookup "port" r = Some JNull \/
     exists n, (0 <= n)%Z /\ lookup "port" r = Some (JNum n)).
Proof.
  unfold ThreatCode.extracted. intros H. inv_bind H. inv_bind H.
  apply select_inv in H. destruct H as [_ Hsel].
  apply with_columns_inv in E0. destruct E0 as [_ [_ Hwith]].
  intros r Hin.
  destruct (Forall2_in_r _ _ _ _ Hsel Hin) as [r1 [Hin1 Hrow]].
  destruct (Forall2_in_r _ _ _ _ Hwith Hin1) as [r2 [_ Hrow2]].
  apply with_columns_row_inv in Hrow2. destruct Hrow2 as [vals [Hv ->]].
  unfold Frame.select_row in Hrow. apply mapM_Forall2 in Hrow.
  inversion Hv as [ | a1 kv1 l1 l1' [Hk1 He1] Hv' ]; subst.
  inversion Hv'; subst. clear Hv Hv'.
  destruct kv1 as [k1 v1]. cbn [fst snd] in Hk1, He1. subst k1.
  assert (Hline : v1 = JNull \/ exists n, (0 <= n)%Z /\ v1 = JNum n).
  { unfold Frame.map_elements in He1. cbn [Frame.eval] in He1.
    destruct (lookup "plugin_output" r2) as [ c | ]; cbn [bind] in He1;
      [ | discriminate He1 ].
    destruct c; try (left; congruence);
      (destruct (ThreatCode.extract_first_line_number _) as [ n | ] eqn:En;
       [ | discriminate ]; cbn [bind] in He1; unfold Frame.int64 in He1;
       destruct (_ && _)%bool; [ | discriminate He1 ]; injection He1 as <-;
       right; exists n; split; [ | reflexivity ];
       now apply line_number_nonneg in En). }
  inv_Forall2.
  repeat match goal with
         | H : Frame.eval_named _ _ = Ok _ |- _ =>
             unfold Frame.eval_named in H; cbn [fst snd] in H
         end.
  repeat match goal with
         | H : bind (Frame.eval ?e ?r) _ = Ok _ |- _ =>
             let E := fresh "Ev" in
             destruct (Frame.eval e r) eqn:E; cbn [bind] in H;
             [ injection H as <- | discriminate H ]
         end.
  repeat match goal with
         | H : Frame.eval (Frame.fill_null (JStr "") _) _ = Ok _ |- _ =>
             apply eval_fill_null in H; [ | discriminate ]
         | H : Frame.eval (Frame.fill_null (JStr "0") _) _ = Ok _ |- _ =>
             apply eval_fill_cast in H; destruct H as [? ->]
         | H : Frame.eval (Frame.Col "line_number") _ = Ok _ |- _ =>
             cbn [Frame.eval] in H; unfold Frame.set_all in H;
             cbn [fold_left fst snd] in H; rewrite lookup_set in H;
             cbn [String.eqb Ascii.eqb Bool.eqb] in H; injection H as <-
         end.
  repeat split.
  - eexists. split; [ reflexivity | assumption ].
  - eexists. reflexivity.
  - destruct Hline as [ -> | [n [Hn ->]] ];
      [ left; reflexivity | right; exists n; split; [ assumption | reflexivity ] ].
Qed.

(** X22.  in every row of ThreatCode the CVE is never null, the score is
    always a text, and the port is null or a number that is not negative. *)
Theorem threatcode_cells (file : option DataFrame) (file_type : string)
    (df : DataFrame) :
  ThreatCode.process file file_type = Ok df ->
  forall r, In r (rows df) ->
    (exists c, lookup "cve" r = Some c /\ c <> JNull) /\
    (exists s, lookup "vpr_score" r = Some (JStr s)) /\
    (lookup "port" r = Some JNull \/
     exists n, (0 <= n)%Z /\ lookup "port" r = Some (JNum n)).
Proof.
  intros H. apply threatcode_process_inv in H.
  destruct H as [df0 [df1 [_ [He [_ Hr]]]]].
  intros r Hin. destruct (Hr r Hin) as [_ [r0 [Hin0 [_ Hs]]]].
  rewrite (substituted_other _ _ _ _ _ "cve" Hs eq_refl eq_refl).
  rewrite (substituted_other _ _ _ _ _ "vpr_score" Hs eq_refl eq_refl).
  rewrite (substituted_other _ _ _ _ _ "port" Hs eq_refl eq_refl).
  exact (threatcode_extracted_cells df0 df1 He r0 Hin0).
Qed.

Lemma threatcode_cells_witness :
  exists df r,
    ThreatCode.process (Some Samples.threatcode_frame) "csv" = Ok df /\
    In r (rows df) /\
    (exists c, lookup "cve" r = Some c /\ c <> JNull) /\
    (exists s, lookup "vpr_score" r = Some (JStr s)) /\
    (lookup "port" r = Some JNull \/
     exists n, (0 <= n)%Z /\ lookup "port" r = Some (JNum n)).
Proof.
  eexists. eexists. split; [ vm_compute; reflexivity | ].
  split; [ left; reflexivity | ].
  apply (threatcode_cells (Some Samples.threatcode_frame) "csv" _ eq_refl).
  left. reflexivity.
Defined.

(** *** The columns of the compliance plugin *)

(** X23.  the frame of the compliance plugin always has the columns
    "status", "remediation", "name", "description", "evidence" and "risk",
    and never a column "VPR Score", "CVE", "Name", "Plugin Output",
    "Description", "Solution" or "Risk". *)
Theorem compliance_columns (file : option DataFrame) (file_type : string)
    (df : DataFrame) :
  ComplianceNessus.process file file_type = Ok df ->
  (forall k,
      In k ["status"; "remediation"; "name"; "description"; "evidence"; "risk"] ->
      In k (columns df)) /\
  (forall k,
      In k ["VPR Score"; "CVE"; "Name"; "Plugin Output"; "Description"; "Solution";
            "Risk"] ->
      ~ In k (columns df)).
Proof.
  unfold ComplianceNessus.process. destruct (negb _); [ discriminate | ].
  destruct file as [ lf | ]; [ | discriminate ].
  intros H. repeat inv_bind H.
  apply with_columns_inv in E. destruct E as [_ [Hc _]].
  apply filter_inv in E0. destruct E0 as [Hc0 _].
  apply rename_inv in E1. destruct E1 as [Hm [Hc1 _]].
  apply drop_inv in H. destruct H as [Hc2 _].
  cbn [fold_left fst] in Hc.
  set (f := Frame.renamed [("Solution", "remediation"); ("Risk", "status")]) in *.
  assert (Hin : forall k k',
             In k' (columns a0) -> f k' = k ->
             Str.mem k ["VPR Score"; "CVE"; "Name"; "Plugin Output"; "Description"]
             = false ->
             In k (columns df)).
  { intros k k' Hk' Hf Hd. rewrite Hc2. apply filter_In. split.
    - rewrite Hc1. apply in_map_iff. now exists k'.
    - now rewrite Hd. }
  assert (Hadd : forall k, In k ["name"; "description"; "evidence"; "risk"] ->
                           In k (columns a0)).
  { intros k Hk. rewrite Hc0, Hc. rewrite !In_add_name. cbn in Hk. intuition. }
  split.
  - intros k Hk. cbn in Hk.
    destruct Hk as [ <- | [ <- | [ <- | [ <- | [ <- | [ <- | [] ] ] ] ] ] ].
    + apply (Hin "status" "Risk"); [ apply (Hm ("Risk", "status")) | | ];
        (reflexivity || (cbn; tauto)).
    + apply (Hin "remediation" "Solution");
        [ apply (Hm ("Solution", "remediation")) | | ];
        (reflexivity || (cbn; tauto)).
    + apply (Hin "name" "name"); [ apply Hadd; cbn; tauto | | ]; reflexivity.
    + apply (Hin "description" "description"); [ apply Hadd; cbn; tauto | | ];
        reflexivity.
    + apply (Hin "evidence" "evidence"); [ apply Hadd; cbn; tauto | | ]; reflexivity.
    + apply (Hin "risk" "risk"); [ apply Hadd; cbn; tauto | | ]; reflexivity.
  - intros k Hk Hcol. rewrite Hc2 in Hcol. apply filter_In in Hcol.
    destruct Hcol as [Hcol Hkeep]. cbn in Hk.
    destruct Hk as [ <- | [ <- | [ <- | [ <- | [ <- | Hk ] ] ] ] ];
      try discriminate Hkeep.
    rewrite Hc1 in Hcol. apply in_map_iff in Hcol. destruct Hcol as [k' [Hf _]].
    unfold f in Hf. cbn [Frame.renamed] in Hf.
    destruct (String.eqb k' "Solution") eqn:Es;
      [ destruct Hk as [ <- | [ <- | [] ] ]; discriminate Hf | ].
    destruct (String.eqb k' "Risk") eqn:Er;
      [ destruct Hk as [ <- | [ <- | [] ] ]; discriminate Hf | ].
    subst k'. destruct Hk as [ <- | [ <- | [] ] ]; discriminate.
Qed.

Lemma compliance_columns_witness :
  exists df,
    ComplianceNessus.process (Some Samples.nessus_frame) "text/csv" = Ok df /\
    (forall k,
        In k ["status"; "remediation"; "name"; "description"; "evidence"; "risk"] ->
        In k (columns df)) /\
    (forall k,
        In k ["VPR Score"; "CVE"; "Name"; "Plugin Output"; "Description"; "Solution";
              "Risk"] ->
        ~ In k (columns df)).
Proof.
  eexists. split; [ vm_compute; reflexivity | ].
  apply (compliance_columns (Some Samples.nessus_frame) "text/csv"). reflexivity.
Defined.

(** *** When ThreatCode raises nothing *)



(** *** The host of a URL *)

Lemma all_chars_has (p : ascii -> bool) (s : string) (d : ascii) :
  all_chars p s = true -> Str.has_char d s = true -> p d = true.
Proof.
  induction s as [ | c s IH ]; cbn; [ discriminate | ].
  intros H Hd. apply andb_true_iff in H. destruct H as [Hc Hs].
  destruct (Ascii.eqb_spec d c) as [ -> | _ ]; [ exact Hc | now apply IH ].
Qed.

Lemma has_char_absent (p : ascii -> bool) (s : string) (d : ascii) :
  all_chars p s = true -> p d = false -> Str.has_char d s = false.
Proof.
  intros H Hd. destruct (Str.has_char d s) eqn:E; [ | reflexivity ].
  rewrite (all_chars_has p s d H E) in Hd. discriminate.
Qed.

Lemma contains_tail (sub : string) (c : ascii) (s : string) :
  Str.contains sub (String c s) = false ->
  prefix sub (String c s) = false /\ Str.contains sub s = false.
Proof.
  cbn [Str.contains]. intros H. now apply orb_false_iff in H.
Qed.

Lemma scheme_prefix (old x : string) :
  old = "https://" \/ old = "http://" ->
  prefix old x = true -> Str.contains "://" x = true.
Proof.
  intros [ -> | -> ] Hx;
    repeat (destruct x as [ | ? x ]; [ discriminate Hx | ];
            cbn [prefix] in Hx;
            match type of Hx with
            | (if ?b then _ else _) = _ => destruct b; [ subst | discriminate Hx ]
            end);
    cbn; now rewrite Hx.
Qed.

Lemma replace_from_none (old new s : string) :
  (forall x, prefix old x = true -> Str.contains "://" x = true) ->
  Str.contains "://" s = false ->
  Str.replace_from old new 0 s = s.
Proof.
  intros Hp. induction s as [ | c s IH ]; intros H; [ reflexivity | ].
  cbn [Str.replace_from]. destruct (prefix old (String c s)) eqn:E.
  - apply Hp in E. congruence.
  - apply contains_tail in H. destruct H as [_ Hs]. now rewrite IH.
Qed.

(** A scheme does not occur in a text without "://". *)
Lemma no_scheme (old s : string) :
  old = "https://" \/ old = "http://" ->
  Str.contains "://" s = false ->
  Str.replace old "" s = s.
Proof.
  intros Hold Hs.
  assert (H : Str.replace old "" s = Str.replace_from old "" 0 s)
    by (destruct Hold as [ -> | -> ]; reflexivity).
  rewrite H. apply replace_from_none; [ | exact Hs ].
  intros x. now apply scheme_prefix.
Qed.

Lemma replace_from_keep (old new : string) (c : ascii) (s : string) :
  prefix old (String c s) = false ->
  Str.replace_from old new 0 (String c s) = String c (Str.replace_from old new 0 s).
Proof.
  intros H. cbn [Str.replace_from]. now rewrite H.
Qed.

Lemma replace_from_hit (old new : string) (c : ascii) (s : string) :
  prefix old (String c s) = true ->
  Str.replace_from old new 0 (String c s)
  = new ++ Str.replace_from old new (String.length old - 1) s.
Proof.
  intros H. cbn [Str.replace_from]. now rewrite H.
Qed.

Lemma replace_from_skip (old new : string) (k : nat) (c : ascii) (s : string) :
  Str.replace_from old new (S k) (String c s) = Str.replace_from old new k s.
Proof.
  reflexivity.
Qed.

Lemma prefix_cons_eq (c : ascii) (old s : string) :
  prefix (String c old) (String c s) = prefix old s.
Proof.
  cbn [prefix]. destruct (ascii_dec c c); [ reflexivity | contradiction ].
Qed.

Lemma prefix_cons_neq (o c : ascii) (old s : string) :
  Ascii.eqb o c = false -> prefix (String o old) (String c s) = false.
Proof.
  intros H. cbn [prefix]. destruct (ascii_dec o c) as [ -> | ]; [ | reflexivity ].
  rewrite Ascii.eqb_refl in H. discriminate.
Qed.

Lemma prefix_nil (s : string) : prefix "" s = true.
Proof.
  destruct s; reflexivity.
Qed.

Ltac prefix_solve :=
  repeat rewrite prefix_cons_eq;
  first [ rewrite prefix_cons_neq by reflexivity | rewrite prefix_nil ];
  reflexivity.

Lemma before_app (c : ascii) (a b : string) :
  Str.has_char c a = false -> Str.before c (a ++ b) = a ++ Str.before c b.
Proof.
  induction a as [ | d a IH ]; [ reflexivity | ].
  cbn. intros H. apply orb_false_iff in H. destruct H as [Hd Ha].
  rewrite Hd. now rewrite IH.
Qed.

Lemma append_empty (a : string) : a ++ "" = a.
Proof.
  induction a as [ | c a IH ]; [ reflexivity | ]. cbn. now rewrite IH.
Qed.

(** What [clean_scope] does once the scheme is gone. *)
Lemma host_of_rest (h t : string) :
  all_chars Ywh2csv.host_char h = true ->
  t = "" \/ head_is (fun c => Ascii.eqb c "/" || Ascii.eqb c ":") t = true ->
  (let cleaned := h ++ t in
   let cleaned :=
     if Str.has_char "/" cleaned then Str.before "/" cleaned else cleaned in
   let cleaned :=
     if Str.has_char ":" cleaned then Str.before ":" cleaned else cleaned in
   Str.filter_chars Ywh2csv.host_char cleaned) = h.
Proof.
  intros Hh Ht. cbv zeta.
  assert (Hslash : Str.has_char "/" h = false) by now apply (has_char_absent _ _ _ Hh).
  assert (Hcolon : Str.has_char ":" h = false) by now apply (has_char_absent _ _ _ Hh).
  assert (Hall : Str.filter_chars Ywh2csv.host_char h = h).
  { apply filter_chars_all. intros d. now apply all_chars_has. }
  destruct Ht as [ -> | Ht ].
  - rewrite append_empty, Hslash, Hcolon. exact Hall.
  - destruct t as [ | c t ]; [ discriminate Ht | ]. cbn [head_is] in Ht.
    apply orb_true_iff in Ht. destruct Ht as [ Ht | Ht ];
      apply Ascii.eqb_eq in Ht; subst c.
    + assert (Hb : Str.before "/" (h ++ String "/" t) = h).
      { rewrite before_app by assumption. cbn. apply append_empty. }
      rewrite has_char_app, Hslash. cbn [Str.has_char orb].
      rewrite Ascii.eqb_refl. cbn [orb].
      rewrite Hb, Hcolon. exact Hall.
    + assert (Hb : forall u, Str.before ":" (h ++ String ":" u) = h).
      { intros u. rewrite before_app by assumption. cbn. apply append_empty. }
      destruct (Str.has_char "/" (h ++ String ":" t)).
      * rewrite before_app by assumption.
        change (Str.before "/" (String ":" t)) with (String ":" (Str.before "/" t)).
        rewrite has_char_app, Hcolon. cbn [Str.has_char orb].
        rewrite Ascii.eqb_refl. cbn [orb].
        rewrite Hb. exact Hall.
      * rewrite has_char_app, Hcolon. cbn [Str.has_char orb].
        rewrite Ascii.eqb_refl. cbn [orb].
        rewrite Hb. exact Hall.
Qed.

Lemma contains_app_r (sub a b : string) :
  Str.contains sub (a ++ b) = false -> Str.contains sub b = false.
Proof.
  induction a as [ | c a IH ]; [ trivial | ].
  cbn [append]. intros H. apply contains_tail in H. now apply IH.
Qed.

(** X25.  the host of a URL: for a text made of a scheme "http://" or
    "https://", or of none, then of a host name of letters, digits, dots and
    hyphens, then of nothing or of a port or a path, [clean_scope] returns
    the host name, provided that what follows the host has no white space,
    no backslash and, with the host, no "://". *)
Theorem clean_scope_url (scheme h t : string) :
  In scheme [""; "http://"; "https://"] ->
  h <> "" ->
  all_chars Ywh2csv.host_char h = true ->
  t = "" \/ head_is (fun c => Ascii.eqb c "/" || Ascii.eqb c ":") t = true ->
  all_chars (fun c => negb (Str.py_space c) && negb (Ascii.eqb c (ascii_of_nat 92))) t
  = true ->
  Str.contains "://" (h ++ t) = false ->
  Ywh2csv.clean_scope (JStr (scheme ++ h ++ t)) = h.
Proof.
  intros Hs Hne Hh Ht Hclean Hno.
  unfold Ywh2csv.clean_scope.
  assert (Htruthy : truthy (JStr (scheme ++ h ++ t)) = true).
  { destruct h; [ contradiction | ].
    destruct Hs as [ <- | [ <- | [ <- | [] ] ] ]; reflexivity. }
  rewrite Htruthy. cbn [negb py_str]. cbv zeta.
  assert (Hchars : forall d, Str.has_char d (scheme ++ h ++ t) = true ->
                             Str.py_space d = false /\
                             Ascii.eqb d (ascii_of_nat 92) = false).
  { intros d Hd. rewrite !has_char_app in Hd.
    apply orb_true_iff in Hd. destruct Hd as [ Hd | Hd ].
    - destruct Hs as [ <- | [ <- | [ <- | [] ] ] ]; [ discriminate Hd | | ];
        cbn [Str.has_char] in Hd;
        repeat match type of Hd with
               | (Ascii.eqb d ?c || _) = true =>
                   let E := fresh "E" in
                   destruct (Ascii.eqb d c) eqn:E;
                   [ apply Ascii.eqb_eq in E; rewrite E; split; reflexivity
                   | cbn [orb] in Hd ]
               end; discriminate Hd.
    - apply orb_true_iff in Hd. destruct Hd as [ Hd | Hd ].
      + pose proof (all_chars_has _ _ _ Hh Hd) as Hc. split.
        * now apply host_char_no_space.
        * destruct (Ascii.eqb_spec d (ascii_of_nat 92)) as [ -> | _ ];
            [ discriminate Hc | reflexivity ].
      + pose proof (all_chars_has _ _ _ Hclean Hd) as Hc.
        apply andb_true_iff in Hc. destruct Hc as [H1 H2].
        apply negb_true_iff in H1, H2. now split. }
  rewrite strip_none by (intros d Hd; now destruct (Hchars d Hd)).
  rewrite (replace_absent (ascii_of_nat 92) "\/" "/")
    by (reflexivity ||
        (destruct (Str.has_char (ascii_of_nat 92) (scheme ++ h ++ t)) eqn:E;
         [ destruct (Hchars _ E) as [_ Hb]; discriminate Hb | reflexivity ])).
  assert (Hx : Str.replace_from "https://" "" 0 (h ++ t) = h ++ t).
  { apply replace_from_none; [ | exact Hno ]. intros x. apply scheme_prefix. tauto. }
  assert (Hy : Str.replace_from "http://" "" 0 (h ++ t) = h ++ t).
  { apply replace_from_none; [ | exact Hno ]. intros x. apply scheme_prefix. tauto. }
  assert (Hrest : Str.replace "http://" ""
                    (Str.replace "https://" "" (scheme ++ h ++ t)) = h ++ t).
  { unfold Str.replace.
    destruct Hs as [ <- | [ <- | [ <- | [] ] ] ]; cbn [append].
    - now rewrite Hx, Hy.
    - repeat (rewrite (replace_from_keep "https://") by prefix_solve).
      rewrite Hx.
      rewrite (replace_from_hit "http://") by prefix_solve.
      cbn [String.length Nat.sub]. rewrite !replace_from_skip. exact Hy.
    - rewrite (replace_from_hit "https://") by prefix_solve.
      cbn [String.length Nat.sub]. rewrite !replace_from_skip. cbn [append].
      now rewrite Hx, Hy. }
  rewrite Hrest. now apply host_of_rest.
Qed.

Lemma clean_scope_url_witness :
  Ywh2csv.clean_scope (JStr ("https://" ++ "sub.domain.com" ++ ":8080/path"))
  = "sub.domain.com".
Proof.
  apply (clean_scope_url "https://" "sub.domain.com" ":8080/path").
  - cbn. tauto.
  - discriminate.
  - reflexivity.
  - right. reflexivity.
  - reflexivity.
  - reflexivity.
Defined.
